(** * NVDA magnifier plugin: focus arbitration and viewport geometry

    A shallow embedding of [globalPlugins/maginifier-mouse-latest.py] (and of
    the viewport function of the older [maginifier-mouse-centered.py]).

    Numbers.  Python [int] is [Z].  Python [float] is modelled by exact
    rationals [Q]: no rounding and no overflow is modelled.  The zoom levels
    the plugin can reach are the multiples of 0.5 between 1.5 and 10.0, which
    binary floating point represents and adds exactly.  [int(f)] is truncation
    toward zero.  Where a float is rounded or overflows, the interpreter and
    exact arithmetic part; [Binary64] has the viewport function on IEEE
    doubles, and the properties that depend on the difference say where they
    hold.

    Effects.  The plugin object ([self]) and the outside world (pointer
    device, screen reader, screen metrics, magnification API, the armed
    [wx.CallLater] timers and the calls made so far) are threaded through a
    state monad that can also raise ([ZeroDivisionError] on a zero zoom). *)

From Stdlib Require Import ZArith QArith Qabs Qround Lqa Lia List Bool.
From Stdlib Require PrimFloat SpecFloat FloatOps.
Import ListNotations.

Local Open Scope Z_scope.

(** ** Python numbers *)

Module Py.

(** [int(f)] on a float: truncation toward zero. *)
Definition int (q : Q) : Z := Z.quot (Qnum q) (Zpos (Qden q)).

(** An [int] used where a float is expected. *)
Definition float (n : Z) : Q := inject_Z n.

Definition ltb (a b : Q) : bool := negb (Qle_bool b a).
Definition gtb (a b : Q) : bool := ltb b a.
Definition neb (a b : Q) : bool := negb (Qeq_bool a b).

(** [min(a, b)] and [max(a, b)] return the first argument on a tie. *)
Definition min (a b : Q) : Q := if ltb b a then b else a.
Definition max (a b : Q) : Q := if gtb b a then b else a.

(** Tuples of two ints, compared with [!=]. *)
Definition point : Type := (Z * Z)%type.

Definition point_neb (p q : point) : bool :=
  negb (Z.eqb (fst p) (fst q) && Z.eqb (snd p) (snd q)).

End Py.

Coercion Py.float : Z >-> Q.

(** ** Configuration constants *)

Definition ZOOM_MIN : Q := 15 # 10.
Definition ZOOM_MAX : Q := 10 # 1.
Definition ZOOM_STEP : Q := 5 # 10.
Definition TIMER_INTERVAL_MS : Z := 10.
Definition MARGIN_BORDER : Z := 50.

(** ** The plugin object and the world around it *)

Inductive Mode : Set := center | border.

(** Identity of a [wx.CallLater] object. *)
Definition timer_id : Set := nat.

Record plugin : Type := mkPlugin {
  timer : option timer_id;
  magnifier_is_on : bool;
  zoom : Q;
  last_mouse_pos : Py.point;
  last_nvda_pos : Py.point;
  last_screen_left : Q;
  last_screen_top : Q;
  mode : Mode
}.

(** The texts handed to [ui.message]. *)
Inductive message : Type :=
| MsgStarted (m : Mode)        (* "la loupe a debute avec le mode ..." *)
| MsgStopped                   (* "La loupe s'arrete" *)
| MsgModeBorder                (* "mode de zoom change a bordure" *)
| MsgModeCenter                (* "mode de zoom change a centre" *)
| MsgEnableBeforeMode          (* "activez la loupe ... avant de changer de mode" *)
| MsgZoomLevel (z : Q)         (* "Niveau de zoom change a {zoom}" *)
| MsgEnableBeforeZoom.         (* "activez la loupe ... avant de zoomer" *)

Inductive log_line : Type :=
| LogResetFailed | LogResetDone | LogSetFailed | LogApiMissing | LogNoLocation.

(** What the plugin does to its collaborators, in the order it does it. *)
Inductive event : Type :=
| MagTransform (z : Q) (left top : Z)  (* the call made by [_centerMagnifier] *)
| MagReset                             (* the call (1.0, 0, 0) made by [_resetMagnifier] *)
| SetCursorPos (x y : Z)
| UiMessage (m : message)
| LogInfo (l : log_line).

Record world : Type := mkWorld {
  cursor : Py.point;                        (* GetCursorPos / setCursorPos *)
  review_point : option Py.point;           (* getReviewPosition().pointAtStart *)
  navigator_location : option (Z * Z * Z * Z);
  screen_width : Z;                         (* GetSystemMetrics(0) *)
  screen_height : Z;                        (* GetSystemMetrics(1) *)
  magnification : option bool;              (* None: AttributeError; Some r: BOOL result *)
  running : list timer_id;                  (* armed CallLater objects *)
  next_timer : timer_id;
  trace : list event
}.

Record sys : Type := mkSys { self : plugin; env : world }.

(** *** Field updates *)

Definition set_timer (t : option timer_id) (p : plugin) : plugin :=
  mkPlugin t (magnifier_is_on p) (zoom p) (last_mouse_pos p) (last_nvda_pos p)
           (last_screen_left p) (last_screen_top p) (mode p).

Definition set_magnifier_is_on (b : bool) (p : plugin) : plugin :=
  mkPlugin (timer p) b (zoom p) (last_mouse_pos p) (last_nvda_pos p)
           (last_screen_left p) (last_screen_top p) (mode p).

Definition set_zoom (z : Q) (p : plugin) : plugin :=
  mkPlugin (timer p) (magnifier_is_on p) z (last_mouse_pos p) (last_nvda_pos p)
           (last_screen_left p) (last_screen_top p) (mode p).

Definition set_last_mouse_pos (m : Py.point) (p : plugin) : plugin :=
  mkPlugin (timer p) (magnifier_is_on p) (zoom p) m (last_nvda_pos p)
           (last_screen_left p) (last_screen_top p) (mode p).

Definition set_last_nvda_pos (n : Py.point) (p : plugin) : plugin :=
  mkPlugin (timer p) (magnifier_is_on p) (zoom p) (last_mouse_pos p) n
           (last_screen_left p) (last_screen_top p) (mode p).

Definition set_last_screen (l t : Q) (p : plugin) : plugin :=
  mkPlugin (timer p) (magnifier_is_on p) (zoom p) (last_mouse_pos p)
           (last_nvda_pos p) l t (mode p).

Definition set_mode (m : Mode) (p : plugin) : plugin :=
  mkPlugin (timer p) (magnifier_is_on p) (zoom p) (last_mouse_pos p)
           (last_nvda_pos p) (last_screen_left p) (last_screen_top p) m.

Definition set_cursor (c : Py.point) (w : world) : world :=
  mkWorld c (review_point w) (navigator_location w) (screen_width w)
          (screen_height w) (magnification w) (running w) (next_timer w) (trace w).

Definition set_review (r : option Py.point) (w : world) : world :=
  mkWorld (cursor w) r (navigator_location w) (screen_width w)
          (screen_height w) (magnification w) (running w) (next_timer w) (trace w).

Definition set_timers (r : list timer_id) (n : timer_id) (w : world) : world :=
  mkWorld (cursor w) (review_point w) (navigator_location w) (screen_width w)
          (screen_height w) (magnification w) r n (trace w).

Definition emit (e : event) (w : world) : world :=
  mkWorld (cursor w) (review_point w) (navigator_location w) (screen_width w)
          (screen_height w) (magnification w) (running w) (next_timer w)
          (trace w ++ [e]).

(** ** The monad: state plus exceptions *)

(** Division by a zero float raises [ZeroDivisionError]; [int()] raises
    [OverflowError] on an infinite float and [ValueError] on a NaN. *)
Inductive exn : Set := ZeroDivisionError | OverflowError | ValueError.

Inductive res (A : Type) : Type :=
| Ret (a : A)
| Raise (e : exn).
Arguments Ret {A} a.
Arguments Raise {A} e.

Definition M (A : Type) : Type := sys -> res A * sys.

Definition ret {A} (a : A) : M A := fun s => (Ret a, s).

Definition raise {A} (e : exn) : M A := fun s => (Raise e, s).

Definition bind {A B} (m : M A) (f : A -> M B) : M B :=
  fun s => match m s with
           | (Ret a, s') => f a s'
           | (Raise e, s') => (Raise e, s')
           end.

Notation "x <- m ;; k" := (bind m (fun x => k))
  (at level 61, m at next level, right associativity).
Notation "m ;;; k" := (bind m (fun _ => k))
  (at level 61, right associativity).

Definition get_self {A} (f : plugin -> A) : M A := fun s => (Ret (f (self s)), s).
Definition get_env {A} (f : world -> A) : M A := fun s => (Ret (f (env s)), s).
Definition upd_self (f : plugin -> plugin) : M unit :=
  fun s => (Ret tt, mkSys (f (self s)) (env s)).
Definition upd_env (f : world -> world) : M unit :=
  fun s => (Ret tt, mkSys (self s) (f (env s))).

Definition ui_message (m : message) : M unit := upd_env (emit (UiMessage m)).
Definition log_info (l : log_line) : M unit := upd_env (emit (LogInfo l)).

(** The state a computation ends in, and what it returns. *)
Definition exec {A} (m : M A) (s : sys) : sys := snd (m s).
Definition eval {A} (m : M A) (s : sys) : res A := fst (m s).

(** *** wx.CallLater *)

(** [wx.CallLater(TIMER_INTERVAL_MS, self._chooseFocus)]: a fresh armed
    timer.  Time itself is not modelled: an armed timer may elapse at any
    later moment (see [fire]). *)
Definition CallLater : M timer_id :=
  t <- get_env next_timer ;;
  upd_env (fun w => set_timers (t :: running w) (S t) w) ;;;
  ret t.

(** [timer.Stop()]. *)
Definition Stop (t : timer_id) : M unit :=
  upd_env (fun w => set_timers (remove Nat.eq_dec t (running w)) (next_timer w) w).

(** ** The plugin *)

(** [GlobalPlugin.__init__]: the fields it sets.  Its last statement,
    [_loadMagnification], initialises the magnification API once and touches
    no field; whether the API is there is the world's [magnification]. *)
Definition __init__ : plugin :=
  mkPlugin None false (2 # 1) (0, 0) (0, 0) 0 0 center.

(** [_resetMagnifier]. *)
Definition _resetMagnifier : M unit :=
  api <- get_env magnification ;;
  match api with
  | Some result =>
      upd_env (emit MagReset) ;;;
      if negb result then log_info LogResetFailed else log_info LogResetDone
  | None => log_info LogApiMissing
  end.

(** [_getMagnifierWindow(x, y)]: (left, top, visible_width, visible_height),
    in exact arithmetic; [Binary64._getMagnifierWindow] is the same function
    on doubles. *)
Definition _getMagnifierWindow (x y : Q) : M (Z * Z * Q * Q) :=
  screen_width <- get_env screen_width ;;
  screen_height <- get_env screen_height ;;
  zoom <- get_self zoom ;;
  if Qeq_bool zoom 0 then raise ZeroDivisionError else
  let visible_width := (screen_width / zoom)%Q in
  let visible_height := (screen_height / zoom)%Q in
  let left := Py.int (x - visible_width / 2) in
  let top := Py.int (y - visible_height / 2) in
  let left := Z.max 0 (Z.min left (Py.int (screen_width - visible_width))) in
  let top := Z.max 0 (Z.min top (Py.int (screen_height - visible_height))) in
  ret (left, top, visible_width, visible_height).

(** [_continueMagnifier]: re-arm while on, otherwise tear down. *)
Definition _continueMagnifier : M unit :=
  t <- get_self timer ;;
  match t with Some t => Stop t | None => ret tt end ;;;
  on <- get_self magnifier_is_on ;;
  if on then
    t <- CallLater ;;
    upd_self (set_timer (Some t))
  else
    upd_self (set_timer None) ;;;
    _resetMagnifier.

(** [_centerMagnifier(x, y)].  The event records the Python values handed
    to [c_float] and [c_int]. *)
Definition _centerMagnifier (x y : Q) : M unit :=
  w <- _getMagnifierWindow x y ;;
  let '(left_, top_, _, _) := w in
  api <- get_env magnification ;;
  match api with
  | Some result =>
      zoom <- get_self zoom ;;
      upd_env (emit (MagTransform zoom left_ top_)) ;;;
      if negb result then log_info LogSetFailed else ret tt
  | None => log_info LogApiMissing
  end ;;;
  _continueMagnifier.

(** [_getNVDAPosition]: the review point, else the centre of the navigator
    object, else (0, 0). *)
Definition _getNVDAPosition : M Py.point :=
  review <- get_env review_point ;;
  match review with
  | Some point => ret point
  | None =>
      location <- get_env navigator_location ;;
      match location with
      | Some (left_, top_, width, height) =>
          ret (left_ + width / 2, top_ + height / 2)
      | None => log_info LogNoLocation ;;; ret (0, 0)
      end
  end.

(** [_getMousePosition]. *)
Definition _getMousePosition : M Py.point := get_env cursor.

(** [winUser.setCursorPos(x, y)]: the pointer device is moved there, and
    [GetCursorPos] reads that position until the user moves the pointer. *)
Definition setCursorPos (pos : Py.point) : M unit :=
  upd_env (fun w => emit (SetCursorPos (fst pos) (snd pos)) (set_cursor pos w)).

(** The [if mouse < min: ... elif mouse > max: ...] of [_isMouseNearBorder],
    which the source writes once for x and once for y. *)
Definition border_delta (min_v max_v : Q) (mouse_v : Z) : Q :=
  if Py.ltb mouse_v min_v then mouse_v - min_v
  else if Py.gtb mouse_v max_v then mouse_v - max_v
  else 0.

(** [_isMouseNearBorder]: the anchor, moved so that the pointer is back at
    the margin. *)
Definition _isMouseNearBorder : M (Q * Q) :=
  last_left <- get_self last_screen_left ;;
  last_top <- get_self last_screen_top ;;
  w <- _getMagnifierWindow last_left last_top ;;
  let '(left_, top_, visible_width, visible_height) := w in
  mouse <- _getMousePosition ;;
  let '(mouse_x, mouse_y) := mouse in
  upd_self (set_last_mouse_pos (mouse_x, mouse_y)) ;;;
  let min_x : Q := (left_ + MARGIN_BORDER)%Z in
  let max_x : Q := (left_ + visible_width - MARGIN_BORDER)%Q in
  let min_y : Q := (top_ + MARGIN_BORDER)%Z in
  let max_y : Q := (top_ + visible_height - MARGIN_BORDER)%Q in
  let dx := border_delta min_x max_x mouse_x in
  let dy := border_delta min_y max_y mouse_y in
  (if Py.neb dx 0 || Py.neb dy 0 then
     upd_self (fun p => set_last_screen (last_screen_left p + dx)
                                        (last_screen_top p + dy) p)
   else ret tt) ;;;
  l <- get_self last_screen_left ;;
  t <- get_self last_screen_top ;;
  ret (l, t).

(** [_focusOnNvda(pos)]. *)
Definition _focusOnNvda (pos : Py.point) : M (Q * Q) :=
  upd_self (set_last_nvda_pos pos) ;;;
  upd_self (set_last_screen (fst pos) (snd pos)) ;;;
  setCursorPos pos ;;;
  ret (Py.float (fst pos), Py.float (snd pos)).

(** [_focusOnMouse(pos)]. *)
Definition _focusOnMouse (pos : Py.point) : M (Q * Q) :=
  upd_self (set_last_mouse_pos pos) ;;;
  m <- get_self mode ;;
  match m with
  | border => _isMouseNearBorder
  | center =>
      upd_self (set_last_screen (fst pos) (snd pos)) ;;;
      ret (Py.float (fst pos), Py.float (snd pos))
  end.

(** [_chooseFocus]: one tick. *)
Definition _chooseFocus : M unit :=
  nvda_pos <- _getNVDAPosition ;;
  mouse_pos <- _getMousePosition ;;
  last_nvda <- get_self last_nvda_pos ;;
  last_mouse <- get_self last_mouse_pos ;;
  if Py.point_neb last_nvda nvda_pos then
    focus_pos <- _focusOnNvda nvda_pos ;;
    _centerMagnifier (fst focus_pos) (snd focus_pos)
  else if Py.point_neb last_mouse mouse_pos then
    focus_pos <- _focusOnMouse mouse_pos ;;
    _centerMagnifier (fst focus_pos) (snd focus_pos)
  else
    _continueMagnifier.

(** [script_toggleMagnifier]. *)
Definition script_toggleMagnifier : M unit :=
  on <- get_self magnifier_is_on ;;
  if negb on then
    upd_self (set_magnifier_is_on true) ;;;
    t <- CallLater ;;
    upd_self (set_timer (Some t)) ;;;
    m <- get_self mode ;;
    ui_message (MsgStarted m)
  else
    upd_self (set_magnifier_is_on false) ;;;
    _resetMagnifier ;;;
    ui_message MsgStopped.

(** [_zoom(direction)]: +1 zooms in, -1 zooms out. *)
Definition _zoom (direction : Z) : M unit :=
  on <- get_self magnifier_is_on ;;
  if on then
    (if 0 <? direction then
       upd_self (fun p => set_zoom (Py.min (zoom p + ZOOM_STEP) ZOOM_MAX) p)
     else
       upd_self (fun p => set_zoom (Py.max (zoom p - ZOOM_STEP) ZOOM_MIN) p)) ;;;
    z <- get_self zoom ;;
    ui_message (MsgZoomLevel z) ;;;
    l <- get_self last_screen_left ;;
    t <- get_self last_screen_top ;;
    _centerMagnifier l t
  else
    ui_message MsgEnableBeforeZoom.

Definition script_zoomIn : M unit := _zoom 1.
Definition script_zoomOut : M unit := _zoom (-1).

(** [script_toggleMouseMode]. *)
Definition script_toggleMouseMode : M unit :=
  on <- get_self magnifier_is_on ;;
  if on then
    m <- get_self mode ;;
    match m with
    | center => upd_self (set_mode border) ;;; ui_message MsgModeBorder
    | border => upd_self (set_mode center) ;;; ui_message MsgModeCenter
    end
  else
    ui_message MsgEnableBeforeMode.

(** ** What can happen to a running plugin *)

Inductive action : Type :=
| Toggle | ZoomIn | ZoomOut | ToggleMouseMode     (* the four gestures *)
| TimerFires (t : timer_id)                       (* an armed CallLater elapses *)
| PointerMoves (p : Py.point)                     (* the user moves the pointer *)
| ReviewMoves (r : option Py.point).              (* the screen reader's point moves *)

(** An armed timer that elapses is no longer armed and calls [_chooseFocus];
    a timer that was stopped never fires. *)
Definition fire (t : timer_id) : M unit :=
  armed <- get_env running ;;
  if existsb (Nat.eqb t) armed then
    Stop t ;;;
    _chooseFocus
  else ret tt.

Definition step (a : action) : M unit :=
  match a with
  | Toggle => script_toggleMagnifier
  | ZoomIn => script_zoomIn
  | ZoomOut => script_zoomOut
  | ToggleMouseMode => script_toggleMouseMode
  | TimerFires t => fire t
  | PointerMoves p => upd_env (set_cursor p)
  | ReviewMoves r => upd_env (set_review r)
  end.

(** An exception raised inside a gesture or a timer callback is reported by
    the host; the plugin object keeps the state it had reached. *)
Fixpoint run (l : list action) (s : sys) : sys :=
  match l with
  | [] => s
  | a :: l => run l (exec (step a) s)
  end.

(** The renderer calls among a list of events. *)
Definition is_reset (e : event) : bool :=
  match e with MagReset => true | _ => false end.
Definition is_transform (e : event) : bool :=
  match e with MagTransform _ _ _ => true | _ => false end.
Definition is_renderer_call (e : event) : bool := is_reset e || is_transform e.

(** A world at start-up: nothing armed, nothing done yet. *)
Definition boot (scr_w scr_h : Z) (c : Py.point) (r : option Py.point) : sys :=
  mkSys __init__ (mkWorld c r None scr_w scr_h (Some true) [] 0%nat []).

(** ** The viewport function of the older, centre-only plugin *)

Module Centered.

(** [_getMagnifierWindow(x, y)] of [maginifier-mouse-centered.py]: (left,
    top).  It reads the same zoom and screen metrics; its callers pass
    integer coordinates. *)
Definition _getMagnifierWindow (x y : Z) : M (Z * Z) :=
  zoom <- get_self zoom ;;
  screenWidth <- get_env screen_width ;;
  screenHeight <- get_env screen_height ;;
  if Qeq_bool zoom 0 then raise ZeroDivisionError else
  let visibleWidth := (screenWidth / zoom)%Q in
  let visibleHeight := (screenHeight / zoom)%Q in
  let left := Py.int (x - visibleWidth / 2) in
  let top := Py.int (y - visibleHeight / 2) in
  let left := Z.max 0 (Z.min left (Py.int (screenWidth - visibleWidth))) in
  let top := Z.max 0 (Z.min top (Py.int (screenHeight - visibleHeight))) in
  ret (left, top).

End Centered.

(** ** The older, centre-only plugin as a whole

    [maginifier-mouse-centered.py] has no mode and keeps its anchor in two
    integer fields.  It runs against the same world.  Those of its methods
    whose text is that of the newer plugin ([_resetMagnifier],
    [_getNVDAPosition], [_getMousePosition]) and the calls into the world are
    taken over by [lift]; the methods that differ are written out. *)

Module CenteredPlugin.

Definition TIMER_INTERVAL_MS : Z := 15.

(** The lines its [log.info] writes where the newer plugin speaks or is
    silent. *)
Inductive note : Type :=
| NoteEnabled                  (* "Magnifier centering enabled" *)
| NoteDisabled                 (* "Magnifier centering disabled" *)
| NoteZoomLevel (z : Q)        (* "Zoom level: {zoom}" *)
| NoteNotEnabled.              (* "Magnifier centering is not enabled at zoom change" *)

Record plugin : Type := mk {
  timer : option timer_id;
  magnifierIsOn : bool;
  zoom : Q;
  lastMousePos : Py.point;
  lastNVDAPos : Py.point;
  lastX : Z;
  lastY : Z
}.

Record state : Type := mkState {
  cself : plugin;
  cenv : world;
  notes : list note
}.

Definition set_timer (t : option timer_id) (p : plugin) : plugin :=
  mk t (magnifierIsOn p) (zoom p) (lastMousePos p) (lastNVDAPos p)
     (lastX p) (lastY p).

Definition set_magnifierIsOn (b : bool) (p : plugin) : plugin :=
  mk (timer p) b (zoom p) (lastMousePos p) (lastNVDAPos p) (lastX p) (lastY p).

Definition set_zoom (z : Q) (p : plugin) : plugin :=
  mk (timer p) (magnifierIsOn p) z (lastMousePos p) (lastNVDAPos p)
     (lastX p) (lastY p).

Definition set_lastMousePos (m : Py.point) (p : plugin) : plugin :=
  mk (timer p) (magnifierIsOn p) (zoom p) m (lastNVDAPos p) (lastX p) (lastY p).

Definition set_lastNVDAPos (n : Py.point) (p : plugin) : plugin :=
  mk (timer p) (magnifierIsOn p) (zoom p) (lastMousePos p) n (lastX p) (lastY p).

Definition set_lastXY (x y : Z) (p : plugin) : plugin :=
  mk (timer p) (magnifierIsOn p) (zoom p) (lastMousePos p) (lastNVDAPos p) x y.

(** The newer plugin's object with the same contents: its anchor holds the
    two integers and its mode is centre. *)
Definition to_latest (p : plugin) :=
  mkPlugin (timer p) (magnifierIsOn p) (zoom p) (lastMousePos p)
           (lastNVDAPos p) (Py.float (lastX p)) (Py.float (lastY p)) center.

Definition as_latest (c : state) : sys := mkSys (to_latest (cself c)) (cenv c).

(** *** The monad over this plugin's state *)

Definition CM (A : Type) : Type := state -> res A * state.

Definition cret {A} (a : A) : CM A := fun c => (Ret a, c).

Definition cbind {A B} (m : CM A) (f : A -> CM B) : CM B :=
  fun c => match m c with
           | (Ret a, c') => f a c'
           | (Raise e, c') => (Raise e, c')
           end.

Notation "x <~ m ;; k" := (cbind m (fun x => k))
  (at level 61, m at next level, right associativity).
Notation "m ;~ k" := (cbind m (fun _ => k))
  (at level 61, right associativity).

Definition get {A} (f : plugin -> A) : CM A := fun c => (Ret (f (cself c)), c).
Definition upd (f : plugin -> plugin) : CM unit :=
  fun c => (Ret tt, mkState (f (cself c)) (cenv c) (notes c)).
Definition log_note (n : note) : CM unit :=
  fun c => (Ret tt, mkState (cself c) (cenv c) (notes c ++ [n])).

(** A computation of the newer model that leaves the plugin object alone,
    run on this plugin's zoom and world. *)
Definition lift {A} (m : M A) : CM A :=
  fun c => match m (as_latest c) with
           | (r, s') => (r, mkState (cself c) (env s') (notes c))
           end.

Definition cexec {A} (m : CM A) (c : state) : state := snd (m c).
Definition ceval {A} (m : CM A) (c : state) : res A := fst (m c).

(** *** The plugin *)

Definition __init__ : plugin := mk None false (2 # 1) (0, 0) (0, 0) 0 0.

Definition _continueMagnifier : CM unit :=
  t <~ get timer ;;
  match t with Some t => lift (Stop t) | None => cret tt end ;~
  on <~ get magnifierIsOn ;;
  if on then
    t <~ lift CallLater ;;
    upd (set_timer (Some t))
  else
    upd (set_timer None) ;~
    lift _resetMagnifier.

Definition _centerMagnifier (x y : Z) : CM unit :=
  zoom <~ get zoom ;;
  w <~ lift (Centered._getMagnifierWindow x y) ;;
  let '(left_, top_) := w in
  api <~ lift (get_env magnification) ;;
  match api with
  | Some result =>
      lift (upd_env (emit (MagTransform zoom left_ top_))) ;~
      if negb result then lift (log_info LogSetFailed) else cret tt
  | None => lift (log_info LogApiMissing)
  end ;~
  _continueMagnifier.

Definition _isNVDAMoving : CM bool :=
  last <~ get lastNVDAPos ;;
  pos <~ lift _getNVDAPosition ;;
  cret (Py.point_neb last pos).

Definition _isMouseMoving : CM bool :=
  last <~ get lastMousePos ;;
  pos <~ lift _getMousePosition ;;
  cret (Py.point_neb last pos).

Definition _chooseFocus : CM unit :=
  nvda_moving <~ _isNVDAMoving ;;
  if nvda_moving then
    pos <~ lift _getNVDAPosition ;;
    let '(x, y) := pos in
    upd (set_lastNVDAPos (x, y)) ;~
    upd (set_lastXY x y) ;~
    lift (setCursorPos (x, y)) ;~
    _centerMagnifier x y
  else
    mouse_moving <~ _isMouseMoving ;;
    if mouse_moving then
      pos <~ lift _getMousePosition ;;
      let '(x, y) := pos in
      upd (set_lastMousePos (x, y)) ;~
      upd (set_lastXY x y) ;~
      _centerMagnifier x y
    else
      _continueMagnifier.

Definition script_ToggleMagnifier : CM unit :=
  on <~ get magnifierIsOn ;;
  if negb on then
    upd (set_magnifierIsOn true) ;~
    t <~ lift CallLater ;;
    upd (set_timer (Some t)) ;~
    log_note NoteEnabled
  else
    upd (set_magnifierIsOn false) ;~
    lift _resetMagnifier ;~
    log_note NoteDisabled.

Definition _zoom (direction : Z) : CM unit :=
  on <~ get magnifierIsOn ;;
  if on then
    (if 0 <? direction then
       upd (fun p => set_zoom (Py.min (zoom p + ZOOM_STEP) ZOOM_MAX) p)
     else
       upd (fun p => set_zoom (Py.max (zoom p - ZOOM_STEP) ZOOM_MIN) p)) ;~
    z <~ get zoom ;;
    log_note (NoteZoomLevel z) ;~
    x <~ get lastX ;;
    y <~ get lastY ;;
    _centerMagnifier x y
  else
    log_note NoteNotEnabled.

Definition script_zoomIn : CM unit := _zoom 1.
Definition script_zoomOut : CM unit := _zoom (-1).

(** An armed timer of this plugin elapses. *)
Definition fire (t : timer_id) : CM unit :=
  armed <~ lift (get_env running) ;;
  if existsb (Nat.eqb t) armed then
    lift (Stop t) ;~
    _chooseFocus
  else cret tt.

(** The older plugin has three gestures; the mode gesture is bound to
    nothing. *)
Definition step (a : action) : CM unit :=
  match a with
  | Toggle => script_ToggleMagnifier
  | ZoomIn => script_zoomIn
  | ZoomOut => script_zoomOut
  | ToggleMouseMode => cret tt
  | TimerFires t => fire t
  | PointerMoves p => lift (upd_env (set_cursor p))
  | ReviewMoves r => lift (upd_env (set_review r))
  end.

Fixpoint run (l : list action) (c : state) : state :=
  match l with
  | [] => c
  | a :: l => run l (cexec (step a) c)
  end.

End CenteredPlugin.

(** ** The viewport function on IEEE doubles

    [_getMagnifierWindow] once more, with Python's floats as they are: binary64
    numbers, every operation rounded to nearest even, a quotient too large
    for the format being infinite.  The function reads the zoom and the
    screen metrics and changes nothing, so here it takes them as arguments. *)

Module Binary64.

Import PrimFloat SpecFloat FloatOps.

(** What a Python expression can hold here: an [int] or a [float]. *)
Inductive number : Set :=
| Int (n : Z)
| Float (f : float).

Definition and_then {A B} (r : res A) (k : A -> res B) : res B :=
  match r with
  | Ret a => k a
  | Raise e => Raise e
  end.

Notation "x <-- r ;; k" := (and_then r (fun x => k))
  (at level 61, r at next level, right associativity).

(** An [int] operand of mixed arithmetic is converted to the nearest double;
    the interpreter refuses one beyond the range of the format. *)
Definition of_int (n : Z) : res float :=
  let f := SF2Prim (binary_normalize prec emax n 0 false) in
  if is_infinity f then Raise OverflowError else Ret f.

Definition to_float (v : number) : res float :=
  match v with
  | Int n => of_int n
  | Float f => Ret f
  end.

(** [int(f)]: truncation toward zero of a finite float. *)
Definition int (f : float) : res Z :=
  match Prim2SF f with
  | S754_nan => Raise ValueError
  | S754_infinity _ => Raise OverflowError
  | S754_zero _ => Ret 0
  | S754_finite s m e =>
      let a := if 0 <=? e then Z.pos m * 2 ^ e else Z.pos m / 2 ^ (- e) in
      Ret (if s then - a else a)
  end.

(** [a / b] on floats: only a zero divisor raises; overflow gives infinity. *)
Definition truediv (a b : float) : res float :=
  if (b =? 0)%float then Raise ZeroDivisionError else Ret (a / b)%float.

(** [_getMagnifierWindow(x, y)] at the given zoom and screen metrics. *)
Definition _getMagnifierWindow (zoom : float) (screen_width screen_height : Z)
    (x y : number) : res (Z * Z * float * float) :=
  sw <-- of_int screen_width ;;
  visible_width <-- truediv sw zoom ;;
  sh <-- of_int screen_height ;;
  visible_height <-- truediv sh zoom ;;
  xf <-- to_float x ;;
  left <-- int (xf - visible_width / 2)%float ;;
  yf <-- to_float y ;;
  top <-- int (yf - visible_height / 2)%float ;;
  bound_x <-- int (sw - visible_width)%float ;;
  let left := Z.max 0 (Z.min left bound_x) in
  bound_y <-- int (sh - visible_height)%float ;;
  let top := Z.max 0 (Z.min top bound_y) in
  Ret (left, top, visible_width, visible_height).

(** The rational a finite double stands for. *)
Definition value (f : float) : option Q :=
  match Prim2SF f with
  | S754_zero _ => Some 0%Q
  | S754_finite s m e =>
      let a := if 0 <=? e then inject_Z (Z.pos m * 2 ^ e)
               else (Z.pos m # Pos.pow 2 (Z.to_pos (- e)))%Q in
      Some (if s then (- a)%Q else a)
  | _ => None
  end.





(** The double nearest to 905 + 2/3. *)
Definition off_grid_centre : float := 0x1.c4d5555555555p+9%float.

Definition three : float := 3%float.

End Binary64.

(** * Vocabulary of the properties *)

(** A relation between the state before and the state after that composes
    along a computation. *)
Class FrameRel (R : sys -> sys -> Prop) : Prop := {
  frame_refl : forall s, R s s;
  frame_trans : forall a b c, R a b -> R b c -> R a c
}.

(** [preserves R m]: whatever [m] does, and whether it returns or raises, the
    state it ends in is [R]-related to the state it started in. *)
Definition preserves (R : sys -> sys -> Prop) {A} (m : M A) : Prop :=
  forall s, R s (exec m s).

(** The zoom level is left alone. *)
Definition zoom_kept (s s' : sys) : Prop := zoom (self s') = zoom (self s).

(** The invariant of the zoom level. *)
Definition zoom_in_range (p : plugin) : Prop :=
  (ZOOM_MIN <= zoom p)%Q /\ (zoom p <= ZOOM_MAX)%Q.

(** The same state with the pointer somewhere else. *)
Definition with_pointer (p : Py.point) (s : sys) : sys :=
  mkSys (self s) (set_cursor p (env s)).

(** What clamping the inner bounds to one value per axis would mean: a
    dead-zone of zero width at some [m_x] (and [m_y]), so that the anchor
    follows the pointer by exactly its distance to that value. *)
Definition zero_width_dead_zone (s : sys) : Prop :=
  exists m_x m_y : Q, forall pointer : Py.point,
    exists new_x new_y : Q,
      eval _isMouseNearBorder (with_pointer pointer s) = Ret (new_x, new_y) /\
      (new_x == last_screen_left (self s) + (fst pointer - m_x))%Q /\
      (new_y == last_screen_top (self s) + (snd pointer - m_y))%Q.

(** Everything the outside world offers except the timers and the record of
    what was done. *)
Definition devices (w : world) :=
  (cursor w, review_point w, navigator_location w,
   screen_width w, screen_height w, magnification w).

(** [driver_only s s']: between [s] and [s'] only the timer was re-armed or
    cleared and more events were recorded; tracking state, zoom, mode,
    activity flag and devices are the same. *)
Definition driver_only (s s' : sys) : Prop :=
  set_timer None (self s') = set_timer None (self s) /\
  devices (env s') = devices (env s) /\
  exists l, trace (env s') = trace (env s) ++ l.

(** The armed timers once [self.timer], if any, has been stopped. *)
Definition stopped (s : sys) : list timer_id :=
  match timer (self s) with
  | Some t => remove Nat.eq_dec t (running (env s))
  | None => running (env s)
  end.

(** The events of one [_resetMagnifier]. *)
Definition reset_events (w : world) : list event :=
  match magnification w with
  | Some r => [MagReset; LogInfo (if negb r then LogResetFailed else LogResetDone)]
  | None => [LogInfo LogApiMissing]
  end.

(** The events of the renderer call in [_centerMagnifier]. *)
Definition transform_events (w : world) (z : Q) (left top : Z) : list event :=
  match magnification w with
  | Some r => MagTransform z left top :: (if negb r then [LogInfo LogSetFailed] else [])
  | None => [LogInfo LogApiMissing]
  end.

(** The world after the events [l] have been added to its trace. *)
Definition record (l : list event) (w : world) : world :=
  mkWorld (cursor w) (review_point w) (navigator_location w) (screen_width w)
          (screen_height w) (magnification w) (running w) (next_timer w)
          (trace w ++ l).

(** [session_kept s s']: the timer, the activity flag, the zoom, the
    magnification API and the armed timers are the same; more events may
    have been recorded. *)
Definition session_kept (s s' : sys) : Prop :=
  timer (self s') = timer (self s) /\
  magnifier_is_on (self s') = magnifier_is_on (self s) /\
  zoom (self s') = zoom (self s) /\
  magnification (env s') = magnification (env s) /\
  running (env s') = running (env s) /\
  exists l, trace (env s') = trace (env s) ++ l.

(** * Scenarios

    Concrete sessions, each reached from start-up by gestures, timer ticks
    and outside events. *)

(** A 1920 x 1080 screen at zoom 2, centred on the middle of the screen. *)
Definition full_hd : sys := boot 1920 1080 (0, 0) None.


(** A session switched on over a 1920 x 1080 screen. *)
Definition active_hd : sys := exec script_toggleMagnifier full_hd.

(** A session in border mode on a 1000 x 800 screen at zoom 2, anchored at
    (250, 200) by a centre-mode tick, so that its viewport is
    left 0, top 0, 500 wide and 400 high; the pointer then goes to [p]. *)
Definition border_demo (p : Py.point) : sys :=
  run [Toggle; PointerMoves (250, 200); TimerFires 0%nat; ToggleMouseMode;
       PointerMoves p]
      (boot 1000 800 (0, 0) (Some (0, 0))).

(** A session in border mode on an 800 x 600 screen, zoomed in to 10.0: the
    viewport is 80 x 60, narrower than twice the margin. *)
Definition narrow_view : sys :=
  run (Toggle :: repeat ZoomIn 16 ++ [ToggleMouseMode])
      (boot 800 600 (0, 0) (Some (0, 0))).

(** That session with the pointer at (40, 30), between the inverted bounds. *)
Definition narrow_pointed : sys := with_pointer (40, 30) narrow_view.

(** An active session in which the pointer and then the review point have
    both moved since the last tick. *)
Definition both_moved : sys :=
  run [Toggle; PointerMoves (300, 200); ReviewMoves (Some (640, 480))]
      (boot 1920 1080 (0, 0) (Some (0, 0))).

(** An active session whose pointer already rests, and was seen, at
    (100, 100) when the review point moves to that very point. *)
Definition pointer_on_target : sys :=
  run [Toggle; PointerMoves (100, 100); TimerFires 0%nat;
       ReviewMoves (Some (100, 100))]
      (boot 1920 1080 (0, 0) (Some (0, 0))).

(** A session switched on and off again before its first tick. *)
Definition pending_teardown : sys :=
  run [Toggle; Toggle] (boot 1920 1080 (0, 0) (Some (0, 0))).

(** An active session over a 1920 x 1080 screen in which the pointer has
    moved since the session started; its first tick is still armed. *)
Definition tracking_session : sys :=
  run [Toggle; PointerMoves (1000, 600)] (boot 1920 1080 (0, 0) (Some (0, 0))).

(** * Vocabulary of the further properties *)

(** While the session is on, the timer it holds is armed. *)
Definition tick_armed (s : sys) : Prop :=
  magnifier_is_on (self s) = true ->
  exists t, timer (self s) = Some t /\ In t (running (env s)).

(** Every step of a sequence returns normally. *)
Fixpoint steps_return (l : list action) (s : sys) : Prop :=
  match l with
  | [] => True
  | a :: l => eval (step a) s = Ret tt /\ steps_return l (exec (step a) s)
  end.

Definition is_warp (e : event) : bool :=
  match e with SetCursorPos _ _ => true | _ => false end.

(** A transform the renderer can show on a screen of the given size: the
    zoom within its bounds and the viewport on screen. *)
Definition valid_transform (scr_w scr_h : Z) (e : event) : Prop :=
  match e with
  | MagTransform z left_ top_ =>
      (ZOOM_MIN <= z)%Q /\ (z <= ZOOM_MAX)%Q /\
      0 <= left_ /\ (left_ <= scr_w - scr_w / z)%Q /\
      0 <= top_ /\ (top_ <= scr_h - scr_h / z)%Q
  | _ => True
  end.

(** The zoom is in range and every transform requested so far was valid. *)
Definition renders_validly (s : sys) : Prop :=
  zoom_in_range (self s) /\
  1 <= screen_width (env s) /\ 1 <= screen_height (env s) /\
  Forall (valid_transform (screen_width (env s)) (screen_height (env s)))
         (trace (env s)).

Definition validity_kept (s s' : sys) : Prop :=
  renders_validly s -> renders_validly s'.

(** The pointer was not warped: it is where it was and no [setCursorPos]
    was issued. *)
Definition no_warp (s s' : sys) : Prop :=
  cursor (env s') = cursor (env s) /\
  exists l, trace (env s') = trace (env s) ++ l /\
            forallb (fun e => negb (is_warp e)) l = true.

(** From a session that is off: it stays off and no timer is armed. *)
Definition winds_down (s s' : sys) : Prop :=
  magnifier_is_on (self s) = false ->
  magnifier_is_on (self s') = false /\
  incl (running (env s')) (running (env s)) /\
  (length (running (env s')) <= length (running (env s)))%nat.

(** Only the activity flag and the timer of the plugin object may differ,
    and the devices report what they reported. *)
Definition switch_only (s s' : sys) : Prop :=
  set_timer None (set_magnifier_is_on false (self s'))
    = set_timer None (set_magnifier_is_on false (self s)) /\
  devices (env s') = devices (env s).

(** The levels the zoom gestures can reach from the initial 2.0: ZOOM_MIN
    plus a whole number of steps, from 1.5 to 10.0. *)
Definition zoom_level (z : Q) : Prop :=
  exists n : Z, 0 <= n <= 17 /\ (z == ZOOM_MIN + n * ZOOM_STEP)%Q.

(** A C [int], as [GetSystemMetrics] and [GetCursorPos] report them. *)
Definition c_int (n : Z) : Prop := - 2 ^ 31 <= n < 2 ^ 31.

(** Where the interpreter's doubles and exact arithmetic give the same
    viewport for a centre on a whole pixel: the zoom is on a level and the
    screen metrics are C ints, so that no rounding error comes near a whole
    number. *)
Definition on_pixel_grid (s : sys) : Prop :=
  zoom_level (zoom (self s)) /\
  c_int (screen_width (env s)) /\ c_int (screen_height (env s)).

(** The settings and what the devices report, the pointer aside. *)
Definition settings_kept (s s' : sys) : Prop :=
  magnifier_is_on (self s') = magnifier_is_on (self s) /\
  zoom (self s') = zoom (self s) /\
  mode (self s') = mode (self s) /\
  review_point (env s') = review_point (env s) /\
  navigator_location (env s') = navigator_location (env s) /\
  screen_width (env s') = screen_width (env s) /\
  screen_height (env s') = screen_height (env s) /\
  magnification (env s') = magnification (env s).

(** A world whose navigator object is a 31 x 10 rectangle at (100, 200) and
    which has no review point. *)
Definition navigator_only : sys :=
  mkSys __init__
        (mkWorld (0, 0) None (Some (100, 200, 31, 10)) 1920 1080
                 (Some true) [] 0%nat []).

(** The calls a user can perceive: renderer calls and pointer warps. *)
Definition visible (e : event) : bool := is_renderer_call e || is_warp e.

(** A state of the older plugin and a state of the newer one that hold the
    same session: same fields (the newer one in centre mode), same devices
    and timers, and the same perceivable calls so far, in the same order. *)
Definition same_session (c : CenteredPlugin.state) (s : sys) : Prop :=
  self s = CenteredPlugin.to_latest (CenteredPlugin.cself c) /\
  devices (env s) = devices (CenteredPlugin.cenv c) /\
  running (env s) = running (CenteredPlugin.cenv c) /\
  next_timer (env s) = next_timer (CenteredPlugin.cenv c) /\
  filter visible (trace (env s))
    = filter visible (trace (CenteredPlugin.cenv c)).

(** The older plugin's computation and the newer one's do the same from the
    same session: same outcome, and the same session afterwards. *)
Definition simulates {A} (mc : CenteredPlugin.CM A) (ml : M A) : Prop :=
  forall c s, same_session c s ->
    fst (mc c) = fst (ml s) /\ same_session (snd (mc c)) (snd (ml s)).

(** The zoom level an accepted zoom request asks for. *)
Definition zoom_target (direction : Z) (z : Q) : Q :=
  if 0 <? direction then Py.min (z + ZOOM_STEP) ZOOM_MAX
  else Py.max (z - ZOOM_STEP) ZOOM_MIN.

(** A border-mode session on a 1920 x 1080 screen at zoom 2, anchored at the
    middle of the screen, whose pointer has just entered the left margin. *)
Definition margin_demo : sys :=
  run [Toggle; PointerMoves (960, 540); TimerFires 0%nat; ToggleMouseMode;
       PointerMoves (500, 600)]
      (boot 1920 1080 (0, 0) (Some (0, 0))).

(** A border-mode session on a 1920 x 1080 screen at zoom 2 whose anchor is
    near the left edge and whose pointer is in the first pixels. *)
Definition edge_demo : sys :=
  run [Toggle; PointerMoves (100, 540); TimerFires 0%nat; ToggleMouseMode;
       PointerMoves (20, 540)]
      (boot 1920 1080 (0, 0) (Some (0, 0))).

(** * Properties *)

(** ** Truncation and comparisons *)

Section PyFacts.

Lemma float_le (a b : Z) : a <= b <-> (Py.float a <= Py.float b)%Q.
Proof. unfold Py.float. rewrite <- Zle_Qle. tauto. Qed.

Lemma float_nonneg (n : Z) : 0 <= n -> (0 <= Py.float n)%Q.
Proof. intro H. apply (proj1 (float_le 0 n)) in H. exact H. Qed.

Lemma int_floor (q : Q) : (0 <= q)%Q -> Py.int q = Qfloor q.
Proof.
  destruct q as [n d]; unfold Qle, Py.int; simpl; intro H.
  apply Z.quot_div_nonneg; lia.
Qed.

Lemma int_nonneg (q : Q) : (0 <= q)%Q -> 0 <= Py.int q.
Proof.
  destruct q as [n d]; unfold Qle, Py.int; simpl; intro H.
  apply Z.quot_pos; lia.
Qed.

Lemma int_below (q : Q) : (0 <= q)%Q -> (Py.float (Py.int q) <= q)%Q.
Proof.
  intro H. rewrite (int_floor q H). apply Qfloor_le.
Qed.

Lemma int_nonpos (q : Q) : (q <= 0)%Q -> Py.int q <= 0.
Proof.
  destruct q as [n d]; unfold Qle, Py.int; simpl; intro H.
  rewrite <- (Z.opp_involutive n), Z.quot_opp_l by lia.
  assert (0 <= Z.quot (- n) (Z.pos d)) by (apply Z.quot_pos; lia).
  lia.
Qed.

Lemma ltb_spec (a b : Q) : Py.ltb a b = true <-> (a < b)%Q.
Proof.
  unfold Py.ltb. rewrite negb_true_iff, <- not_true_iff_false, Qle_bool_iff.
  split; [apply Qnot_le_lt | apply Qlt_not_le].
Qed.

Lemma ltb_false (a b : Q) : Py.ltb a b = false <-> (b <= a)%Q.
Proof.
  unfold Py.ltb. rewrite negb_false_iff. apply Qle_bool_iff.
Qed.

Lemma neb_false (a b : Q) : Py.neb a b = false <-> (a == b)%Q.
Proof.
  unfold Py.neb. rewrite negb_false_iff. apply Qeq_bool_iff.
Qed.

Lemma neb_true (a b : Q) : Py.neb a b = true <-> ~ (a == b)%Q.
Proof.
  unfold Py.neb. rewrite negb_true_iff, <- not_true_iff_false, Qeq_bool_iff.
  tauto.
Qed.

Lemma point_neb_true (p q : Py.point) : Py.point_neb p q = true <-> p <> q.
Proof.
  destruct p as [a b], q as [c d]; unfold Py.point_neb; simpl.
  rewrite negb_true_iff, andb_false_iff, !Z.eqb_neq.
  split; [intros [H | H] E; inversion E; contradiction |].
  intro H. destruct (Z.eq_dec a c); [right | left]; congruence.
Qed.

Lemma point_neb_false (p q : Py.point) : Py.point_neb p q = false <-> p = q.
Proof.
  destruct p as [a b], q as [c d]; unfold Py.point_neb; simpl.
  rewrite negb_false_iff, andb_true_iff, !Z.eqb_eq.
  split; [intros []; congruence | intro E; inversion E; auto].
Qed.

Lemma zoom_nonzero (z : Q) : (0 < z)%Q -> Qeq_bool z 0 = false.
Proof.
  intro H. apply not_true_iff_false. rewrite Qeq_bool_iff. lra.
Qed.

(** The clamp [max(0, min(v, hi))] stays inside [0, hi] when [hi] is not
    negative and is 0 when it is not positive. *)
Lemma clamp_range (v hi : Z) :
  0 <= hi -> 0 <= Z.max 0 (Z.min v hi) <= hi.
Proof. lia. Qed.


End PyFacts.

(** ** Viewport geometry *)

Section Geometry.

Variable s : sys.

Let zm : Q := zoom (self s).
Let sw : Z := screen_width (env s).
Let sh : Z := screen_height (env s).

(** The visible extent is no larger than the screen once the zoom is at
    least 1. *)
Lemma visible_fits (n : Z) : (1 <= zm)%Q -> 0 <= n -> (0 <= n - n / zm)%Q.
Proof.
  intros Hz Hn.
  pose proof (float_nonneg n Hn) as Hq.
  assert (n / zm <= n)%Q; [| lra].
  apply Qle_shift_div_r; [lra |].
  nra.
Qed.


Lemma window_value (x y : Q) :
  Qeq_bool zm 0 = false ->
  _getMagnifierWindow x y s =
    (Ret (Z.max 0 (Z.min (Py.int (x - sw / zm / 2)) (Py.int (sw - sw / zm))),
          Z.max 0 (Z.min (Py.int (y - sh / zm / 2)) (Py.int (sh - sh / zm))),
          (sw / zm)%Q, (sh / zm)%Q), s).
Proof.
  intro H. unfold _getMagnifierWindow, bind, get_env, get_self, ret.
  fold zm sw sh. rewrite H. reflexivity.
Qed.


Lemma clamped_on_screen (v : Q) (n : Z) :
  (1 <= zm)%Q -> 0 <= n ->
  let c := Z.max 0 (Z.min (Py.int v) (Py.int (n - n / zm))) in
  0 <= c /\ (c <= n - n / zm)%Q.
Proof.
  intros Hz Hn c.
  pose proof (visible_fits n Hz Hn) as Hfit.
  pose proof (int_nonneg _ Hfit) as H0.
  pose proof (int_below _ Hfit) as Hb.
  destruct (clamp_range (Py.int v) _ H0) as [Hlo Hhi]. fold c in Hlo, Hhi.
  split; [exact Hlo |].
  apply Qle_trans with (2 := Hb).
  exact (proj1 (float_le c _) Hhi).
Qed.

End Geometry.






(** ** Frame reasoning

    The rules that carry a frame relation through the monad, and a tactic
    that applies them along the structure of a computation. *)

Section Preserves.

Context (R : sys -> sys -> Prop) `{FrameRel R}.

Lemma preserves_ret {A} (a : A) : preserves R (ret a).
Proof. intro s. apply frame_refl. Qed.

Lemma preserves_raise {A} (e : exn) : preserves R (@raise A e).
Proof. intro s. apply frame_refl. Qed.

Lemma preserves_get_self {A} (f : plugin -> A) : preserves R (get_self f).
Proof. intro s. apply frame_refl. Qed.

Lemma preserves_get_env {A} (f : world -> A) : preserves R (get_env f).
Proof. intro s. apply frame_refl. Qed.

Lemma preserves_bind {A B} (m : M A) (f : A -> M B) :
  preserves R m -> (forall a, preserves R (f a)) -> preserves R (bind m f).
Proof.
  intros Hm Hf s. specialize (Hm s). unfold exec, bind in *.
  destruct (m s) as [[a | e] s1]; simpl in *; [| exact Hm].
  apply frame_trans with s1; [exact Hm | apply Hf].
Qed.

Lemma preserves_upd_self (f : plugin -> plugin) :
  (forall p w, R (mkSys p w) (mkSys (f p) w)) -> preserves R (upd_self f).
Proof. intros Hf [p w]. apply Hf. Qed.

Lemma preserves_upd_env (f : world -> world) :
  (forall p w, R (mkSys p w) (mkSys p (f w))) -> preserves R (upd_env f).
Proof. intros Hf [p w]. apply Hf. Qed.

End Preserves.

Create HintDb frame.

(** One structural step through a computation; [leaf] closes the side
    conditions of the state updates. *)
Ltac frame_step leaf :=
  lazymatch goal with
  | |- preserves _ (bind _ _) => apply preserves_bind; [exact _ | | intro]
  | |- preserves _ (ret _) => apply preserves_ret; exact _
  | |- preserves _ (raise _) => apply preserves_raise; exact _
  | |- preserves _ (get_self _) => apply preserves_get_self; exact _
  | |- preserves _ (get_env _) => apply preserves_get_env; exact _
  | |- preserves _ (upd_self _) => apply preserves_upd_self; intros; leaf
  | |- preserves _ (upd_env _) => apply preserves_upd_env; intros; leaf
  | |- preserves _ (match ?x with _ => _ end) => destruct x
  | |- preserves _ _ => solve [auto with frame]
  end.

Ltac frame leaf :=
  unfold ui_message, log_info, CallLater, Stop, setCursorPos, _getMousePosition;
  repeat frame_step leaf.

(** *** The zoom level is left alone *)

#[global] Instance zoom_kept_frame : FrameRel zoom_kept.
Proof. split; unfold zoom_kept; intros; congruence. Qed.

Ltac zoom_leaf := reflexivity.

Lemma resetMagnifier_zoom : preserves zoom_kept _resetMagnifier.
Proof. unfold _resetMagnifier. frame zoom_leaf. Qed.
#[global] Hint Resolve resetMagnifier_zoom : frame.

Lemma continueMagnifier_zoom : preserves zoom_kept _continueMagnifier.
Proof. unfold _continueMagnifier. frame zoom_leaf. Qed.
#[global] Hint Resolve continueMagnifier_zoom : frame.

Lemma getMagnifierWindow_zoom x y : preserves zoom_kept (_getMagnifierWindow x y).
Proof. unfold _getMagnifierWindow. frame zoom_leaf. Qed.
#[global] Hint Resolve getMagnifierWindow_zoom : frame.

Lemma centerMagnifier_zoom x y : preserves zoom_kept (_centerMagnifier x y).
Proof. unfold _centerMagnifier. frame zoom_leaf. Qed.
#[global] Hint Resolve centerMagnifier_zoom : frame.

Lemma getNVDAPosition_zoom : preserves zoom_kept _getNVDAPosition.
Proof. unfold _getNVDAPosition. frame zoom_leaf. Qed.
#[global] Hint Resolve getNVDAPosition_zoom : frame.

Lemma isMouseNearBorder_zoom : preserves zoom_kept _isMouseNearBorder.
Proof. unfold _isMouseNearBorder. frame zoom_leaf. Qed.
#[global] Hint Resolve isMouseNearBorder_zoom : frame.

Lemma focusOnNvda_zoom pos : preserves zoom_kept (_focusOnNvda pos).
Proof. unfold _focusOnNvda. frame zoom_leaf. Qed.
#[global] Hint Resolve focusOnNvda_zoom : frame.

Lemma focusOnMouse_zoom pos : preserves zoom_kept (_focusOnMouse pos).
Proof. unfold _focusOnMouse. frame zoom_leaf. Qed.
#[global] Hint Resolve focusOnMouse_zoom : frame.

Lemma chooseFocus_zoom : preserves zoom_kept _chooseFocus.
Proof. unfold _chooseFocus. frame zoom_leaf. Qed.
#[global] Hint Resolve chooseFocus_zoom : frame.

Lemma toggleMagnifier_zoom : preserves zoom_kept script_toggleMagnifier.
Proof. unfold script_toggleMagnifier. frame zoom_leaf. Qed.

Lemma toggleMouseMode_zoom : preserves zoom_kept script_toggleMouseMode.
Proof. unfold script_toggleMouseMode. frame zoom_leaf. Qed.

Lemma fire_zoom t : preserves zoom_kept (fire t).
Proof. unfold fire. frame zoom_leaf. Qed.

(** ** Zoom controller *)

Lemma exec_bind {A B} (m : M A) (f : A -> M B) (s s1 : sys) (a : A) :
  m s = (Ret a, s1) -> bind m f s = f a s1.
Proof. intro E. unfold bind. rewrite E. reflexivity. Qed.

Lemma min_range (a hi lo : Q) :
  (lo <= a)%Q -> (lo <= hi)%Q -> (lo <= Py.min a hi)%Q /\ (Py.min a hi <= hi)%Q.
Proof.
  intros Ha Hb. unfold Py.min.
  destruct (Py.ltb hi a) eqn:E; [split; lra |].
  apply ltb_false in E. split; lra.
Qed.

Lemma max_range (a hi lo : Q) :
  (a <= hi)%Q -> (lo <= hi)%Q -> (lo <= Py.max a lo)%Q /\ (Py.max a lo <= hi)%Q.
Proof.
  intros Ha Hb. unfold Py.max, Py.gtb.
  destruct (Py.ltb a lo) eqn:E; [split; lra |].
  apply ltb_false in E. split; lra.
Qed.

(** The zoom level a zoom request leaves behind in an active session. *)
Lemma zoom_after (s : sys) (direction : Z) :
  magnifier_is_on (self s) = true ->
  zoom (self (exec (_zoom direction) s)) =
    if 0 <? direction
    then Py.min (zoom (self s) + ZOOM_STEP) ZOOM_MAX
    else Py.max (zoom (self s) - ZOOM_STEP) ZOOM_MIN.
Proof.
  intro Hon. unfold exec, _zoom.
  rewrite (exec_bind _ _ s s true) by (unfold get_self; rewrite Hon; reflexivity).
  set (rest := (z <- get_self zoom ;; _)).
  assert (Hrest : preserves zoom_kept rest) by (subst rest; frame zoom_leaf).
  destruct (0 <? direction);
    rewrite (exec_bind _ _ _ _ tt) by reflexivity;
    match goal with |- zoom (self (snd (rest ?s1))) = _ => exact (Hrest s1) end.
Qed.

Lemma zoom_rejected (s : sys) (direction : Z) :
  magnifier_is_on (self s) = false ->
  _zoom direction s
    = (Ret tt, mkSys (self s) (emit (UiMessage MsgEnableBeforeZoom) (env s))).
Proof.
  intro Hoff. unfold _zoom.
  rewrite (exec_bind _ _ s s false) by (unfold get_self; rewrite Hoff; reflexivity).
  reflexivity.
Qed.

Lemma zoom_keeps_range (s : sys) (direction : Z) :
  zoom_in_range (self s) -> zoom_in_range (self (exec (_zoom direction) s)).
Proof.
  intros [Hlo Hhi]. destruct (magnifier_is_on (self s)) eqn:Hon.
  - unfold zoom_in_range. rewrite (zoom_after s direction Hon).
    unfold ZOOM_MIN, ZOOM_MAX, ZOOM_STEP in *.
    destruct (0 <? direction).
    + apply min_range; lra.
    + apply max_range; lra.
  - unfold exec. rewrite (zoom_rejected s direction Hon). split; assumption.
Qed.

Lemma step_keeps_range (a : action) (s : sys) :
  zoom_in_range (self s) -> zoom_in_range (self (exec (step a) s)).
Proof.
  intro H.
  assert (K : forall m : M unit, preserves zoom_kept m ->
                                 zoom_in_range (self (exec m s))).
  { intros m Hm. unfold zoom_in_range. rewrite (Hm s). exact H. }
  destruct a; simpl.
  - apply K, toggleMagnifier_zoom.
  - apply zoom_keeps_range, H.
  - apply zoom_keeps_range, H.
  - apply K, toggleMouseMode_zoom.
  - apply K, fire_zoom.
  - exact H.
  - exact H.
Qed.

Lemma run_keeps_range (l : list action) :
  forall s, zoom_in_range (self s) -> zoom_in_range (self (run l s)).
Proof.
  induction l as [| a l IH]; intros s H; simpl; [exact H |].
  apply IH, step_keeps_range, H.
Qed.

(** C7.  Starting from the initial zoom 2.0, ZOOM_MIN <= zoom <= ZOOM_MAX holds
    after any sequence of gestures, ticks and outside events, so repeated
    zoom-in never exceeds ZOOM_MAX and repeated zoom-out never goes below
    ZOOM_MIN; and a zoom step in an active session moves the zoom by exactly
    ZOOM_STEP unless that would pass the bound, where it lands on the bound. *)
Theorem zoom_stays_in_range :
  (forall (w : world) (l : list action),
      zoom_in_range (self (run l (mkSys __init__ w)))) /\
  (forall (s : sys) (direction : Z),
      magnifier_is_on (self s) = true ->
      let z := zoom (self s) in
      let z' := zoom (self (exec (_zoom direction) s)) in
      (0 < direction ->
         ((z + ZOOM_STEP <= ZOOM_MAX)%Q -> z' = (z + ZOOM_STEP)%Q) /\
         ((ZOOM_MAX < z + ZOOM_STEP)%Q -> z' = ZOOM_MAX)) /\
      (direction <= 0 ->
         ((ZOOM_MIN <= z - ZOOM_STEP)%Q -> z' = (z - ZOOM_STEP)%Q) /\
         ((z - ZOOM_STEP < ZOOM_MIN)%Q -> z' = ZOOM_MIN))).
Proof.
  split.
  - intros w l. apply run_keeps_range. split; vm_compute; discriminate.
  - intros s d Hon z z'. subst z'. rewrite (zoom_after s d Hon). fold z.
    split; intro Hd.
    + apply Z.ltb_lt in Hd. rewrite Hd. unfold Py.min.
      split; intro Hc.
      * apply ltb_false in Hc. rewrite Hc. reflexivity.
      * apply ltb_spec in Hc. rewrite Hc. reflexivity.
    + apply Z.ltb_ge in Hd. rewrite Hd. unfold Py.max, Py.gtb.
      split; intro Hc.
      * apply ltb_false in Hc. rewrite Hc. reflexivity.
      * apply ltb_spec in Hc. rewrite Hc. reflexivity.
Qed.

Lemma zoom_stays_in_range_witness :
  magnifier_is_on (self active_hd) = true /\
  zoom (self (exec (_zoom 1) active_hd)) = ((2 # 1) + ZOOM_STEP)%Q /\
  zoom (self (exec (_zoom (-1)) active_hd)) = ((2 # 1) - ZOOM_STEP)%Q.
Proof.
  assert (Hon : magnifier_is_on (self active_hd) = true) by reflexivity.
  split; [exact Hon |]. split.
  - apply (proj1 (proj1 (proj2 zoom_stays_in_range active_hd 1 Hon) eq_refl)).
    vm_compute. discriminate.
  - apply (proj1 (proj2 (proj2 zoom_stays_in_range active_hd (-1) Hon)
                        ltac:(discriminate))).
    vm_compute. discriminate.
Defined.

(** C9.  With no active session, a zoom request (in either direction) and a
    mode-toggle request each only hand a guidance message to the user: the
    plugin object is left exactly as it was (zoom, mode, tracking fields,
    timer) and the only new event is that message, so no renderer call. *)
Theorem inactive_requests_rejected (s : sys) :
  magnifier_is_on (self s) = false ->
  script_zoomIn s
    = (Ret tt, mkSys (self s) (emit (UiMessage MsgEnableBeforeZoom) (env s))) /\
  script_zoomOut s
    = (Ret tt, mkSys (self s) (emit (UiMessage MsgEnableBeforeZoom) (env s))) /\
  script_toggleMouseMode s
    = (Ret tt, mkSys (self s) (emit (UiMessage MsgEnableBeforeMode) (env s))).
Proof.
  intro Hoff. repeat split.
  - apply zoom_rejected, Hoff.
  - apply zoom_rejected, Hoff.
  - unfold script_toggleMouseMode.
    rewrite (exec_bind _ _ s s false)
      by (unfold get_self; rewrite Hoff; reflexivity).
    reflexivity.
Qed.

Lemma inactive_requests_rejected_witness :
  magnifier_is_on (self full_hd) = false /\
  trace (env (exec script_zoomIn full_hd)) = [UiMessage MsgEnableBeforeZoom] /\
  self (exec script_zoomIn full_hd) = __init__ /\
  trace (env (exec script_toggleMouseMode full_hd))
    = [UiMessage MsgEnableBeforeMode] /\
  self (exec script_toggleMouseMode full_hd) = __init__.
Proof.
  assert (Hoff : magnifier_is_on (self full_hd) = false) by reflexivity.
  destruct (inactive_requests_rejected full_hd Hoff) as [Hin [_ Hmode]].
  unfold exec. rewrite Hin, Hmode. repeat split; reflexivity.
Defined.

(** ** Border dead-zone tracker *)

Section Border.

Variable s : sys.
Variables (left top : Z) (visible_width visible_height : Q).

Let anchor_x : Q := last_screen_left (self s).
Let anchor_y : Q := last_screen_top (self s).
Let mouse_x : Z := fst (cursor (env s)).
Let mouse_y : Z := snd (cursor (env s)).

(** The viewport [_isMouseNearBorder] works with is the one of the anchor. *)
Hypothesis Hwindow :
  _getMagnifierWindow anchor_x anchor_y s
    = (Ret (left, top, visible_width, visible_height), s).

Let min_x : Q := (left + MARGIN_BORDER)%Z.
Let max_x : Q := (left + visible_width - MARGIN_BORDER)%Q.
Let min_y : Q := (top + MARGIN_BORDER)%Z.
Let max_y : Q := (top + visible_height - MARGIN_BORDER)%Q.
Let dx : Q := border_delta min_x max_x mouse_x.
Let dy : Q := border_delta min_y max_y mouse_y.
Let moved : bool := Py.neb dx 0 || Py.neb dy 0.
Let new_x : Q := if moved then (anchor_x + dx)%Q else anchor_x.
Let new_y : Q := if moved then (anchor_y + dy)%Q else anchor_y.

Lemma isMouseNearBorder_value :
  _isMouseNearBorder s
    = (Ret (new_x, new_y),
       mkSys (set_last_screen new_x new_y
                (set_last_mouse_pos (cursor (env s)) (self s)))
             (env s)).
Proof.
  unfold _isMouseNearBorder.
  rewrite (exec_bind _ _ s s anchor_x) by reflexivity.
  rewrite (exec_bind _ _ s s anchor_y) by reflexivity.
  rewrite (exec_bind _ _ s s _ Hwindow).
  rewrite (exec_bind _ _ s s (cursor (env s))) by reflexivity.
  subst new_x new_y moved dx dy min_x max_x min_y max_y mouse_x mouse_y.
  destruct s as [p w]; simpl in *.
  destruct (cursor w) as [mx my]; simpl.
  unfold bind, upd_self, get_self, ret; simpl.
  destruct (Py.neb _ 0 || Py.neb _ 0); reflexivity.
Qed.

Lemma new_anchor_is_shift :
  (new_x == anchor_x + dx)%Q /\ (new_y == anchor_y + dy)%Q /\
  ((dx == 0)%Q -> (dy == 0)%Q -> new_x = anchor_x /\ new_y = anchor_y).
Proof.
  subst new_x new_y. unfold moved.
  destruct (Py.neb dx 0) eqn:Ex; simpl.
  - apply neb_true in Ex. repeat split; try reflexivity; intros; tauto.
  - apply neb_false in Ex. destruct (Py.neb dy 0) eqn:Ey.
    + apply neb_true in Ey. repeat split; try reflexivity; intros; tauto.
    + apply neb_false in Ey. repeat split; lra.
Qed.

End Border.

(** What [border_delta] amounts to when the inner bounds are in order. *)
Lemma border_delta_ordered (min_v max_v : Q) (mouse_v : Z) :
  (min_v <= max_v)%Q ->
  ((min_v <= mouse_v)%Q -> (mouse_v <= max_v)%Q ->
     border_delta min_v max_v mouse_v = 0%Q) /\
  ((mouse_v < min_v)%Q ->
     border_delta min_v max_v mouse_v = (mouse_v - min_v)%Q) /\
  ((max_v < mouse_v)%Q ->
     border_delta min_v max_v mouse_v = (mouse_v - max_v)%Q).
Proof.
  intro Hord. unfold border_delta, Py.gtb. repeat split.
  - intros H1 H2. apply ltb_false in H1, H2. rewrite H1, H2. reflexivity.
  - intro H. apply ltb_spec in H. rewrite H. reflexivity.
  - intro H. assert (H1 : (min_v <= mouse_v)%Q) by lra.
    apply ltb_false in H1. apply ltb_spec in H. rewrite H1, H. reflexivity.
Qed.

(** What it amounts to when they are inverted: no dead-zone is left. *)
Lemma border_delta_inverted (min_v max_v : Q) (mouse_v : Z) :
  (max_v <= min_v)%Q ->
  ((mouse_v < min_v)%Q ->
     border_delta min_v max_v mouse_v = (mouse_v - min_v)%Q) /\
  ((min_v <= mouse_v)%Q ->
     (border_delta min_v max_v mouse_v == mouse_v - max_v)%Q) /\
  ((max_v < min_v)%Q -> ~ (border_delta min_v max_v mouse_v == 0)%Q).
Proof.
  intro Hinv. unfold border_delta, Py.gtb. repeat split.
  - intro H. apply ltb_spec in H. rewrite H. reflexivity.
  - intro H. pose proof H as H1. apply ltb_false in H1. rewrite H1.
    destruct (Py.ltb max_v mouse_v) eqn:E; [reflexivity |].
    apply ltb_false in E. lra.
  - intro Hstrict.
    destruct (Py.ltb mouse_v min_v) eqn:E1.
    + apply ltb_spec in E1. lra.
    + apply ltb_false in E1.
      assert (E2 : (max_v < mouse_v)%Q) by lra.
      apply ltb_spec in E2. rewrite E2. lra.
Qed.

Lemma float_add (a b : Z) : Py.float (a + b) = (Py.float a + Py.float b)%Q.
Proof. unfold Py.float. apply inject_Z_plus. Qed.

(** C4.  With a viewport wider than twice the margin, [_isMouseNearBorder]
    moves the anchor by (dx, dy) where dx is 0 when min_x <= pointer.x <= max_x,
    pointer.x - min_x when the pointer is left of the inner zone and
    pointer.x - max_x when it is right of it, likewise for dy, and the anchor
    is unchanged when both are 0.  With margin 50 and the viewport (0, 0, 500,
    400), a pointer at (300, 200) leaves the anchor unchanged and a pointer at
    (10, 200) moves it by dx = -40. *)
Theorem border_follow_dead_zone :
  (forall (s : sys) (left top : Z) (visible_width visible_height : Q),
      let anchor_x := last_screen_left (self s) in
      let anchor_y := last_screen_top (self s) in
      let mouse_x := fst (cursor (env s)) in
      let mouse_y := snd (cursor (env s)) in
      let min_x : Q := (left + MARGIN_BORDER)%Z in
      let max_x : Q := (left + visible_width - MARGIN_BORDER)%Q in
      let min_y : Q := (top + MARGIN_BORDER)%Z in
      let max_y : Q := (top + visible_height - MARGIN_BORDER)%Q in
      _getMagnifierWindow anchor_x anchor_y s
        = (Ret (left, top, visible_width, visible_height), s) ->
      exists (dx dy new_x new_y : Q) (s' : sys),
        _isMouseNearBorder s = (Ret (new_x, new_y), s') /\
        last_screen_left (self s') = new_x /\
        last_screen_top (self s') = new_y /\
        (new_x == anchor_x + dx)%Q /\ (new_y == anchor_y + dy)%Q /\
        ((dx == 0)%Q -> (dy == 0)%Q -> new_x = anchor_x /\ new_y = anchor_y) /\
        ((2 * MARGIN_BORDER < visible_width)%Q ->
           ((min_x <= mouse_x)%Q -> (mouse_x <= max_x)%Q -> dx = 0%Q) /\
           ((mouse_x < min_x)%Q -> dx = (mouse_x - min_x)%Q) /\
           ((max_x < mouse_x)%Q -> dx = (mouse_x - max_x)%Q)) /\
        ((2 * MARGIN_BORDER < visible_height)%Q ->
           ((min_y <= mouse_y)%Q -> (mouse_y <= max_y)%Q -> dy = 0%Q) /\
           ((mouse_y < min_y)%Q -> dy = (mouse_y - min_y)%Q) /\
           ((max_y < mouse_y)%Q -> dy = (mouse_y - max_y)%Q))) /\
  (forall p, eval (_getMagnifierWindow 250 200) (border_demo p)
             = Ret (0, 0, (1000 / 2)%Q, (800 / 2)%Q)) /\
  (1000 / 2 == 500)%Q /\ (800 / 2 == 400)%Q /\
  eval _isMouseNearBorder (border_demo (300, 200)) = Ret (250%Q, 200%Q) /\
  eval _isMouseNearBorder (border_demo (10, 200))
    = Ret ((250 + (10 - 50))%Q, 200%Q) /\
  (250 + (10 - 50) - 250 == -40)%Q.
Proof.
  split; [| repeat split; try reflexivity; intros [px py]; reflexivity].
  intros s left top vw vh ax ay mx my min_x max_x min_y max_y Hwin.
  pose proof (isMouseNearBorder_value s left top vw vh Hwin) as Hval.
  pose proof (new_anchor_is_shift s left top vw vh) as [Hx [Hy Hsame]].
  exists (border_delta min_x max_x mx), (border_delta min_y max_y my).
  eexists; eexists; eexists.
  split; [exact Hval |].
  split; [reflexivity |]. split; [reflexivity |].
  split; [exact Hx |]. split; [exact Hy |]. split; [exact Hsame |].
  split; intro Hwide.
  - apply border_delta_ordered.
    subst min_x max_x. rewrite float_add. unfold MARGIN_BORDER in *.
    change (Py.float 50) with 50%Q in *. lra.
  - apply border_delta_ordered.
    subst min_y max_y. rewrite float_add. unfold MARGIN_BORDER in *.
    change (Py.float 50) with 50%Q in *. lra.
Qed.

Lemma border_follow_dead_zone_witness :
  (_getMagnifierWindow (last_screen_left (self (border_demo (10, 200))))
                       (last_screen_top (self (border_demo (10, 200))))
                       (border_demo (10, 200))
     = (Ret (0, 0, (1000 / 2)%Q, (800 / 2)%Q), border_demo (10, 200)) /\
   (2 * MARGIN_BORDER < 1000 / 2)%Q /\ (2 * MARGIN_BORDER < 800 / 2)%Q) /\
  exists (dx dy new_x new_y : Q) (s' : sys),
    _isMouseNearBorder (border_demo (10, 200)) = (Ret (new_x, new_y), s') /\
    (new_x == 250 + dx)%Q /\ (new_y == 200 + dy)%Q /\
    dx = (10 - (0 + 50)%Z)%Q /\ dy = 0%Q.
Proof.
  set (s := border_demo (10, 200)).
  assert (H1 : _getMagnifierWindow (last_screen_left (self s))
                 (last_screen_top (self s)) s
               = (Ret (0, 0, (1000 / 2)%Q, (800 / 2)%Q), s))
    by (vm_compute; reflexivity).
  assert (H2 : (2 * MARGIN_BORDER < 1000 / 2)%Q) by reflexivity.
  assert (H3 : (2 * MARGIN_BORDER < 800 / 2)%Q) by reflexivity.
  split; [auto |].
  destruct (proj1 border_follow_dead_zone s 0 0 _ _ H1)
    as (dx & dy & nx & ny & s' & Hv & _ & _ & Hx & Hy & _ & Hdx & Hdy).
  destruct (Hdx H2) as (_ & Hleft & _). destruct (Hdy H3) as (Hin & _).
  exists dx, dy, nx, ny, s'.
  repeat split; try assumption.
  - apply Hleft. vm_compute. reflexivity.
  - apply Hin; vm_compute; discriminate.
Defined.

(** C5, refuted as stated.  On an 80 x 60 viewport the inner bounds are
    min_x = 50 > max_x = 30 and they are not clamped to one value: a pointer at
    x = 40 moves the anchor by -10 (measured from 50) and a pointer at x = 50
    moves it by +20 (measured from 30). *)
Lemma inverted_bounds_not_clamped :
  (exists visible_width visible_height : Q,
      eval (_getMagnifierWindow 0 0) narrow_view
        = Ret (0, 0, visible_width, visible_height) /\
      (visible_width == 80)%Q /\ (visible_height == 60)%Q /\
      (visible_width <= 2 * MARGIN_BORDER)%Q) /\
  ~ zero_width_dead_zone narrow_view.
Proof.
  split.
  { exists (screen_width (env narrow_view) / zoom (self narrow_view))%Q,
           (screen_height (env narrow_view) / zoom (self narrow_view))%Q.
    split; [vm_compute; reflexivity |].
    repeat split; vm_compute; congruence. }
  intros (m_x & m_y & H).
  destruct (H (40, 30)) as (a & b & Ea & Ha & _).
  destruct (H (50, 30)) as (c & d & Ec & Hc & _).
  vm_compute in Ea, Ec. inversion Ea; subst a b. inversion Ec; subst c d.
  assert (E0 : last_screen_left (self narrow_view) = 0%Q)
    by (vm_compute; reflexivity).
  rewrite E0 in Ha, Hc. simpl fst in Ha, Hc.
  change (Py.float 40) with 40%Q in Ha. change (Py.float 50) with 50%Q in Hc.
  lra.
Qed.

(** C5, as the code has it.  [_isMouseNearBorder] has no guard for inverted
    inner bounds and never raises on a viewport it could compute.  On an axis
    where the visible extent is at most twice the margin, the shift is
    pointer - min when the pointer is below min and pointer - max otherwise;
    where the extent is strictly smaller, the shift is never 0. *)
Theorem border_follow_inverted
    (s : sys) (left top : Z) (visible_width visible_height : Q) :
  let anchor_x := last_screen_left (self s) in
  let anchor_y := last_screen_top (self s) in
  let mouse_x := fst (cursor (env s)) in
  let mouse_y := snd (cursor (env s)) in
  let min_x : Q := (left + MARGIN_BORDER)%Z in
  let max_x : Q := (left + visible_width - MARGIN_BORDER)%Q in
  let min_y : Q := (top + MARGIN_BORDER)%Z in
  let max_y : Q := (top + visible_height - MARGIN_BORDER)%Q in
  _getMagnifierWindow anchor_x anchor_y s
    = (Ret (left, top, visible_width, visible_height), s) ->
  exists (dx dy new_x new_y : Q) (s' : sys),
    _isMouseNearBorder s = (Ret (new_x, new_y), s') /\
    (new_x == anchor_x + dx)%Q /\ (new_y == anchor_y + dy)%Q /\
    ((visible_width <= 2 * MARGIN_BORDER)%Q ->
       ((mouse_x < min_x)%Q -> dx = (mouse_x - min_x)%Q) /\
       ((min_x <= mouse_x)%Q -> (dx == mouse_x - max_x)%Q) /\
       ((visible_width < 2 * MARGIN_BORDER)%Q -> ~ (dx == 0)%Q)) /\
    ((visible_height <= 2 * MARGIN_BORDER)%Q ->
       ((mouse_y < min_y)%Q -> dy = (mouse_y - min_y)%Q) /\
       ((min_y <= mouse_y)%Q -> (dy == mouse_y - max_y)%Q) /\
       ((visible_height < 2 * MARGIN_BORDER)%Q -> ~ (dy == 0)%Q)).
Proof.
  intros ax ay mx my min_x max_x min_y max_y Hwin.
  pose proof (isMouseNearBorder_value s left top _ _ Hwin) as Hval.
  pose proof (new_anchor_is_shift s left top visible_width visible_height)
    as [Hx [Hy _]].
  exists (border_delta min_x max_x mx), (border_delta min_y max_y my).
  eexists; eexists; eexists.
  split; [exact Hval |]. split; [exact Hx |]. split; [exact Hy |].
  split; intro Hsmall.
  - assert (Hinv : (max_x <= min_x)%Q).
    { subst min_x max_x. rewrite float_add. unfold MARGIN_BORDER in *.
      change (Py.float 50) with 50%Q in *. lra. }
    destruct (border_delta_inverted min_x max_x mx Hinv) as [D1 [D2 D3]].
    repeat split; try assumption.
    intro Hstrict. apply D3.
    subst min_x max_x. rewrite float_add. unfold MARGIN_BORDER in *.
    change (Py.float 50) with 50%Q in *. lra.
  - assert (Hinv : (max_y <= min_y)%Q).
    { subst min_y max_y. rewrite float_add. unfold MARGIN_BORDER in *.
      change (Py.float 50) with 50%Q in *. lra. }
    destruct (border_delta_inverted min_y max_y my Hinv) as [D1 [D2 D3]].
    repeat split; try assumption.
    intro Hstrict. apply D3.
    subst min_y max_y. rewrite float_add. unfold MARGIN_BORDER in *.
    change (Py.float 50) with 50%Q in *. lra.
Qed.

Lemma border_follow_inverted_witness :
  _getMagnifierWindow (last_screen_left (self narrow_pointed))
                      (last_screen_top (self narrow_pointed)) narrow_pointed
    = (Ret (0, 0, (800 / zoom (self narrow_pointed))%Q,
                  (600 / zoom (self narrow_pointed))%Q), narrow_pointed) /\
  (800 / zoom (self narrow_pointed) < 2 * MARGIN_BORDER)%Q /\
  exists (dx dy new_x new_y : Q) (s' : sys),
    _isMouseNearBorder narrow_pointed = (Ret (new_x, new_y), s') /\
    (new_x == 0 + dx)%Q /\ dx = (40 - (0 + 50)%Z)%Q /\ ~ (dx == 0)%Q.
Proof.
  set (s := narrow_pointed).
  set (visible_width := (800 / zoom (self s))%Q).
  set (visible_height := (600 / zoom (self s))%Q).
  assert (H1 : _getMagnifierWindow (last_screen_left (self s))
                 (last_screen_top (self s)) s
               = (Ret (0, 0, visible_width, visible_height), s))
    by (vm_compute; reflexivity).
  assert (H2 : (visible_width < 2 * MARGIN_BORDER)%Q)
    by (vm_compute; reflexivity).
  split; [exact H1 |]. split; [exact H2 |].
  destruct (border_follow_inverted s 0 0 _ _ H1)
    as (dx & dy & nx & ny & s' & Hv & Hx & _ & Hdx & _).
  destruct (Hdx (Qlt_le_weak _ _ H2)) as (Hleft & _ & Hnz).
  exists dx, dy, nx, ny, s'.
  split; [exact Hv |]. split; [exact Hx |].
  split; [apply Hleft; vm_compute; reflexivity | exact (Hnz H2)].
Defined.

(** ** Polling driver *)

#[global] Instance driver_only_frame : FrameRel driver_only.
Proof.
  split.
  - intro s. repeat split. exists []. symmetry. apply app_nil_r.
  - intros a b c (Hp & Hd & l & Hl) (Hp' & Hd' & l' & Hl').
    repeat split; [congruence | congruence |].
    exists (l ++ l'). rewrite Hl', Hl. symmetry. apply app_assoc.
Qed.

Ltac driver_leaf :=
  repeat split; simpl;
  first [ eexists; symmetry; apply app_nil_r | eexists; reflexivity ].

Lemma resetMagnifier_driver : preserves driver_only _resetMagnifier.
Proof. unfold _resetMagnifier. frame driver_leaf. Qed.
#[global] Hint Resolve resetMagnifier_driver : frame.

Lemma continueMagnifier_driver : preserves driver_only _continueMagnifier.
Proof. unfold _continueMagnifier. frame driver_leaf. Qed.
#[global] Hint Resolve continueMagnifier_driver : frame.

Lemma getMagnifierWindow_driver x y :
  preserves driver_only (_getMagnifierWindow x y).
Proof. unfold _getMagnifierWindow. frame driver_leaf. Qed.
#[global] Hint Resolve getMagnifierWindow_driver : frame.

Lemma centerMagnifier_driver x y : preserves driver_only (_centerMagnifier x y).
Proof. unfold _centerMagnifier. frame driver_leaf. Qed.
#[global] Hint Resolve centerMagnifier_driver : frame.

Lemma getNVDAPosition_driver : preserves driver_only _getNVDAPosition.
Proof. unfold _getNVDAPosition. frame driver_leaf. Qed.
#[global] Hint Resolve getNVDAPosition_driver : frame.

(** What [driver_only] keeps, field by field. *)
Lemma driver_only_fields (s s' : sys) :
  driver_only s s' ->
  magnifier_is_on (self s') = magnifier_is_on (self s) /\
  zoom (self s') = zoom (self s) /\
  last_mouse_pos (self s') = last_mouse_pos (self s) /\
  last_nvda_pos (self s') = last_nvda_pos (self s) /\
  last_screen_left (self s') = last_screen_left (self s) /\
  last_screen_top (self s') = last_screen_top (self s) /\
  mode (self s') = mode (self s) /\
  cursor (env s') = cursor (env s) /\
  review_point (env s') = review_point (env s) /\
  navigator_location (env s') = navigator_location (env s) /\
  magnification (env s') = magnification (env s).
Proof.
  intros (Hp & Hd & _).
  destruct s as [p w], s' as [p' w']; simpl in *.
  destruct p, p'; unfold set_timer in Hp; simpl in Hp.
  unfold devices in Hd. inversion Hp; inversion Hd; subst. simpl.
  repeat split; reflexivity.
Qed.

(** [_getNVDAPosition] always returns; what it returns depends on the
    screen reader only, and it leaves the plugin object alone. *)
Lemma getNVDAPosition_returns (s : sys) :
  exists pos, _getNVDAPosition s = (Ret pos, exec _getNVDAPosition s).
Proof.
  unfold exec, _getNVDAPosition, bind, get_env, log_info, upd_env, ret.
  destruct (review_point (env s)) as [pt |]; [eexists; reflexivity |].
  destruct (navigator_location (env s)) as [[[[l t] w] h] |];
    eexists; reflexivity.
Qed.

Lemma getNVDAPosition_self (s : sys) : self (exec _getNVDAPosition s) = self s.
Proof.
  unfold exec, _getNVDAPosition, bind, get_env, log_info, upd_env, ret.
  destruct (review_point (env s)) as [pt |]; [reflexivity |].
  destruct (navigator_location (env s)) as [[[[l t] w] h] |]; reflexivity.
Qed.

Lemma getNVDAPosition_reading (s s' : sys) :
  review_point (env s') = review_point (env s) ->
  navigator_location (env s') = navigator_location (env s) ->
  eval _getNVDAPosition s' = eval _getNVDAPosition s.
Proof.
  intros Hr Hn.
  unfold eval, _getNVDAPosition, bind, get_env, log_info, upd_env, ret.
  cbv beta iota. rewrite Hr.
  destruct (review_point (env s)) as [pt |]; [reflexivity |].
  cbv beta iota. rewrite Hn.
  destruct (navigator_location (env s)) as [[[[l t] w] h] |]; reflexivity.
Qed.

Lemma eval_exec {A} (m : M A) (s : sys) (a : A) :
  eval m s = Ret a -> m s = (Ret a, exec m s).
Proof.
  unfold eval, exec. destruct (m s) as [r s1]; simpl. intros ->. reflexivity.
Qed.

(** ** Focus arbitrator *)

Lemma focusOnNvda_value (s : sys) (pos : Py.point) :
  _focusOnNvda pos s
    = (Ret (Py.float (fst pos), Py.float (snd pos)),
       mkSys (set_last_screen (fst pos) (snd pos)
                (set_last_nvda_pos pos (self s)))
             (emit (SetCursorPos (fst pos) (snd pos))
                   (set_cursor pos (env s)))).
Proof. reflexivity. Qed.

Section Tick.

Variable s : sys.
Variable nvda_pos : Py.point.

(** The accessibility position read at the start of this tick. *)
Hypothesis Hread : eval _getNVDAPosition s = Ret nvda_pos.

(** The state once that position has been read. *)
Let s0 : sys := exec _getNVDAPosition s.

Let mouse_pos : Py.point := cursor (env s).

Lemma read_cursor : cursor (env s0) = mouse_pos.
Proof.
  apply (driver_only_fields s s0). apply getNVDAPosition_driver.
Qed.

Lemma chooseFocus_head :
  _chooseFocus s =
    (if Py.point_neb (last_nvda_pos (self s)) nvda_pos then
       focus_pos <- _focusOnNvda nvda_pos ;;
       _centerMagnifier (fst focus_pos) (snd focus_pos)
     else if Py.point_neb (last_mouse_pos (self s)) mouse_pos then
       focus_pos <- _focusOnMouse mouse_pos ;;
       _centerMagnifier (fst focus_pos) (snd focus_pos)
     else _continueMagnifier) s0.
Proof.
  unfold _chooseFocus.
  rewrite (exec_bind _ _ s s0 nvda_pos) by (apply eval_exec, Hread).
  rewrite (exec_bind _ _ s0 s0 (cursor (env s0))) by reflexivity.
  rewrite (exec_bind _ _ s0 s0 (last_nvda_pos (self s0))) by reflexivity.
  rewrite (exec_bind _ _ s0 s0 (last_mouse_pos (self s0))) by reflexivity.
  rewrite read_cursor. unfold s0. rewrite getNVDAPosition_self.
  reflexivity.
Qed.

Lemma chooseFocus_nvda :
  nvda_pos <> last_nvda_pos (self s) ->
  _chooseFocus s =
    (focus_pos <- _focusOnNvda nvda_pos ;;
     _centerMagnifier (fst focus_pos) (snd focus_pos)) s0.
Proof.
  intro Hn. rewrite chooseFocus_head.
  assert (E : Py.point_neb (last_nvda_pos (self s)) nvda_pos = true)
    by (apply point_neb_true; congruence).
  rewrite E. reflexivity.
Qed.

Lemma chooseFocus_mouse :
  nvda_pos = last_nvda_pos (self s) ->
  mouse_pos <> last_mouse_pos (self s) ->
  _chooseFocus s =
    (focus_pos <- _focusOnMouse mouse_pos ;;
     _centerMagnifier (fst focus_pos) (snd focus_pos)) s0.
Proof.
  intros Hn Hm. rewrite chooseFocus_head.
  assert (E : Py.point_neb (last_nvda_pos (self s)) nvda_pos = false)
    by (apply point_neb_false; congruence).
  assert (E' : Py.point_neb (last_mouse_pos (self s)) mouse_pos = true)
    by (apply point_neb_true; congruence).
  rewrite E, E'. reflexivity.
Qed.

Lemma chooseFocus_idle :
  nvda_pos = last_nvda_pos (self s) ->
  mouse_pos = last_mouse_pos (self s) ->
  _chooseFocus s = _continueMagnifier s0.
Proof.
  intros Hn Hm. rewrite chooseFocus_head.
  assert (E : Py.point_neb (last_nvda_pos (self s)) nvda_pos = false)
    by (apply point_neb_false; congruence).
  assert (E' : Py.point_neb (last_mouse_pos (self s)) mouse_pos = false)
    by (apply point_neb_false; congruence).
  rewrite E, E'. reflexivity.
Qed.

(** The state in which an accessibility-won tick calls [_centerMagnifier]. *)
Let s1 : sys := exec (_focusOnNvda nvda_pos) s0.

Lemma nvda_tick_centers :
  nvda_pos <> last_nvda_pos (self s) ->
  _chooseFocus s = _centerMagnifier (fst nvda_pos) (snd nvda_pos) s1.
Proof.
  intro Hn. rewrite (chooseFocus_nvda Hn).
  erewrite exec_bind by apply focusOnNvda_value. reflexivity.
Qed.

(** What an accessibility-won tick leaves behind. *)
Lemma nvda_tick_state :
  nvda_pos <> last_nvda_pos (self s) ->
  let s' := exec _chooseFocus s in
  last_nvda_pos (self s') = nvda_pos /\
  last_screen_left (self s') = fst nvda_pos /\
  last_screen_top (self s') = snd nvda_pos /\
  cursor (env s') = nvda_pos /\
  last_mouse_pos (self s') = last_mouse_pos (self s) /\
  zoom (self s') = zoom (self s) /\
  mode (self s') = mode (self s) /\
  magnifier_is_on (self s') = magnifier_is_on (self s) /\
  review_point (env s') = review_point (env s) /\
  navigator_location (env s') = navigator_location (env s) /\
  exists l l',
    trace (env s')
      = trace (env s) ++ l ++ SetCursorPos (fst nvda_pos) (snd nvda_pos) :: l'.
Proof.
  intros Hn s'.
  assert (Hs' : s' = exec (_centerMagnifier (fst nvda_pos) (snd nvda_pos)) s1)
    by (unfold s', exec; rewrite (nvda_tick_centers Hn); reflexivity).
  pose proof (centerMagnifier_driver (fst nvda_pos) (snd nvda_pos) s1) as Hc.
  rewrite <- Hs' in Hc.
  pose proof (getNVDAPosition_driver s) as H0. fold s0 in H0.
  destruct (driver_only_fields _ _ Hc)
    as (C1 & C2 & C3 & C4 & C5 & C6 & C7 & C8 & C9 & C10 & _).
  destruct (driver_only_fields _ _ H0)
    as (D1 & D2 & D3 & D4 & D5 & D6 & D7 & D8 & D9 & D10 & _).
  destruct Hc as (_ & _ & l' & Hl'). destruct H0 as (_ & _ & l & Hl).
  rewrite C1, C2, C3, C4, C5, C6, C7, C8, C9, C10.
  unfold s1, exec. rewrite focusOnNvda_value. simpl.
  repeat split; try assumption.
  exists l, l'. rewrite Hl'. unfold s1, exec. rewrite focusOnNvda_value.
  simpl. rewrite Hl. rewrite <- !app_assoc. reflexivity.
Qed.

End Tick.

(** C1.  In a tick where both the accessibility position and the pointer
    position differ from their last-seen values, [_chooseFocus] takes the
    accessibility branch: the point handed to [_centerMagnifier] is the fresh
    accessibility position, [last_nvda_pos] and the anchor are set to it, and
    the pointer is warped to it. *)
Theorem accessibility_preempts_pointer (s : sys) (nvda_pos : Py.point) :
  eval _getNVDAPosition s = Ret nvda_pos ->
  nvda_pos <> last_nvda_pos (self s) ->
  cursor (env s) <> last_mouse_pos (self s) ->
  let s0 := exec _getNVDAPosition s in
  let s1 := exec (_focusOnNvda nvda_pos) s0 in
  let s' := exec _chooseFocus s in
  eval (_focusOnNvda nvda_pos) s0
    = Ret (Py.float (fst nvda_pos), Py.float (snd nvda_pos)) /\
  _chooseFocus s = _centerMagnifier (fst nvda_pos) (snd nvda_pos) s1 /\
  last_nvda_pos (self s') = nvda_pos /\
  last_screen_left (self s') = fst nvda_pos /\
  last_screen_top (self s') = snd nvda_pos /\
  cursor (env s') = nvda_pos /\
  exists l l',
    trace (env s')
      = trace (env s) ++ l ++ SetCursorPos (fst nvda_pos) (snd nvda_pos) :: l'.
Proof.
  intros Hread Hn _ s0 s1 s'.
  destruct (nvda_tick_state s nvda_pos Hread Hn)
    as (H1 & H2 & H3 & H4 & _ & _ & _ & _ & _ & _ & H5).
  split; [reflexivity |].
  split; [exact (nvda_tick_centers s nvda_pos Hread Hn) |].
  repeat split; assumption.
Qed.

Lemma accessibility_preempts_pointer_witness :
  (eval _getNVDAPosition both_moved = Ret (640, 480) /\
   (640, 480) <> last_nvda_pos (self both_moved) /\
   cursor (env both_moved) <> last_mouse_pos (self both_moved)) /\
  let s' := exec _chooseFocus both_moved in
  last_nvda_pos (self s') = (640, 480) /\
  last_screen_left (self s') = 640 /\
  last_screen_top (self s') = 480 /\
  cursor (env s') = (640, 480).
Proof.
  assert (H1 : eval _getNVDAPosition both_moved = Ret (640, 480))
    by (vm_compute; reflexivity).
  assert (H2 : (640, 480) <> last_nvda_pos (self both_moved))
    by (vm_compute; discriminate).
  assert (H3 : cursor (env both_moved) <> last_mouse_pos (self both_moved))
    by (vm_compute; discriminate).
  split; [auto |].
  destruct (accessibility_preempts_pointer both_moved (640, 480) H1 H2 H3)
    as (_ & _ & A & B & C & D & _).
  repeat split; assumption.
Defined.

(** C10, refuted as stated.  The tick is won by the accessibility source, yet
    the warped pointer reads the same as the stored last pointer position on
    the following tick, which is therefore idle. *)
Lemma warped_pointer_can_be_still :
  eval _getNVDAPosition pointer_on_target = Ret (100, 100) /\
  (100, 100) <> last_nvda_pos (self pointer_on_target) /\
  let s' := exec _chooseFocus pointer_on_target in
  ~ cursor (env s') <> last_mouse_pos (self s') /\
  _chooseFocus s' = _continueMagnifier s'.
Proof.
  split; [vm_compute; reflexivity |].
  split; [vm_compute; discriminate |].
  split; [| vm_compute; reflexivity].
  intro H. apply H. vm_compute. reflexivity.
Qed.

(** C10, as the code has it.  A tick won by the accessibility source sets
    [last_nvda_pos] and the anchor to the new position and warps the pointer
    there, leaving [last_mouse_pos], the zoom and the mode as they were.  If
    that position differs from the stored last pointer position, then on the
    following tick (nothing else having moved) the pointer reading differs
    from it and the tick takes the pointer branch; if it is equal, the
    following tick is idle. *)
Theorem accessibility_tick_frame (s : sys) (nvda_pos : Py.point) :
  eval _getNVDAPosition s = Ret nvda_pos ->
  nvda_pos <> last_nvda_pos (self s) ->
  let s' := exec _chooseFocus s in
  (last_nvda_pos (self s') = nvda_pos /\
   last_screen_left (self s') = fst nvda_pos /\
   last_screen_top (self s') = snd nvda_pos /\
   cursor (env s') = nvda_pos) /\
  (last_mouse_pos (self s') = last_mouse_pos (self s) /\
   zoom (self s') = zoom (self s) /\
   mode (self s') = mode (self s)) /\
  (nvda_pos <> last_mouse_pos (self s) ->
     cursor (env s') <> last_mouse_pos (self s') /\
     _chooseFocus s' =
       (focus_pos <- _focusOnMouse nvda_pos ;;
        _centerMagnifier (fst focus_pos) (snd focus_pos))
         (exec _getNVDAPosition s')) /\
  (nvda_pos = last_mouse_pos (self s) ->
     _chooseFocus s' = _continueMagnifier (exec _getNVDAPosition s')).
Proof.
  intros Hread Hn s'.
  destruct (nvda_tick_state s nvda_pos Hread Hn)
    as (H1 & H2 & H3 & H4 & H5 & H6 & H7 & _ & H9 & H10 & _).
  fold s' in H1, H2, H3, H4, H5, H6, H7, H9, H10.
  assert (Hread' : eval _getNVDAPosition s' = Ret nvda_pos)
    by (rewrite (getNVDAPosition_reading s s' H9 H10); exact Hread).
  split; [auto |]. split; [auto |]. split.
  - intro Hm. split; [rewrite H4, H5; exact Hm |].
    rewrite <- H4 at 1.
    apply (chooseFocus_mouse s' nvda_pos Hread'); [congruence |].
    rewrite H4, H5. exact Hm.
  - intro Hm.
    apply (chooseFocus_idle s' nvda_pos Hread'); [congruence |].
    rewrite H4, H5. exact Hm.
Qed.

Lemma accessibility_tick_frame_witness :
  (eval _getNVDAPosition both_moved = Ret (640, 480) /\
   (640, 480) <> last_nvda_pos (self both_moved) /\
   (640, 480) <> last_mouse_pos (self both_moved)) /\
  let s' := exec _chooseFocus both_moved in
  last_mouse_pos (self s') = last_mouse_pos (self both_moved) /\
  cursor (env s') <> last_mouse_pos (self s').
Proof.
  assert (H1 : eval _getNVDAPosition both_moved = Ret (640, 480))
    by (vm_compute; reflexivity).
  assert (H2 : (640, 480) <> last_nvda_pos (self both_moved))
    by (vm_compute; discriminate).
  assert (H3 : (640, 480) <> last_mouse_pos (self both_moved))
    by (vm_compute; discriminate).
  split; [auto |].
  destruct (accessibility_tick_frame both_moved (640, 480) H1 H2)
    as (_ & (A & _) & B & _).
  split; [exact A | exact (proj1 (B H3))].
Defined.

(** ** Re-arming and teardown *)

Lemma record_record (l l' : list event) (w : world) :
  record l' (record l w) = record (l ++ l') w.
Proof. unfold record; simpl. rewrite <- app_assoc. reflexivity. Qed.

Lemma emit_record (e : event) (w : world) : emit e w = record [e] w.
Proof. reflexivity. Qed.

Lemma resetMagnifier_value (s : sys) :
  _resetMagnifier s = (Ret tt, mkSys (self s) (record (reset_events (env s)) (env s))).
Proof.
  unfold _resetMagnifier, reset_events, bind, get_env, log_info, upd_env.
  destruct (magnification (env s)) as [[|] |]; simpl;
    rewrite !emit_record, ?record_record; reflexivity.
Qed.

Lemma continueMagnifier_on (s : sys) :
  magnifier_is_on (self s) = true ->
  _continueMagnifier s
    = (Ret tt,
       mkSys (set_timer (Some (next_timer (env s))) (self s))
             (set_timers (next_timer (env s) :: stopped s)
                         (S (next_timer (env s))) (env s))).
Proof.
  intro Hon. unfold _continueMagnifier, stopped.
  rewrite (exec_bind _ _ s s (timer (self s))) by reflexivity.
  destruct (timer (self s)) as [t |].
  - erewrite exec_bind by reflexivity.
    erewrite exec_bind by (unfold get_self; simpl; rewrite Hon; reflexivity).
    reflexivity.
  - erewrite exec_bind by reflexivity.
    erewrite exec_bind by (unfold get_self; rewrite Hon; reflexivity).
    reflexivity.
Qed.

Lemma continueMagnifier_off (s : sys) :
  magnifier_is_on (self s) = false ->
  _continueMagnifier s
    = (Ret tt,
       mkSys (set_timer None (self s))
             (record (reset_events (env s))
                     (set_timers (stopped s) (next_timer (env s)) (env s)))).
Proof.
  intro Hoff. unfold _continueMagnifier, stopped.
  rewrite (exec_bind _ _ s s (timer (self s))) by reflexivity.
  destruct (timer (self s)) as [t |].
  - erewrite exec_bind by reflexivity.
    erewrite exec_bind by (unfold get_self; simpl; rewrite Hoff; reflexivity).
    cbv beta iota. erewrite exec_bind by reflexivity.
    rewrite resetMagnifier_value. reflexivity.
  - erewrite exec_bind by reflexivity.
    erewrite exec_bind by (unfold get_self; rewrite Hoff; reflexivity).
    cbv beta iota. erewrite exec_bind by reflexivity.
    rewrite resetMagnifier_value. destruct s as [p w]; reflexivity.
Qed.

Lemma centerMagnifier_value (s : sys) (x y : Q) :
  Qeq_bool (zoom (self s)) 0 = false ->
  exists left top,
    _centerMagnifier x y s
      = _continueMagnifier
          (mkSys (self s)
                 (record (transform_events (env s) (zoom (self s)) left top)
                         (env s))).
Proof.
  intro Hnz. unfold _centerMagnifier.
  erewrite exec_bind by (apply window_value; exact Hnz).
  eexists; eexists. cbv beta iota.
  unfold transform_events.
  rewrite (exec_bind _ _ s s (magnification (env s))) by reflexivity.
  destruct (magnification (env s)) as [[|] |].
  - unfold bind at 1. simpl. rewrite !emit_record. reflexivity.
  - unfold bind at 1. simpl. rewrite !emit_record, record_record. reflexivity.
  - unfold bind at 1. simpl. rewrite emit_record. reflexivity.
Qed.

Lemma record_nil (w : world) : record [] w = w.
Proof. destruct w; unfold record; simpl. rewrite app_nil_r. reflexivity. Qed.

(** What [_getNVDAPosition] does to the state: at most one log line. *)
Lemma getNVDAPosition_state (s : sys) :
  exists l, exec _getNVDAPosition s = mkSys (self s) (record l (env s)) /\
            (l = [] \/ l = [LogInfo LogNoLocation]).
Proof.
  unfold exec, _getNVDAPosition, bind, get_env, log_info, upd_env, ret.
  destruct (review_point (env s)) as [pt |];
    [exists []; rewrite record_nil; destruct s; auto |].
  destruct (navigator_location (env s)) as [[[[l t] w] h] |].
  - exists []; rewrite record_nil; destruct s; auto.
  - eexists; split; [reflexivity | auto].
Qed.

(** C6, as the code has it.  In a tick where neither position differs from
    its last-seen value, [_centerMagnifier] is not reached, so no transform
    is applied.  While the session is active no renderer call at all is made
    and the timer is re-armed; when the session was switched off in the
    interim the tick performs the teardown, which clears the timer and makes
    exactly one reset call. *)
Theorem idle_tick_applies_no_transform (s : sys) (nvda_pos : Py.point) :
  eval _getNVDAPosition s = Ret nvda_pos ->
  nvda_pos = last_nvda_pos (self s) ->
  cursor (env s) = last_mouse_pos (self s) ->
  let s' := exec _chooseFocus s in
  exists l,
    trace (env s') = trace (env s) ++ l /\
    forallb (fun e => negb (is_transform e)) l = true /\
    (magnifier_is_on (self s) = true ->
       forallb (fun e => negb (is_renderer_call e)) l = true /\
       timer (self s') = Some (next_timer (env s)) /\
       In (next_timer (env s)) (running (env s'))) /\
    (magnifier_is_on (self s) = false ->
       timer (self s') = None /\
       forall r, magnification (env s) = Some r ->
                 length (filter is_reset l) = 1%nat).
Proof.
  intros Hread Hn Hm s'.
  assert (Hs' : s' = exec _continueMagnifier (exec _getNVDAPosition s))
    by (unfold s', exec at 1;
        rewrite (chooseFocus_idle s nvda_pos Hread Hn Hm); reflexivity).
  rewrite Hs'. clear Hs' s'.
  destruct (getNVDAPosition_state s) as (l0 & -> & Hl0).
  unfold exec.
  destruct (magnifier_is_on (self s)) eqn:Hon.
  - rewrite continueMagnifier_on by exact Hon. simpl.
    exists l0. split; [reflexivity |].
    split; [destruct Hl0 as [-> | ->]; reflexivity |].
    split; [| discriminate]. intros _.
    split; [destruct Hl0 as [-> | ->]; reflexivity |].
    split; [reflexivity | left; reflexivity].
  - rewrite continueMagnifier_off by exact Hon. simpl.
    exists (l0 ++ reset_events (env s)).
    split; [symmetry; apply app_assoc |].
    split.
    + unfold reset_events.
      destruct Hl0 as [-> | ->]; destruct (magnification (env s)) as [[|] |];
        reflexivity.
    + split; [discriminate |]. intros _. split; [reflexivity |].
      intros r Hr. unfold reset_events. rewrite Hr.
      destruct Hl0 as [-> | ->]; reflexivity.
Qed.

Lemma idle_tick_applies_no_transform_witness :
  (eval _getNVDAPosition active_hd = Ret (0, 0) /\
   (0, 0) = last_nvda_pos (self active_hd) /\
   cursor (env active_hd) = last_mouse_pos (self active_hd)) /\
  exists l,
    trace (env (exec _chooseFocus active_hd)) = trace (env active_hd) ++ l /\
    forallb (fun e => negb (is_transform e)) l = true.
Proof.
  assert (H1 : eval _getNVDAPosition active_hd = Ret (0, 0))
    by (vm_compute; reflexivity).
  assert (H2 : (0, 0) = last_nvda_pos (self active_hd)) by reflexivity.
  assert (H3 : cursor (env active_hd) = last_mouse_pos (self active_hd))
    by reflexivity.
  split; [repeat split; vm_compute; reflexivity |].
  destruct (idle_tick_applies_no_transform active_hd (0, 0) H1 H2 H3)
    as (l & A & B & _).
  exists l. split; assumption.
Defined.

(** C6, refuted as stated.  The tick left armed by a session that was switched
    off finds neither position changed, and it calls the renderer: the
    teardown resets the magnifier. *)
Lemma idle_tick_can_reset :
  eval _getNVDAPosition pending_teardown
    = Ret (last_nvda_pos (self pending_teardown)) /\
  cursor (env pending_teardown) = last_mouse_pos (self pending_teardown) /\
  In 0%nat (running (env pending_teardown)) /\
  trace (env (exec (fire 0%nat) pending_teardown))
    = trace (env pending_teardown) ++ [MagReset; LogInfo LogResetDone] /\
  existsb is_renderer_call [MagReset; LogInfo LogResetDone] = true.
Proof.
  repeat split; try (vm_compute; reflexivity).
  left; reflexivity.
Qed.

(** *** What a tick does before it reaches [_continueMagnifier] *)

#[global] Instance session_kept_frame : FrameRel session_kept.
Proof.
  split.
  - intro s. repeat split. exists []. symmetry. apply app_nil_r.
  - intros a b c (A1 & A2 & A3 & A4 & A5 & l & Hl)
                 (B1 & B2 & B3 & B4 & B5 & l' & Hl').
    repeat split; try congruence.
    exists (l ++ l'). rewrite Hl', Hl. symmetry. apply app_assoc.
Qed.

Lemma getMagnifierWindow_session x y :
  preserves session_kept (_getMagnifierWindow x y).
Proof. unfold _getMagnifierWindow. frame driver_leaf. Qed.
#[global] Hint Resolve getMagnifierWindow_session : frame.

Lemma getNVDAPosition_session : preserves session_kept _getNVDAPosition.
Proof. unfold _getNVDAPosition. frame driver_leaf. Qed.
#[global] Hint Resolve getNVDAPosition_session : frame.

Lemma isMouseNearBorder_session : preserves session_kept _isMouseNearBorder.
Proof. unfold _isMouseNearBorder. frame driver_leaf. Qed.
#[global] Hint Resolve isMouseNearBorder_session : frame.

Lemma focusOnNvda_session pos : preserves session_kept (_focusOnNvda pos).
Proof. unfold _focusOnNvda. frame driver_leaf. Qed.
#[global] Hint Resolve focusOnNvda_session : frame.

Lemma focusOnMouse_session pos : preserves session_kept (_focusOnMouse pos).
Proof. unfold _focusOnMouse. frame driver_leaf. Qed.
#[global] Hint Resolve focusOnMouse_session : frame.

Lemma session_kept_record (s : sys) (l : list event) :
  session_kept s (mkSys (self s) (record l (env s))).
Proof. repeat split. exists l. reflexivity. Qed.

(** With a non-zero zoom [_focusOnMouse] returns. *)
Lemma focusOnMouse_returns (s : sys) (pos : Py.point) :
  Qeq_bool (zoom (self s)) 0 = false ->
  exists focus_pos s1, _focusOnMouse pos s = (Ret focus_pos, s1).
Proof.
  intro Hnz. unfold _focusOnMouse.
  erewrite exec_bind by reflexivity.
  erewrite exec_bind by reflexivity.
  simpl. destruct (mode (self s)).
  - eexists; eexists; reflexivity.
  - set (s1 := mkSys _ _).
    assert (Hnz1 : Qeq_bool (zoom (self s1)) 0 = false) by exact Hnz.
    rewrite (isMouseNearBorder_value s1 _ _ _ _ (window_value s1 _ _ Hnz1)).
    eexists; eexists; reflexivity.
Qed.

(** With a non-zero zoom every tick ends in [_continueMagnifier], entered
    with the session as the tick found it. *)
Lemma tick_reaches_continue (s : sys) :
  Qeq_bool (zoom (self s)) 0 = false ->
  exists s_mid, _chooseFocus s = _continueMagnifier s_mid /\
                session_kept s s_mid.
Proof.
  intro Hnz.
  destruct (getNVDAPosition_returns s) as [pos Hpos].
  assert (Hread : eval _getNVDAPosition s = Ret pos)
    by (unfold eval; rewrite Hpos; reflexivity).
  pose proof (getNVDAPosition_session s) as K0.
  set (s0 := exec _getNVDAPosition s) in *.
  assert (Hnz0 : Qeq_bool (zoom (self s0)) 0 = false)
    by (destruct K0 as (_ & _ & -> & _); exact Hnz).
  rewrite (chooseFocus_head s pos Hread). fold s0.
  destruct (Py.point_neb (last_nvda_pos (self s)) pos).
  - erewrite exec_bind by apply focusOnNvda_value.
    pose proof (focusOnNvda_session pos s0) as K1.
    unfold exec in K1. rewrite focusOnNvda_value in K1. simpl snd in K1.
    set (s1 := mkSys _ _) in *.
    assert (Hnz1 : Qeq_bool (zoom (self s1)) 0 = false) by exact Hnz0.
    destruct (centerMagnifier_value s1 (fst pos) (snd pos) Hnz1)
      as (l & t & E).
    simpl fst; simpl snd. rewrite E. eexists. split; [reflexivity |].
    apply frame_trans with s0; [exact K0 |].
    apply frame_trans with s1; [exact K1 | apply session_kept_record].
  - destruct (Py.point_neb (last_mouse_pos (self s)) (cursor (env s))).
    + destruct (focusOnMouse_returns s0 (cursor (env s)) Hnz0)
        as (fp & s1 & E1).
      pose proof (focusOnMouse_session (cursor (env s)) s0) as K1.
      unfold exec in K1. rewrite E1 in K1. simpl snd in K1.
      erewrite exec_bind by exact E1.
      assert (Hnz1 : Qeq_bool (zoom (self s1)) 0 = false)
        by (destruct K1 as (_ & _ & -> & _); exact Hnz0).
      destruct (centerMagnifier_value s1 (fst fp) (snd fp) Hnz1)
        as (l & t & E).
      rewrite E. eexists. split; [reflexivity |].
      apply frame_trans with s0; [exact K0 |].
      apply frame_trans with s1; [exact K1 | apply session_kept_record].
    + exists s0. split; [reflexivity | exact K0].
Qed.

Lemma toggle_off_value (s : sys) :
  magnifier_is_on (self s) = true ->
  script_toggleMagnifier s
    = (Ret tt,
       mkSys (set_magnifier_is_on false (self s))
             (record (reset_events (env s) ++ [UiMessage MsgStopped]) (env s))).
Proof.
  intro Hon. unfold script_toggleMagnifier.
  erewrite exec_bind by (unfold get_self; rewrite Hon; reflexivity).
  cbv beta iota delta [negb].
  erewrite exec_bind by reflexivity.
  erewrite exec_bind by apply resetMagnifier_value.
  unfold ui_message, upd_env. simpl.
  rewrite emit_record, record_record. reflexivity.
Qed.

Lemma fire_armed (s : sys) (t : timer_id) :
  In t (running (env s)) ->
  fire t s
    = _chooseFocus
        (mkSys (self s)
               (set_timers (remove Nat.eq_dec t (running (env s)))
                           (next_timer (env s)) (env s))).
Proof.
  intro Hin. unfold fire.
  erewrite exec_bind by reflexivity.
  assert (E : existsb (Nat.eqb t) (running (env s)) = true).
  { apply existsb_exists. exists t. split; [exact Hin | apply Nat.eqb_refl]. }
  rewrite E. erewrite exec_bind by reflexivity. reflexivity.
Qed.

Lemma fire_unarmed (s : sys) (t : timer_id) :
  running (env s) = [] -> fire t s = (Ret tt, s).
Proof.
  intro Hnone. unfold fire.
  erewrite exec_bind by reflexivity. rewrite Hnone. reflexivity.
Qed.

(** C3, refuted as stated.  Switching the session off resets the magnifier
    but leaves the scheduled tick armed; when that tick fires it applies a
    transform and then resets a second time. *)
Lemma deactivation_leaves_tick_armed :
  magnifier_is_on (self tracking_session) = true /\
  let s1 := exec script_toggleMagnifier tracking_session in
  running (env s1) = [0%nat] /\
  trace (env s1)
    = trace (env tracking_session)
      ++ [MagReset; LogInfo LogResetDone; UiMessage MsgStopped] /\
  trace (env (exec (fire 0%nat) s1))
    = trace (env s1) ++ [MagTransform 2 520 330; MagReset; LogInfo LogResetDone].
Proof.
  repeat split; vm_compute; reflexivity.
Qed.

(** C3, as the code has it.  Switching an active session off clears the
    activity flag and makes one reset call at once, but does not cancel the
    scheduled tick.  When that tick fires (the zoom being non-zero) it stops
    and clears the timer and its last renderer call is a second reset; if it
    was the only armed timer, nothing is scheduled any more. *)
Theorem deactivation_is_cooperative (s : sys) (r : bool) :
  magnifier_is_on (self s) = true ->
  magnification (env s) = Some r ->
  let s1 := exec script_toggleMagnifier s in
  let reset :=
    [MagReset; LogInfo (if negb r then LogResetFailed else LogResetDone)] in
  (magnifier_is_on (self s1) = false /\
   timer (self s1) = timer (self s) /\
   running (env s1) = running (env s) /\
   trace (env s1) = trace (env s) ++ reset ++ [UiMessage MsgStopped]) /\
  (forall t : timer_id,
      In t (running (env s)) ->
      Qeq_bool (zoom (self s)) 0 = false ->
      let s2 := exec (fire t) s1 in
      magnifier_is_on (self s2) = false /\
      timer (self s2) = None /\
      running (env s2)
        = match timer (self s) with
          | Some t' =>
              remove Nat.eq_dec t' (remove Nat.eq_dec t (running (env s)))
          | None => remove Nat.eq_dec t (running (env s))
          end /\
      (exists l, trace (env s2) = trace (env s1) ++ l ++ reset) /\
      (running (env s2) = [] -> forall t', fire t' s2 = (Ret tt, s2))).
Proof.
  intros Hon Hr s1 reset.
  assert (Hs1 : s1 = mkSys (set_magnifier_is_on false (self s))
                           (record (reset ++ [UiMessage MsgStopped]) (env s))).
  { unfold s1, exec. rewrite (toggle_off_value s Hon).
    unfold reset_events. rewrite Hr. reflexivity. }
  split; [rewrite Hs1; repeat split |].
  intros t Hin Hnz s2.
  assert (Hin1 : In t (running (env s1))) by (rewrite Hs1; exact Hin).
  set (s1a := mkSys (self s1)
                    (set_timers (remove Nat.eq_dec t (running (env s1)))
                                (next_timer (env s1)) (env s1))).
  assert (Hnz1 : Qeq_bool (zoom (self s1a)) 0 = false)
    by (unfold s1a; rewrite Hs1; exact Hnz).
  destruct (tick_reaches_continue s1a Hnz1)
    as (s_mid & Etick & K1 & K2 & K3 & K4 & K5 & l & Hl).
  assert (Hoff : magnifier_is_on (self s_mid) = false)
    by (rewrite K2; unfold s1a; rewrite Hs1; reflexivity).
  assert (Hs2 : s2 = exec _continueMagnifier s_mid)
    by (unfold s2, exec; rewrite (fire_armed s1 t Hin1); fold s1a;
        rewrite Etick; reflexivity).
  unfold exec in Hs2. rewrite (continueMagnifier_off s_mid Hoff) in Hs2.
  simpl snd in Hs2.
  assert (Hreset : reset_events (env s_mid) = reset).
  { unfold reset_events. rewrite K4. unfold s1a. rewrite Hs1. simpl.
    rewrite Hr. reflexivity. }
  rewrite Hreset in Hs2.
  split; [rewrite Hs2; simpl; exact Hoff |].
  split; [rewrite Hs2; reflexivity |].
  split.
  { rewrite Hs2. simpl. unfold stopped. rewrite K1, K5.
    unfold s1a. rewrite Hs1. reflexivity. }
  split.
  { exists l. rewrite Hs2. simpl. rewrite Hl. unfold s1a. simpl.
    symmetry. apply app_assoc. }
  intros Hnone t'. apply fire_unarmed. exact Hnone.
Qed.

Lemma deactivation_is_cooperative_witness :
  (magnifier_is_on (self tracking_session) = true /\
   magnification (env tracking_session) = Some true /\
   In 0%nat (running (env tracking_session)) /\
   Qeq_bool (zoom (self tracking_session)) 0 = false) /\
  let s1 := exec script_toggleMagnifier tracking_session in
  let s2 := exec (fire 0%nat) s1 in
  running (env s1) = running (env tracking_session) /\
  timer (self s2) = None /\
  exists l,
    trace (env s2) = trace (env s1) ++ l ++ [MagReset; LogInfo LogResetDone].
Proof.
  assert (H1 : magnifier_is_on (self tracking_session) = true)
    by (vm_compute; reflexivity).
  assert (H2 : magnification (env tracking_session) = Some true)
    by (vm_compute; reflexivity).
  assert (H3 : In 0%nat (running (env tracking_session)))
    by (left; vm_compute; reflexivity).
  assert (H4 : Qeq_bool (zoom (self tracking_session)) 0 = false)
    by (vm_compute; reflexivity).
  split; [auto |].
  destruct (deactivation_is_cooperative tracking_session true H1 H2)
    as ((_ & _ & A & _) & B).
  destruct (B 0%nat H3 H4) as (_ & C & _ & D & _).
  split; [exact A |]. split; [exact C | exact D].
Defined.

(** * Further properties of the code *)

Lemma float_sub (a b : Z) : (Py.float (a - b) == Py.float a - Py.float b)%Q.
Proof.
  unfold Py.float. replace (a - b) with (a + - b) by lia.
  rewrite inject_Z_plus, inject_Z_opp. ring.
Qed.

(** A closed number is a C int. *)
Ltac c_int_holds := vm_compute; split; [discriminate | reflexivity].

(** ** The zoom levels *)

Lemma zoom_level_range (z : Q) :
  zoom_level z -> (ZOOM_MIN <= z)%Q /\ (z <= ZOOM_MAX)%Q.
Proof.
  intros (n & Hn & E). rewrite E.
  assert (H0 : (0 <= Py.float n)%Q) by (apply float_nonneg; lia).
  assert (H1 : (Py.float n <= Py.float 17)%Q)
    by (apply (proj1 (float_le n 17)); lia).
  change (Py.float 17) with (17 # 1)%Q in H1.
  unfold ZOOM_MIN, ZOOM_MAX, ZOOM_STEP. split; lra.
Qed.

Lemma zoom_level_nonzero (z : Q) : zoom_level z -> Qeq_bool z 0 = false.
Proof.
  intro H. apply zoom_level_range in H. destruct H as [H _].
  apply zoom_nonzero. unfold ZOOM_MIN in H. lra.
Qed.

Lemma zoom_keeps_level (s : sys) (direction : Z) :
  zoom_level (zoom (self s)) ->
  zoom_level (zoom (self (exec (_zoom direction) s))).
Proof.
  intros (n & Hn & E). destruct (magnifier_is_on (self s)) eqn:Hon.
  - rewrite (zoom_after s direction Hon).
    destruct (0 <? direction).
    + unfold Py.min.
      destruct (Py.ltb ZOOM_MAX (zoom (self s) + ZOOM_STEP)) eqn:C.
      * exists 17. split; [lia | reflexivity].
      * apply ltb_false in C. rewrite E in C.
        assert (Hn' : n <= 16).
        { apply (proj2 (float_le n 16)). change (Py.float 16) with (16 # 1)%Q.
          unfold ZOOM_MIN, ZOOM_MAX, ZOOM_STEP in C. lra. }
        exists (n + 1). split; [lia |].
        rewrite E, float_add. change (Py.float 1) with 1%Q. ring.
    + unfold Py.max, Py.gtb.
      destruct (Py.ltb (zoom (self s) - ZOOM_STEP) ZOOM_MIN) eqn:C.
      * exists 0. split; [lia | reflexivity].
      * apply ltb_false in C. rewrite E in C.
        assert (Hn' : 1 <= n).
        { apply (proj2 (float_le 1 n)). change (Py.float 1) with 1%Q.
          unfold ZOOM_MIN, ZOOM_STEP in C. lra. }
        exists (n - 1). split; [lia |].
        rewrite E, float_sub. change (Py.float 1) with 1%Q. ring.
  - unfold exec. rewrite (zoom_rejected s direction Hon).
    exists n. split; assumption.
Qed.

Lemma step_keeps_level (a : action) (s : sys) :
  zoom_level (zoom (self s)) -> zoom_level (zoom (self (exec (step a) s))).
Proof.
  intro H.
  assert (K : forall m : M unit, preserves zoom_kept m ->
                                 zoom_level (zoom (self (exec m s)))).
  { intros m Hm. rewrite (Hm s). exact H. }
  destruct a; simpl.
  - apply K, toggleMagnifier_zoom.
  - apply zoom_keeps_level, H.
  - apply zoom_keeps_level, H.
  - apply K, toggleMouseMode_zoom.
  - apply K, fire_zoom.
  - exact H.
  - exact H.
Qed.

(** X20.  The zoom is always one of the eighteen levels 1.5, 2.0, ..., 10.0:
    after any sequence of gestures, timer ticks and outside events from
    start-up it is ZOOM_MIN plus a whole number of steps.  On these levels
    binary floating point is exact. *)
Theorem zoom_stays_on_levels (w : world) (l : list action) :
  zoom_level (zoom (self (run l (mkSys __init__ w)))).
Proof.
  assert (K : forall s, zoom_level (zoom (self s)) ->
                        zoom_level (zoom (self (run l s)))).
  { induction l as [| a l IH]; intros s H; simpl; [exact H |].
    apply IH, step_keeps_level, H. }
  apply K. exists 1. split; [lia | reflexivity].
Qed.

(** ** More on truncation *)

Lemma int_ceiling (q : Q) : (q <= 0)%Q -> Py.int q = Qceiling q.
Proof.
  destruct q as [n d]; unfold Qle, Py.int, Qceiling, Qfloor, Qopp; simpl.
  intro H.
  rewrite <- (Z.opp_involutive n) at 1. rewrite Z.quot_opp_l by lia.
  rewrite Z.quot_div_nonneg by lia. reflexivity.
Qed.

(** [int] never moves a number past another one. *)
Lemma int_mono (a b : Q) : (a <= b)%Q -> Py.int a <= Py.int b.
Proof.
  intro H.
  destruct (Qlt_le_dec a 0) as [Ha | Ha]; destruct (Qlt_le_dec b 0) as [Hb | Hb].
  - rewrite !int_ceiling by lra. apply Qceiling_resp_le, H.
  - pose proof (int_nonpos a ltac:(lra)). pose proof (int_nonneg b Hb). lia.
  - lra.
  - rewrite !int_floor by lra. apply Qfloor_resp_le, H.
Qed.

(** A non-negative float is less than one above its truncation. *)
Lemma int_above (q : Q) : (0 <= q)%Q -> (q < Py.float (Py.int q) + 1)%Q.
Proof.
  intro H. rewrite (int_floor q H).
  pose proof (Qlt_floor q) as L. rewrite float_add in L. exact L.
Qed.

(** ** More on the viewport *)

(** Halving, put in the form linear arithmetic understands. *)
Ltac halves :=
  unfold Qdiv in *; change (/ 2)%Q with (1 # 2)%Q in *.

(** In exact arithmetic: a centre far enough from the screen edges is not
    clamped. *)
Lemma centred_corner (s : sys) (x y : Q) :
  Qeq_bool (zoom (self s)) 0 = false ->
  let visible_width := (screen_width (env s) / zoom (self s))%Q in
  let visible_height := (screen_height (env s) / zoom (self s))%Q in
  exists left top,
    _getMagnifierWindow x y s
      = (Ret (left, top, visible_width, visible_height), s) /\
    ((visible_width / 2 <= x)%Q ->
     (x <= screen_width (env s) - visible_width / 2)%Q ->
       left = Py.int (x - visible_width / 2) /\
       (0 <= x - (left + visible_width / 2))%Q /\
       (x - (left + visible_width / 2) < 1)%Q) /\
    ((visible_height / 2 <= y)%Q ->
     (y <= screen_height (env s) - visible_height / 2)%Q ->
       top = Py.int (y - visible_height / 2) /\
       (0 <= y - (top + visible_height / 2))%Q /\
       (y - (top + visible_height / 2) < 1)%Q).
Proof.
  intros Hnz vw vh. eexists; eexists.
  split; [apply window_value; exact Hnz |].
  assert (K : forall (c : Q) (n : Z) (v : Q),
             (v / 2 <= c)%Q -> (c <= n - v / 2)%Q ->
             let r := Z.max 0 (Z.min (Py.int (c - v / 2)) (Py.int (n - v))) in
             r = Py.int (c - v / 2) /\
             (0 <= c - (r + v / 2))%Q /\ (c - (r + v / 2) < 1)%Q).
  { intros c n v H1 H2 r.
    assert (Hq : (0 <= c - v / 2)%Q) by lra.
    assert (Hle : (c - v / 2 <= n - v)%Q) by (halves; lra).
    assert (Hr : r = Py.int (c - v / 2)).
    { pose proof (int_nonneg _ Hq). pose proof (int_mono _ _ Hle).
      unfold r. lia. }
    rewrite Hr. pose proof (int_below _ Hq). pose proof (int_above _ Hq).
    repeat split; lra. }
  split; intros H1 H2.
  - exact (K x (screen_width (env s)) vw H1 H2).
  - exact (K y (screen_height (env s)) vh H1 H2).
Qed.

(** At an off-grid centre the doubles of the interpreter and exact arithmetic
    part by a pixel: on a 1600 x 900 screen at zoom 3, centred on the double
    nearest to 905 + 2/3, the interpreter's left is 639 where exact
    arithmetic on the same number gives 638. *)
Lemma off_grid_centre_differs :
  (exists w h,
      Binary64._getMagnifierWindow Binary64.three 1600 900
        (Binary64.Float Binary64.off_grid_centre) (Binary64.Int 450)
      = Ret (639, 300, w, h)) /\
  exists x : Q,
    Binary64.value Binary64.off_grid_centre = Some x /\
    Py.int (x - 1600 / 3 / 2) = 638.
Proof.
  split.
  - do 2 eexists. vm_compute. reflexivity.
  - eexists. split; vm_compute; reflexivity.
Qed.

(** X1.  On a zoom level, with C-int screen metrics and the centre on a whole
    pixel, when the centre is far enough from the screen edges for the
    visible area to fit around it, [_getMagnifierWindow] does not clamp: left
    is [int(x - visible_width / 2)] and the centre of the viewport is less
    than one pixel left of (never right of) the requested centre; likewise
    for top. *)
Theorem viewport_centred_within_a_pixel (s : sys) (x y : Z) :
  on_pixel_grid s -> c_int x -> c_int y ->
  let visible_width := (screen_width (env s) / zoom (self s))%Q in
  let visible_height := (screen_height (env s) / zoom (self s))%Q in
  exists left top,
    _getMagnifierWindow x y s
      = (Ret (left, top, visible_width, visible_height), s) /\
    ((visible_width / 2 <= x)%Q ->
     (x <= screen_width (env s) - visible_width / 2)%Q ->
       left = Py.int (x - visible_width / 2) /\
       (0 <= x - (left + visible_width / 2))%Q /\
       (x - (left + visible_width / 2) < 1)%Q) /\
    ((visible_height / 2 <= y)%Q ->
     (y <= screen_height (env s) - visible_height / 2)%Q ->
       top = Py.int (y - visible_height / 2) /\
       (0 <= y - (top + visible_height / 2))%Q /\
       (y - (top + visible_height / 2) < 1)%Q).
Proof.
  intros [Hz _] _ _. exact (centred_corner s x y (zoom_level_nonzero _ Hz)).
Qed.

Lemma viewport_centred_within_a_pixel_witness :
  (on_pixel_grid full_hd /\ c_int 960 /\ c_int 540 /\
   (1920 / 2 / 2 <= 960)%Q /\ (960 <= 1920 - 1920 / 2 / 2)%Q) /\
  exists left top,
    _getMagnifierWindow 960 540 full_hd
      = (Ret (left, top, (1920 / 2)%Q, (1080 / 2)%Q), full_hd) /\
    left = Py.int (960 - 1920 / 2 / 2) /\
    (960 - (left + 1920 / 2 / 2) < 1)%Q.
Proof.
  assert (H0 : on_pixel_grid full_hd).
  { split; [exists 1; split; [lia | reflexivity] |].
    split; c_int_holds. }
  assert (Cx : c_int 960) by c_int_holds.
  assert (Cy : c_int 540) by c_int_holds.
  assert (H1 : (1920 / 2 / 2 <= 960)%Q) by (vm_compute; discriminate).
  assert (H2 : (960 <= 1920 - 1920 / 2 / 2)%Q) by (vm_compute; discriminate).
  split; [auto 6 |].
  destruct (viewport_centred_within_a_pixel full_hd 960 540 H0 Cx Cy)
    as (l & t & E & Hx & _).
  destruct (Hx H1 H2) as (A & _ & B).
  exists l, t. repeat split; assumption.
Defined.






(** ** What each gesture amounts to *)

Lemma preserves_weaken (R R' : sys -> sys -> Prop) {A} (m : M A) :
  (forall s s', R s s' -> R' s s') -> preserves R m -> preserves R' m.
Proof. intros Himp Hm s. apply Himp, Hm. Qed.

Lemma toggle_on_value (s : sys) :
  magnifier_is_on (self s) = false ->
  script_toggleMagnifier s
    = (Ret tt,
       mkSys (set_timer (Some (next_timer (env s)))
                        (set_magnifier_is_on true (self s)))
             (emit (UiMessage (MsgStarted (mode (self s))))
                   (set_timers (next_timer (env s) :: running (env s))
                               (S (next_timer (env s))) (env s)))).
Proof.
  intro Hoff. unfold script_toggleMagnifier.
  erewrite exec_bind by (unfold get_self; rewrite Hoff; reflexivity).
  reflexivity.
Qed.

Lemma toggleMouseMode_value (s : sys) :
  magnifier_is_on (self s) = true ->
  script_toggleMouseMode s
    = (Ret tt,
       match mode (self s) with
       | center => mkSys (set_mode border (self s))
                         (emit (UiMessage MsgModeBorder) (env s))
       | border => mkSys (set_mode center (self s))
                         (emit (UiMessage MsgModeCenter) (env s))
       end).
Proof.
  intro Hon. unfold script_toggleMouseMode.
  erewrite exec_bind by (unfold get_self; rewrite Hon; reflexivity).
  cbv beta iota. erewrite exec_bind by reflexivity.
  destruct (mode (self s)); reflexivity.
Qed.

Lemma toggleMouseMode_rejected (s : sys) :
  magnifier_is_on (self s) = false ->
  script_toggleMouseMode s
    = (Ret tt, mkSys (self s) (emit (UiMessage MsgEnableBeforeMode) (env s))).
Proof.
  intro Hoff. unfold script_toggleMouseMode.
  erewrite exec_bind by (unfold get_self; rewrite Hoff; reflexivity).
  reflexivity.
Qed.

Lemma zoom_value (s : sys) (direction : Z) :
  magnifier_is_on (self s) = true ->
  let z' := zoom_target direction (zoom (self s)) in
  _zoom direction s
    = _centerMagnifier (last_screen_left (self s)) (last_screen_top (self s))
        (mkSys (set_zoom z' (self s))
               (emit (UiMessage (MsgZoomLevel z')) (env s))).
Proof.
  intros Hon z'. unfold _zoom.
  erewrite exec_bind by (unfold get_self; rewrite Hon; reflexivity).
  cbv beta iota. subst z'. unfold zoom_target.
  destruct (0 <? direction);
    (erewrite exec_bind by reflexivity);
    (erewrite exec_bind by reflexivity);
    (erewrite exec_bind by reflexivity);
    (erewrite exec_bind by reflexivity);
    (erewrite exec_bind by reflexivity);
    reflexivity.
Qed.

Lemma zoom_target_range (direction : Z) (z : Q) :
  (ZOOM_MIN <= z)%Q -> (z <= ZOOM_MAX)%Q ->
  (ZOOM_MIN <= zoom_target direction z)%Q /\
  (zoom_target direction z <= ZOOM_MAX)%Q.
Proof.
  intros Hlo Hhi. unfold zoom_target, ZOOM_MIN, ZOOM_MAX, ZOOM_STEP in *.
  destruct (0 <? direction); [apply min_range | apply max_range]; lra.
Qed.

Lemma range_nonzero (z : Q) :
  (ZOOM_MIN <= z)%Q -> Qeq_bool z 0 = false.
Proof. unfold ZOOM_MIN. intro H. apply zoom_nonzero. lra. Qed.

(** [_centerMagnifier] asks the renderer for the window of its argument and
    goes on to [_continueMagnifier]. *)
Lemma centerMagnifier_window (s : sys) (x y : Q) (left top : Z) (vw vh : Q) :
  _getMagnifierWindow x y s = (Ret (left, top, vw, vh), s) ->
  _centerMagnifier x y s
    = _continueMagnifier
        (mkSys (self s)
               (record (transform_events (env s) (zoom (self s)) left top)
                       (env s))).
Proof.
  intro Hwin. unfold _centerMagnifier.
  erewrite exec_bind by exact Hwin. cbv beta iota.
  unfold transform_events.
  rewrite (exec_bind _ _ s s (magnification (env s))) by reflexivity.
  destruct (magnification (env s)) as [[|] |].
  - unfold bind at 1. simpl. rewrite !emit_record. reflexivity.
  - unfold bind at 1. simpl. rewrite !emit_record, record_record. reflexivity.
  - unfold bind at 1. simpl. rewrite emit_record. reflexivity.
Qed.

Lemma continueMagnifier_returns (s : sys) :
  eval _continueMagnifier s = Ret tt.
Proof.
  unfold eval. destruct (magnifier_is_on (self s)) eqn:E.
  - rewrite (continueMagnifier_on s E). reflexivity.
  - rewrite (continueMagnifier_off s E). reflexivity.
Qed.

Lemma fire_stale (s : sys) (t : timer_id) :
  ~ In t (running (env s)) -> fire t s = (Ret tt, s).
Proof.
  intro Hnot. unfold fire.
  erewrite exec_bind by reflexivity.
  assert (E : existsb (Nat.eqb t) (running (env s)) = false).
  { apply not_true_iff_false. rewrite existsb_exists.
    intros (u & Hu & Heq). apply Nat.eqb_eq in Heq. subst u. contradiction. }
  rewrite E. reflexivity.
Qed.

(** ** Invariants of a running plugin *)

Lemma continueMagnifier_arms (s : sys) :
  tick_armed (exec _continueMagnifier s).
Proof.
  unfold exec, tick_armed. destruct (magnifier_is_on (self s)) eqn:E.
  - rewrite (continueMagnifier_on s E). simpl. intros _.
    eexists. split; [reflexivity | left; reflexivity].
  - rewrite (continueMagnifier_off s E). simpl. congruence.
Qed.

(** With the zoom in range, a zoom request in an active session ends in
    [_continueMagnifier]. *)
Lemma zoom_reaches_continue (s : sys) (direction : Z) :
  magnifier_is_on (self s) = true ->
  zoom_in_range (self s) ->
  exists s_mid, _zoom direction s = _continueMagnifier s_mid /\
                magnifier_is_on (self s_mid) = true.
Proof.
  intros Hon [Hlo Hhi]. rewrite (zoom_value s direction Hon).
  destruct (zoom_target_range direction _ Hlo Hhi) as [Tlo _].
  set (s1 := mkSys _ _).
  assert (Hnz : Qeq_bool (zoom (self s1)) 0 = false)
    by (apply range_nonzero; exact Tlo).
  rewrite (centerMagnifier_window s1 _ _ _ _ _ _ (window_value s1 _ _ Hnz)).
  eexists. split; [reflexivity | exact Hon].
Qed.

Lemma step_returns (a : action) (s : sys) :
  zoom_in_range (self s) -> eval (step a) s = Ret tt.
Proof.
  intro Hz.
  assert (Z : forall d, eval (_zoom d) s = Ret tt).
  { intro d. destruct (magnifier_is_on (self s)) eqn:E.
    - destruct (zoom_reaches_continue s d E Hz) as (s_mid & Eq & _).
      unfold eval. rewrite Eq. apply continueMagnifier_returns.
    - unfold eval. rewrite (zoom_rejected s d E). reflexivity. }
  destruct a; simpl.
  - unfold eval. destruct (magnifier_is_on (self s)) eqn:E.
    + rewrite (toggle_off_value s E). reflexivity.
    + rewrite (toggle_on_value s E). reflexivity.
  - apply Z.
  - apply Z.
  - unfold eval. destruct (magnifier_is_on (self s)) eqn:E.
    + rewrite (toggleMouseMode_value s E). reflexivity.
    + rewrite (toggleMouseMode_rejected s E). reflexivity.
  - destruct (in_dec Nat.eq_dec t (running (env s))) as [Hin | Hnot].
    + unfold eval. rewrite (fire_armed s t Hin).
      set (s1 := mkSys _ _).
      assert (Hnz : Qeq_bool (zoom (self s1)) 0 = false)
        by (apply range_nonzero, Hz).
      destruct (tick_reaches_continue s1 Hnz) as (s_mid & Eq & _).
      rewrite Eq. apply continueMagnifier_returns.
    + unfold eval. rewrite (fire_stale s t Hnot). reflexivity.
  - reflexivity.
  - reflexivity.
Qed.

Lemma step_keeps_armed (a : action) (s : sys) :
  zoom_in_range (self s) -> tick_armed s -> tick_armed (exec (step a) s).
Proof.
  intros Hz Harmed.
  assert (Z : forall d, tick_armed (exec (_zoom d) s)).
  { intro d. destruct (magnifier_is_on (self s)) eqn:E.
    - destruct (zoom_reaches_continue s d E Hz) as (s_mid & Eq & _).
      unfold exec. rewrite Eq. apply continueMagnifier_arms.
    - unfold exec. rewrite (zoom_rejected s d E). simpl.
      unfold tick_armed. simpl. congruence. }
  destruct a; simpl.
  - unfold exec. destruct (magnifier_is_on (self s)) eqn:E.
    + rewrite (toggle_off_value s E). unfold tick_armed. simpl. congruence.
    + rewrite (toggle_on_value s E). unfold tick_armed. simpl. intros _.
      eexists. split; [reflexivity | left; reflexivity].
  - apply Z.
  - apply Z.
  - unfold exec. destruct (magnifier_is_on (self s)) eqn:E.
    + rewrite (toggleMouseMode_value s E).
      destruct (Harmed E) as (t & Ht & Hin).
      destruct (mode (self s)); unfold tick_armed; simpl; intros _;
        exists t; auto.
    + rewrite (toggleMouseMode_rejected s E). unfold tick_armed. simpl.
      congruence.
  - destruct (in_dec Nat.eq_dec t (running (env s))) as [Hin | Hnot].
    + unfold exec. rewrite (fire_armed s t Hin).
      set (s1 := mkSys _ _).
      assert (Hnz : Qeq_bool (zoom (self s1)) 0 = false)
        by (apply range_nonzero, Hz).
      destruct (tick_reaches_continue s1 Hnz) as (s_mid & Eq & _).
      rewrite Eq. apply continueMagnifier_arms.
    + unfold exec. rewrite (fire_stale s t Hnot). exact Harmed.
  - exact Harmed.
  - exact Harmed.
Qed.

(** X4.  In every state the plugin can reach from start-up, by any sequence
    of gestures, timer ticks and outside events, an active session has its
    next tick armed: the polling loop cannot stall while the magnifier is
    on. *)
Theorem active_session_keeps_tick_armed (w : world) (l : list action) :
  tick_armed (run l (mkSys __init__ w)).
Proof.
  assert (G : forall l s, zoom_in_range (self s) -> tick_armed s ->
                          tick_armed (run l s)).
  { clear l. induction l as [| a l IH]; intros s Hz Ha; simpl; [exact Ha |].
    apply IH; [apply step_keeps_range, Hz | apply step_keeps_armed; assumption]. }
  apply G.
  - split; vm_compute; discriminate.
  - unfold tick_armed. simpl. discriminate.
Qed.

(** X5.  No gesture, timer tick or outside event ever raises in a plugin
    started normally: along every sequence from start-up each step returns
    (the division by the zoom in [_getMagnifierWindow] never fails). *)
Theorem no_step_raises (w : world) (l : list action) :
  steps_return l (mkSys __init__ w).
Proof.
  assert (G : forall l s, zoom_in_range (self s) -> steps_return l s).
  { clear l. induction l as [| a l IH]; intros s Hz; simpl; [exact I |].
    split; [apply step_returns, Hz | apply IH, step_keeps_range, Hz]. }
  apply G. split; vm_compute; discriminate.
Qed.

(** *** Every transform that is requested is valid *)

#[global] Instance validity_kept_frame : FrameRel validity_kept.
Proof. split; unfold validity_kept; auto. Qed.

Ltac valid_leaf :=
  unfold validity_kept, renders_validly, zoom_in_range; simpl;
  intros (Hz & Hw & Hh & Ht);
  repeat split; try apply Hz; try assumption;
  try (apply Forall_app; split; [assumption | repeat constructor]).

Lemma resetMagnifier_valid : preserves validity_kept _resetMagnifier.
Proof. unfold _resetMagnifier. frame valid_leaf. Qed.
#[global] Hint Resolve resetMagnifier_valid : frame.

Lemma continueMagnifier_valid : preserves validity_kept _continueMagnifier.
Proof. unfold _continueMagnifier. frame valid_leaf. Qed.
#[global] Hint Resolve continueMagnifier_valid : frame.

Lemma getNVDAPosition_valid : preserves validity_kept _getNVDAPosition.
Proof. unfold _getNVDAPosition. frame valid_leaf. Qed.
#[global] Hint Resolve getNVDAPosition_valid : frame.

Lemma getMagnifierWindow_valid x y :
  preserves validity_kept (_getMagnifierWindow x y).
Proof. unfold _getMagnifierWindow. frame valid_leaf. Qed.
#[global] Hint Resolve getMagnifierWindow_valid : frame.

Lemma centerMagnifier_valid x y : preserves validity_kept (_centerMagnifier x y).
Proof.
  intros s Hv. pose proof Hv as ((Hlo & Hhi) & Hw & Hh & Ht).
  assert (Hnz : Qeq_bool (zoom (self s)) 0 = false)
    by (apply range_nonzero, Hlo).
  assert (H1 : (1 <= zoom (self s))%Q) by (unfold ZOOM_MIN in Hlo; lra).
  unfold exec.
  rewrite (centerMagnifier_window s _ _ _ _ _ _ (window_value s x y Hnz)).
  apply continueMagnifier_valid.
  repeat split; simpl; try assumption.
  apply Forall_app. split; [exact Ht |].
  destruct (clamped_on_screen s (x - screen_width (env s) / zoom (self s) / 2)
              (screen_width (env s)) H1 ltac:(lia)) as [Hl0 Hl1].
  destruct (clamped_on_screen s (y - screen_height (env s) / zoom (self s) / 2)
              (screen_height (env s)) H1 ltac:(lia)) as [Ht0 Ht1].
  unfold transform_events.
  destruct (magnification (env s)) as [[|] |]; repeat constructor; assumption.
Qed.
#[global] Hint Resolve centerMagnifier_valid : frame.

Lemma isMouseNearBorder_valid : preserves validity_kept _isMouseNearBorder.
Proof. unfold _isMouseNearBorder. frame valid_leaf. Qed.
#[global] Hint Resolve isMouseNearBorder_valid : frame.

Lemma focusOnNvda_valid pos : preserves validity_kept (_focusOnNvda pos).
Proof. unfold _focusOnNvda. frame valid_leaf. Qed.
#[global] Hint Resolve focusOnNvda_valid : frame.

Lemma focusOnMouse_valid pos : preserves validity_kept (_focusOnMouse pos).
Proof. unfold _focusOnMouse. frame valid_leaf. Qed.
#[global] Hint Resolve focusOnMouse_valid : frame.

Lemma chooseFocus_valid : preserves validity_kept _chooseFocus.
Proof. unfold _chooseFocus. frame valid_leaf. Qed.
#[global] Hint Resolve chooseFocus_valid : frame.

Lemma zoom_valid d : preserves validity_kept (_zoom d).
Proof.
  intros s Hv. pose proof Hv as ((Hlo & Hhi) & Hw & Hh & Ht).
  unfold exec. destruct (magnifier_is_on (self s)) eqn:E.
  - rewrite (zoom_value s d E). apply centerMagnifier_valid.
    repeat split; simpl; try assumption;
      try apply (zoom_target_range d _ Hlo Hhi).
    apply Forall_app. split; [exact Ht | repeat constructor].
  - rewrite (zoom_rejected s d E).
    repeat split; simpl; try assumption.
    apply Forall_app. split; [exact Ht | repeat constructor].
Qed.

Lemma step_valid (a : action) : preserves validity_kept (step a).
Proof.
  destruct a; simpl.
  - unfold script_toggleMagnifier. frame valid_leaf.
  - apply zoom_valid.
  - apply zoom_valid.
  - unfold script_toggleMouseMode. frame valid_leaf.
  - unfold fire. frame valid_leaf.
  - frame valid_leaf.
  - frame valid_leaf.
Qed.

(** The plugin never changes what the screen metrics report. *)
Lemma step_screen (a : action) (s : sys) :
  screen_width (env (exec (step a) s)) = screen_width (env s) /\
  screen_height (env (exec (step a) s)) = screen_height (env s).
Proof.
  assert (F : FrameRel (fun s s' =>
                 screen_width (env s') = screen_width (env s) /\
                 screen_height (env s') = screen_height (env s)))
    by (split; [auto | intros a0 b c [? ?] [? ?]; split; congruence]).
  revert s.
  change (preserves (fun s s' =>
            screen_width (env s') = screen_width (env s) /\
            screen_height (env s') = screen_height (env s)) (step a)).
  destruct a; simpl;
    unfold script_zoomIn, script_zoomOut, _zoom, script_toggleMagnifier,
           script_toggleMouseMode, fire, _chooseFocus, _focusOnNvda,
           _focusOnMouse, _isMouseNearBorder, _centerMagnifier,
           _getMagnifierWindow, _continueMagnifier, _resetMagnifier,
           _getNVDAPosition;
    frame ltac:(split; reflexivity).
Qed.

Lemma run_screen (l : list action) :
  forall s, screen_width (env (run l s)) = screen_width (env s) /\
            screen_height (env (run l s)) = screen_height (env s).
Proof.
  induction l as [| a l IH]; intro s; simpl; [auto |].
  destruct (IH (exec (step a) s)) as [A B]. rewrite A, B.
  apply step_screen.
Qed.

Lemma run_valid (l : list action) :
  forall s, renders_validly s -> renders_validly (run l s).
Proof.
  induction l as [| a l IH]; intros s Hv; simpl; [exact Hv |].
  apply IH. apply (step_valid a s Hv).
Qed.

Lemma start_renders_validly (w : world) :
  1 <= screen_width w -> 1 <= screen_height w -> trace w = [] ->
  renders_validly (mkSys __init__ w).
Proof.
  intros Hw Hh Ht.
  repeat split; simpl; try assumption; try (vm_compute; discriminate).
  rewrite Ht. constructor.
Qed.

(** X6.  The renderer is only ever asked for something it can show: in a
    plugin started on a screen of at least one pixel each way, after any
    sequence of gestures, timer ticks and outside events, every transform
    requested so far has its zoom between ZOOM_MIN and ZOOM_MAX and its
    viewport entirely on the screen. *)
Theorem every_transform_is_valid (w : world) (l : list action) :
  1 <= screen_width w -> 1 <= screen_height w -> trace w = [] ->
  Forall (valid_transform (screen_width w) (screen_height w))
         (trace (env (run l (mkSys __init__ w)))) /\
  screen_width (env (run l (mkSys __init__ w))) = screen_width w /\
  screen_height (env (run l (mkSys __init__ w))) = screen_height w.
Proof.
  intros Hw Hh Ht.
  destruct (run_screen l (mkSys __init__ w)) as [Dw Dh]. simpl in Dw, Dh.
  split; [| auto].
  destruct (run_valid l _ (start_renders_validly w Hw Hh Ht))
    as (_ & _ & _ & Hall).
  rewrite Dw, Dh in Hall. exact Hall.
Qed.

Lemma every_transform_is_valid_witness :
  (1 <= screen_width (env full_hd) /\ 1 <= screen_height (env full_hd) /\
   trace (env full_hd) = []) /\
  Forall (valid_transform 1920 1080)
         (trace (env (run [Toggle; PointerMoves (1900, 1000); TimerFires 0%nat;
                           ZoomIn; ToggleMouseMode; PointerMoves (5, 5);
                           TimerFires 2%nat]
                          (mkSys __init__ (env full_hd))))).
Proof.
  assert (H1 : 1 <= screen_width (env full_hd)) by (vm_compute; discriminate).
  assert (H2 : 1 <= screen_height (env full_hd)) by (vm_compute; discriminate).
  assert (H3 : trace (env full_hd) = []) by reflexivity.
  split; [auto |].
  exact (proj1 (every_transform_is_valid (env full_hd) _ H1 H2 H3)).
Defined.

(** *** A session that is off winds down *)

#[global] Instance winds_down_frame : FrameRel winds_down.
Proof.
  split.
  - intros s H. split; [exact H | split; [apply incl_refl | apply le_n]].
  - intros a b c Hab Hbc H.
    destruct (Hab H) as (H1 & I1 & L1). destruct (Hbc H1) as (H2 & I2 & L2).
    split; [exact H2 |].
    split; [eapply incl_tran; eassumption | eapply Nat.le_trans; eassumption].
Qed.

Ltac wind_leaf :=
  unfold winds_down; simpl; intro;
  split; [assumption | split; [apply incl_refl | apply le_n]].

Lemma resetMagnifier_winds : preserves winds_down _resetMagnifier.
Proof. unfold _resetMagnifier. frame wind_leaf. Qed.
#[global] Hint Resolve resetMagnifier_winds : frame.

Lemma continueMagnifier_winds : preserves winds_down _continueMagnifier.
Proof.
  intros s Hoff. unfold exec. rewrite (continueMagnifier_off s Hoff). simpl.
  split; [exact Hoff |]. unfold stopped.
  destruct (timer (self s)) as [t |].
  - split; [intros u Hu; apply in_remove in Hu; apply Hu
           | apply remove_length_le].
  - split; [apply incl_refl | apply le_n].
Qed.
#[global] Hint Resolve continueMagnifier_winds : frame.

Lemma getNVDAPosition_winds : preserves winds_down _getNVDAPosition.
Proof. unfold _getNVDAPosition. frame wind_leaf. Qed.
#[global] Hint Resolve getNVDAPosition_winds : frame.

Lemma getMagnifierWindow_winds x y :
  preserves winds_down (_getMagnifierWindow x y).
Proof. unfold _getMagnifierWindow. frame wind_leaf. Qed.
#[global] Hint Resolve getMagnifierWindow_winds : frame.

Lemma centerMagnifier_winds x y : preserves winds_down (_centerMagnifier x y).
Proof. unfold _centerMagnifier. frame wind_leaf. Qed.
#[global] Hint Resolve centerMagnifier_winds : frame.

Lemma isMouseNearBorder_winds : preserves winds_down _isMouseNearBorder.
Proof. unfold _isMouseNearBorder. frame wind_leaf. Qed.
#[global] Hint Resolve isMouseNearBorder_winds : frame.

Lemma focusOnNvda_winds pos : preserves winds_down (_focusOnNvda pos).
Proof. unfold _focusOnNvda. frame wind_leaf. Qed.
#[global] Hint Resolve focusOnNvda_winds : frame.

Lemma focusOnMouse_winds pos : preserves winds_down (_focusOnMouse pos).
Proof. unfold _focusOnMouse. frame wind_leaf. Qed.
#[global] Hint Resolve focusOnMouse_winds : frame.

Lemma chooseFocus_winds : preserves winds_down _chooseFocus.
Proof. unfold _chooseFocus. frame wind_leaf. Qed.

(** X7.  Once the session is off the polling loop dies out: whatever happens
    short of switching it on again, the session stays off and no timer is
    armed that was not armed before; and every armed timer that fires, even
    one whose tick raises, leaves strictly fewer timers armed. *)
Theorem polling_winds_down (s : sys) :
  magnifier_is_on (self s) = false ->
  (forall a : action, a <> Toggle ->
      magnifier_is_on (self (exec (step a) s)) = false /\
      incl (running (env (exec (step a) s))) (running (env s))) /\
  (forall t : timer_id, In t (running (env s)) ->
      (length (running (env (exec (fire t) s))) < length (running (env s)))%nat).
Proof.
  intro Hoff.
  assert (F : forall t, In t (running (env s)) ->
             winds_down
               (mkSys (self s)
                      (set_timers (remove Nat.eq_dec t (running (env s)))
                                  (next_timer (env s)) (env s)))
               (exec (fire t) s)).
  { intros t Hin. unfold exec. rewrite (fire_armed s t Hin).
    apply chooseFocus_winds. }
  split.
  - intros a Ha. destruct a; simpl; try contradiction.
    + unfold exec, script_zoomIn. rewrite (zoom_rejected s _ Hoff).
      simpl. split; [exact Hoff | apply incl_refl].
    + unfold exec, script_zoomOut. rewrite (zoom_rejected s _ Hoff).
      simpl. split; [exact Hoff | apply incl_refl].
    + unfold exec. rewrite (toggleMouseMode_rejected s Hoff).
      simpl. split; [exact Hoff | apply incl_refl].
    + destruct (in_dec Nat.eq_dec t (running (env s))) as [Hin | Hnot].
      * destruct (F t Hin Hoff) as (H1 & I1 & _). split; [exact H1 |].
        intros u Hu. apply I1 in Hu. simpl in Hu.
        apply in_remove in Hu. apply Hu.
      * unfold exec. rewrite (fire_stale s t Hnot).
        split; [exact Hoff | apply incl_refl].
    + split; [exact Hoff | apply incl_refl].
    + split; [exact Hoff | apply incl_refl].
  - intros t Hin. destruct (F t Hin Hoff) as (_ & _ & L1). simpl in L1.
    eapply Nat.le_lt_trans; [exact L1 |].
    apply remove_length_lt. exact Hin.
Qed.

Lemma polling_winds_down_witness :
  magnifier_is_on (self pending_teardown) = false /\
  In 0%nat (running (env pending_teardown)) /\
  (length (running (env (exec (fire 0%nat) pending_teardown)))
   < length (running (env pending_teardown)))%nat.
Proof.
  assert (H1 : magnifier_is_on (self pending_teardown) = false) by reflexivity.
  assert (H2 : In 0%nat (running (env pending_teardown)))
    by (left; reflexivity).
  split; [exact H1 |]. split; [exact H2 |].
  exact (proj2 (polling_winds_down pending_teardown H1) 0%nat H2).
Defined.

(** ** Gestures *)

(** X8.  Switching the magnifier on or off flips the activity flag and
    touches nothing else but the timer: the zoom level, the mode, the last
    seen positions and the anchor are kept (not reset), the pointer is left
    alone, and no transform is requested.  Switching twice in a row gives
    back the plugin object it started from, timer aside. *)
Theorem toggle_changes_only_the_switch (s : sys) :
  let s1 := exec script_toggleMagnifier s in
  let s2 := exec script_toggleMagnifier s1 in
  magnifier_is_on (self s1) = negb (magnifier_is_on (self s)) /\
  switch_only s s1 /\
  (exists l, trace (env s1) = trace (env s) ++ l /\
             forallb (fun e => negb (is_transform e)) l = true) /\
  set_timer None (self s2) = set_timer None (self s).
Proof.
  intros s1 s2. subst s2 s1. unfold exec.
  destruct (magnifier_is_on (self s)) eqn:E.
  - rewrite (toggle_off_value s E). simpl.
    repeat split.
    + eexists. split; [reflexivity |].
      unfold reset_events. destruct (magnification (env s)) as [[|] |];
        reflexivity.
    + destruct s as [[] w]; simpl in *. subst. reflexivity.
  - rewrite (toggle_on_value s E). simpl.
    rewrite toggle_off_value by reflexivity. simpl.
    repeat split.
    + eexists. split; reflexivity.
    + destruct s as [[] w]; simpl in *. subst. reflexivity.
Qed.



Lemma zoom_keeps_session_on (s : sys) (direction : Z) :
  magnifier_is_on (self s) = true ->
  zoom_in_range (self s) ->
  magnifier_is_on (self (exec (_zoom direction) s)) = true.
Proof.
  intros Hon Hz.
  destruct (zoom_reaches_continue s direction Hon Hz) as (s_mid & Eq & Hmid).
  unfold exec. rewrite Eq, (continueMagnifier_on s_mid Hmid). exact Hmid.
Qed.

(** X10.  Zooming in and then out (or out and then in) gives back the zoom
    level wherever the first step is not clamped; at ZOOM_MAX a zoom-in, and
    at ZOOM_MIN a zoom-out, leaves the level where it is. *)
Theorem zoom_steps_undo_each_other (s : sys) :
  magnifier_is_on (self s) = true ->
  zoom_in_range (self s) ->
  let z := zoom (self s) in
  ((z + ZOOM_STEP <= ZOOM_MAX)%Q ->
     (zoom (self (exec script_zoomOut (exec script_zoomIn s))) == z)%Q) /\
  ((ZOOM_MIN <= z - ZOOM_STEP)%Q ->
     (zoom (self (exec script_zoomIn (exec script_zoomOut s))) == z)%Q) /\
  ((z == ZOOM_MAX)%Q -> (zoom (self (exec script_zoomIn s)) == ZOOM_MAX)%Q) /\
  ((z == ZOOM_MIN)%Q -> (zoom (self (exec script_zoomOut s)) == ZOOM_MIN)%Q).
Proof.
  intros Hon Hz z. pose proof Hz as [Hlo Hhi]. fold z in Hlo, Hhi.
  unfold script_zoomIn, script_zoomOut.
  pose proof (zoom_keeps_session_on s 1 Hon Hz) as On1.
  pose proof (zoom_keeps_session_on s (-1) Hon Hz) as On2.
  rewrite (zoom_after _ (-1) On1), (zoom_after _ 1 On2).
  rewrite !(zoom_after s _ Hon).
  change (0 <? 1) with true. change (0 <? -1) with false. cbv iota.
  unfold ZOOM_MIN, ZOOM_MAX, ZOOM_STEP in *.
  assert (Mn : forall a b : Q, (a <= b)%Q -> (Py.min a b == a)%Q).
  { intros a b H. unfold Py.min. destruct (Py.ltb b a) eqn:E; [| reflexivity].
    apply ltb_spec in E. lra. }
  assert (Mn' : forall a b : Q, (b <= a)%Q -> (Py.min a b == b)%Q).
  { intros a b H. unfold Py.min. destruct (Py.ltb b a) eqn:E; [reflexivity |].
    apply ltb_false in E. lra. }
  assert (Mx : forall a b : Q, (b <= a)%Q -> (Py.max a b == a)%Q).
  { intros a b H. unfold Py.max, Py.gtb.
    destruct (Py.ltb a b) eqn:E; [| reflexivity]. apply ltb_spec in E. lra. }
  assert (Mx' : forall a b : Q, (a <= b)%Q -> (Py.max a b == b)%Q).
  { intros a b H. unfold Py.max, Py.gtb.
    destruct (Py.ltb a b) eqn:E; [reflexivity |]. apply ltb_false in E. lra. }
  subst z. repeat split; intro H.
  - pose proof (Mn _ _ H) as E1. eapply Qeq_trans; [apply Mx; lra | lra].
  - pose proof (Mx _ _ H) as E1. eapply Qeq_trans; [apply Mn; lra | lra].
  - apply Mn'. lra.
  - apply Mx'. lra.
Qed.

Lemma zoom_steps_undo_each_other_witness :
  (magnifier_is_on (self active_hd) = true /\ zoom_in_range (self active_hd) /\
   (zoom (self active_hd) + ZOOM_STEP <= ZOOM_MAX)%Q) /\
  (zoom (self (exec script_zoomOut (exec script_zoomIn active_hd)))
   == zoom (self active_hd))%Q.
Proof.
  assert (H1 : magnifier_is_on (self active_hd) = true) by reflexivity.
  assert (H2 : zoom_in_range (self active_hd))
    by (split; vm_compute; discriminate).
  assert (H3 : (zoom (self active_hd) + ZOOM_STEP <= ZOOM_MAX)%Q)
    by (vm_compute; discriminate).
  split; [auto |].
  exact (proj1 (zoom_steps_undo_each_other active_hd H1 H2) H3).
Defined.

(** X11.  In an active session the mode gesture flips the mode and nothing
    else: zoom, tracking state, timer, devices and armed timers are as they
    were and the only new event is the announcement.  Done twice, it gives
    back the plugin object it started from. *)
Theorem mode_toggle_is_an_involution (s : sys) :
  magnifier_is_on (self s) = true ->
  let s1 := exec script_toggleMouseMode s in
  let s2 := exec script_toggleMouseMode s1 in
  mode (self s1) <> mode (self s) /\
  set_mode (mode (self s)) (self s1) = self s /\
  devices (env s1) = devices (env s) /\
  running (env s1) = running (env s) /\
  (exists m, trace (env s1) = trace (env s) ++ [UiMessage m]) /\
  self s2 = self s.
Proof.
  intros Hon s1 s2. subst s2 s1. unfold exec.
  rewrite (toggleMouseMode_value s Hon).
  destruct s as [[tm on z lm ln l t md] w]; simpl in *.
  destruct md; simpl; rewrite toggleMouseMode_value by exact Hon; simpl;
    (repeat split; [discriminate | eexists; reflexivity]).
Qed.

Lemma mode_toggle_is_an_involution_witness :
  magnifier_is_on (self active_hd) = true /\
  mode (self (exec script_toggleMouseMode active_hd)) = border /\
  self (exec script_toggleMouseMode (exec script_toggleMouseMode active_hd))
    = self active_hd.
Proof.
  assert (H1 : magnifier_is_on (self active_hd) = true) by reflexivity.
  destruct (mode_toggle_is_an_involution active_hd H1) as (_ & _ & _ & _ & _ & E).
  split; [exact H1 |]. split; [reflexivity | exact E].
Defined.

(** ** Who moves the pointer *)

#[global] Instance no_warp_frame : FrameRel no_warp.
Proof.
  split.
  - intro s. split; [reflexivity |].
    exists []. split; [symmetry; apply app_nil_r | reflexivity].
  - intros a b c (C1 & l1 & T1 & F1) (C2 & l2 & T2 & F2).
    split; [congruence |].
    exists (l1 ++ l2). split.
    + rewrite T2, T1. symmetry. apply app_assoc.
    + rewrite forallb_app, F1, F2. reflexivity.
Qed.

Ltac warp_leaf :=
  unfold no_warp; simpl; split;
  [ reflexivity
  | first [ exists []; split; [symmetry; apply app_nil_r | reflexivity]
          | eexists; split; reflexivity ] ].

Lemma resetMagnifier_no_warp : preserves no_warp _resetMagnifier.
Proof. unfold _resetMagnifier. frame warp_leaf. Qed.
#[global] Hint Resolve resetMagnifier_no_warp : frame.

Lemma continueMagnifier_no_warp : preserves no_warp _continueMagnifier.
Proof. unfold _continueMagnifier. frame warp_leaf. Qed.
#[global] Hint Resolve continueMagnifier_no_warp : frame.

Lemma getNVDAPosition_no_warp : preserves no_warp _getNVDAPosition.
Proof. unfold _getNVDAPosition. frame warp_leaf. Qed.
#[global] Hint Resolve getNVDAPosition_no_warp : frame.

Lemma getMagnifierWindow_no_warp x y :
  preserves no_warp (_getMagnifierWindow x y).
Proof. unfold _getMagnifierWindow. frame warp_leaf. Qed.
#[global] Hint Resolve getMagnifierWindow_no_warp : frame.

Lemma centerMagnifier_no_warp x y : preserves no_warp (_centerMagnifier x y).
Proof. unfold _centerMagnifier. frame warp_leaf. Qed.
#[global] Hint Resolve centerMagnifier_no_warp : frame.

Lemma isMouseNearBorder_no_warp : preserves no_warp _isMouseNearBorder.
Proof. unfold _isMouseNearBorder. frame warp_leaf. Qed.
#[global] Hint Resolve isMouseNearBorder_no_warp : frame.

Lemma focusOnMouse_no_warp pos : preserves no_warp (_focusOnMouse pos).
Proof. unfold _focusOnMouse. frame warp_leaf. Qed.
#[global] Hint Resolve focusOnMouse_no_warp : frame.

(** X12.  The plugin moves the pointer only in a tick won by the
    accessibility source: the four gestures, and every tick in which the
    accessibility position is the one last seen, leave the pointer where it
    is and issue no [setCursorPos]. *)
Theorem pointer_warped_only_by_accessibility (s : sys) :
  no_warp s (exec script_toggleMagnifier s) /\
  no_warp s (exec script_zoomIn s) /\
  no_warp s (exec script_zoomOut s) /\
  no_warp s (exec script_toggleMouseMode s) /\
  (forall nvda_pos,
      eval _getNVDAPosition s = Ret nvda_pos ->
      nvda_pos = last_nvda_pos (self s) ->
      no_warp s (exec _chooseFocus s)).
Proof.
  assert (Z : forall d, preserves no_warp (_zoom d))
    by (intro d; unfold _zoom; frame warp_leaf).
  assert (T : preserves no_warp script_toggleMagnifier)
    by (unfold script_toggleMagnifier; frame warp_leaf).
  assert (U : preserves no_warp script_toggleMouseMode)
    by (unfold script_toggleMouseMode; frame warp_leaf).
  split; [apply T |]. split; [apply Z |]. split; [apply Z |].
  split; [apply U |].
  - intros nvda_pos Hread Hn.
    unfold exec at 1. rewrite (chooseFocus_head s nvda_pos Hread).
    assert (E : Py.point_neb (last_nvda_pos (self s)) nvda_pos = false)
      by (apply point_neb_false; congruence).
    rewrite E.
    apply frame_trans with (exec _getNVDAPosition s);
      [apply getNVDAPosition_no_warp |].
    match goal with
    | |- no_warp ?a (snd (?m ?a)) => change (no_warp a (exec m a))
    end.
    generalize (exec _getNVDAPosition s).
    change (preserves no_warp
              (if Py.point_neb (last_mouse_pos (self s)) (cursor (env s))
               then focus_pos <- _focusOnMouse (cursor (env s)) ;;
                    _centerMagnifier (fst focus_pos) (snd focus_pos)
               else _continueMagnifier)).
    frame warp_leaf.
Qed.

Lemma pointer_warped_only_by_accessibility_witness :
  (eval _getNVDAPosition tracking_session = Ret (0, 0) /\
   (0, 0) = last_nvda_pos (self tracking_session)) /\
  cursor (env (exec _chooseFocus tracking_session)) = (1000, 600).
Proof.
  assert (H1 : eval _getNVDAPosition tracking_session = Ret (0, 0))
    by (vm_compute; reflexivity).
  assert (H2 : (0, 0) = last_nvda_pos (self tracking_session))
    by (vm_compute; reflexivity).
  split; [auto |].
  destruct (proj2 (proj2 (proj2 (proj2
             (pointer_warped_only_by_accessibility tracking_session))))
             (0, 0) H1 H2) as [C _].
  rewrite C. vm_compute. reflexivity.
Defined.

(** ** Position sources *)

(** X13.  [_getNVDAPosition] prefers the review point; without one it
    returns the point (left + width // 2, top + height // 2) of the navigator
    object's rectangle, the offset being the floor of half the extent, which
    lies inside the rectangle when the extent is not negative; with neither
    it logs one line and returns (0, 0).  It never touches the plugin
    object. *)
Theorem nvda_position_fallbacks (s : sys) :
  (forall p, review_point (env s) = Some p ->
             _getNVDAPosition s = (Ret p, s)) /\
  (forall l t w h,
      review_point (env s) = None ->
      navigator_location (env s) = Some (l, t, w, h) ->
      _getNVDAPosition s = (Ret (l + w / 2, t + h / 2), s) /\
      2 * (w / 2) <= w < 2 * (w / 2) + 2 /\
      2 * (h / 2) <= h < 2 * (h / 2) + 2 /\
      (0 <= w -> l <= l + w / 2 <= l + w) /\
      (0 <= h -> t <= t + h / 2 <= t + h)) /\
  (review_point (env s) = None -> navigator_location (env s) = None ->
     _getNVDAPosition s
       = (Ret (0, 0), mkSys (self s) (emit (LogInfo LogNoLocation) (env s)))).
Proof.
  unfold _getNVDAPosition, bind, get_env, log_info, upd_env, ret.
  repeat split.
  - intros p Hp. rewrite Hp. reflexivity.
  - rewrite H, H0. reflexivity.
  - pose proof (Z.mul_div_le w 2 ltac:(lia)). lia.
  - pose proof (Z.mul_succ_div_gt w 2 ltac:(lia)). lia.
  - pose proof (Z.mul_div_le h 2 ltac:(lia)). lia.
  - pose proof (Z.mul_succ_div_gt h 2 ltac:(lia)). lia.
  - pose proof (Z.div_pos w 2 H1 ltac:(lia)). lia.
  - assert (w / 2 <= w) by (apply Z.div_le_upper_bound; lia). lia.
  - pose proof (Z.div_pos h 2 H1 ltac:(lia)). lia.
  - assert (h / 2 <= h) by (apply Z.div_le_upper_bound; lia). lia.
  - intros Hr Hn. rewrite Hr, Hn. reflexivity.
Qed.

Lemma nvda_position_fallbacks_witness :
  (review_point (env navigator_only) = None /\
   navigator_location (env navigator_only) = Some (100, 200, 31, 10) /\
   0 <= 31) /\
  _getNVDAPosition navigator_only = (Ret (115, 205), navigator_only) /\
  100 <= 115 <= 100 + 31.
Proof.
  assert (H1 : review_point (env navigator_only) = None) by reflexivity.
  assert (H2 : navigator_location (env navigator_only)
               = Some (100, 200, 31, 10)) by reflexivity.
  assert (H3 : 0 <= 31) by lia.
  split; [auto |].
  destruct (proj1 (proj2 (nvda_position_fallbacks navigator_only))
              100 200 31 10 H1 H2) as (E & _ & _ & Hx & _).
  split; [exact E | exact (Hx H3)].
Defined.

(** ** What a tick leaves alone *)

#[global] Instance settings_kept_frame : FrameRel settings_kept.
Proof.
  split.
  - intro s. repeat split.
  - intros a b c (A1 & A2 & A3 & A4 & A5 & A6 & A7 & A8)
                 (B1 & B2 & B3 & B4 & B5 & B6 & B7 & B8).
    repeat split; congruence.
Qed.

Ltac settings_leaf := repeat split.

Lemma chooseFocus_settings : preserves settings_kept _chooseFocus.
Proof.
  unfold _chooseFocus, _focusOnNvda, _focusOnMouse, _isMouseNearBorder,
         _centerMagnifier, _getMagnifierWindow, _continueMagnifier,
         _resetMagnifier, _getNVDAPosition.
  frame settings_leaf.
Qed.

(** ** Ticks won by the pointer *)

Lemma focusOnMouse_value (s : sys) (pos : Py.point) :
  Qeq_bool (zoom (self s)) 0 = false ->
  exists (ax ay : Q),
    _focusOnMouse pos s
      = (Ret (ax, ay),
         mkSys (set_last_screen ax ay
                  (set_last_mouse_pos
                     (match mode (self s) with
                      | center => pos
                      | border => cursor (env s)
                      end) (self s)))
               (env s)) /\
    (mode (self s) = center ->
       ax = Py.float (fst pos) /\ ay = Py.float (snd pos)) /\
    (mode (self s) = border ->
       eval _isMouseNearBorder
            (mkSys (set_last_mouse_pos pos (self s)) (env s)) = Ret (ax, ay)).
Proof.
  intro Hnz. unfold _focusOnMouse.
  erewrite exec_bind by reflexivity.
  erewrite exec_bind by reflexivity.
  simpl. destruct (mode (self s)).
  - do 2 eexists. split; [reflexivity |].
    split; [auto | discriminate].
  - set (s1 := mkSys _ _).
    assert (Hnz1 : Qeq_bool (zoom (self s1)) 0 = false) by exact Hnz.
    pose proof (isMouseNearBorder_value s1 _ _ _ _ (window_value s1 _ _ Hnz1))
      as E.
    do 2 eexists. split; [rewrite E; reflexivity |].
    split; [discriminate |]. intros _. unfold eval. rewrite E. reflexivity.
Qed.

(** In exact arithmetic: the tick won by the pointer, in either mode. *)
Lemma pointer_tick_value (s : sys) (nvda_pos : Py.point) :
  eval _getNVDAPosition s = Ret nvda_pos ->
  nvda_pos = last_nvda_pos (self s) ->
  cursor (env s) <> last_mouse_pos (self s) ->
  Qeq_bool (zoom (self s)) 0 = false ->
  let s' := exec _chooseFocus s in
  let ax := last_screen_left (self s') in
  let ay := last_screen_top (self s') in
  last_mouse_pos (self s') = cursor (env s) /\
  (mode (self s) = center ->
     ax = Py.float (fst (cursor (env s))) /\
     ay = Py.float (snd (cursor (env s)))) /\
  (mode (self s) = border ->
     eval _isMouseNearBorder
          (mkSys (set_last_mouse_pos (cursor (env s)) (self s))
                 (env (exec _getNVDAPosition s)))
       = Ret (ax, ay)) /\
  (exists left top visible_width visible_height l0 l1,
      eval (_getMagnifierWindow ax ay) s'
        = Ret (left, top, visible_width, visible_height) /\
      trace (env s')
        = trace (env s) ++ l0
          ++ transform_events (env s) (zoom (self s)) left top ++ l1 /\
      forallb (fun e => negb (is_transform e)) l0 = true /\
      forallb (fun e => negb (is_transform e)) l1 = true) /\
  last_nvda_pos (self s') = last_nvda_pos (self s) /\
  zoom (self s') = zoom (self s) /\
  mode (self s') = mode (self s) /\
  cursor (env s') = cursor (env s).
Proof.
  intros Hread Hn Hm Hnz s'.
  assert (Hm' : cursor (env s) <> last_mouse_pos (self s)) by exact Hm.
  pose proof (chooseFocus_mouse s nvda_pos Hread Hn Hm') as Etick.
  destruct (getNVDAPosition_state s) as (l0 & Es0 & Hl0).
  rewrite Es0 in *.
  set (s0 := mkSys (self s) (record l0 (env s))) in *.
  assert (Hnz0 : Qeq_bool (zoom (self s0)) 0 = false) by exact Hnz.
  destruct (focusOnMouse_value s0 (cursor (env s)) Hnz0)
    as (ax & ay & Ef & Hc & Hb).
  erewrite exec_bind in Etick by exact Ef. simpl fst in Etick. simpl snd in Etick.
  set (s1 := mkSys (set_last_screen ax ay _) (env s0)) in *.
  assert (Hnz1 : Qeq_bool (zoom (self s1)) 0 = false) by exact Hnz.
  rewrite (centerMagnifier_window s1 _ _ _ _ _ _ (window_value s1 _ _ Hnz1))
    in Etick.
  set (s2 := mkSys (self s1) _) in *.
  assert (Hs' : s' = exec _continueMagnifier s2)
    by (unfold s', exec; rewrite Etick; reflexivity).
  pose proof (continueMagnifier_driver s2) as D. rewrite <- Hs' in D.
  destruct (driver_only_fields _ _ D)
    as (D1 & D2 & D3 & D4 & D5 & D6 & D7 & D8 & _).
  destruct D as (_ & _ & l1 & Hl1).
  assert (Hnz' : Qeq_bool (zoom (self s')) 0 = false)
    by (rewrite D2; exact Hnz).
  assert (Hl1' : forallb (fun e => negb (is_transform e)) l1 = true).
  { assert (K : exists l, trace (env (exec _continueMagnifier s2))
                          = trace (env s2) ++ l /\
                          forallb (fun e => negb (is_transform e)) l = true).
    { unfold exec. destruct (magnifier_is_on (self s2)) eqn:E.
      - rewrite (continueMagnifier_on s2 E). simpl.
        exists []. split; [symmetry; apply app_nil_r | reflexivity].
      - rewrite (continueMagnifier_off s2 E).
        exists (reset_events (env s2)). split; [reflexivity |].
        change (reset_events (env s2)) with (reset_events (env s)).
        unfold reset_events.
        destruct (magnification (env s)) as [[|] |]; reflexivity. }
    destruct K as (l & Kl & Kf). rewrite <- Hs', Hl1 in Kl.
    apply app_inv_head in Kl. subst l. exact Kf. }
  simpl. rewrite D3, D5, D6, D4, D2, D7, D8.
  assert (Emouse : last_mouse_pos (self s2) = cursor (env s))
    by (simpl; destruct (mode (self s)); reflexivity).
  split; [exact Emouse |].
  split; [exact Hc |]. split; [exact Hb |].
  split; [| repeat split; reflexivity].
  do 4 eexists. exists l0, l1.
  split.
  { unfold eval. rewrite (window_value s' _ _ Hnz'). reflexivity. }
  split.
  { rewrite Hl1. simpl. rewrite D2.
    destruct (driver_only_fields _ _ (continueMagnifier_driver s2))
      as (_ & _ & _ & _ & _ & _ & _ & _ & _ & _ & _).
    assert (Esw : screen_width (env s') = screen_width (env s)).
    { destruct (continueMagnifier_driver s2) as (_ & Hd & _).
      rewrite <- Hs' in Hd. unfold devices in Hd. inversion Hd. reflexivity. }
    assert (Esh : screen_height (env s') = screen_height (env s)).
    { destruct (continueMagnifier_driver s2) as (_ & Hd & _).
      rewrite <- Hs' in Hd. unfold devices in Hd. inversion Hd. reflexivity. }
    rewrite Esw, Esh. rewrite <- !app_assoc. reflexivity. }
  split; [destruct Hl0 as [-> | ->]; reflexivity | exact Hl1'].
Qed.

(** X14.  In centre mode, on a zoom level and with C-int screen metrics and
    pointer coordinates, a tick in which the accessibility position is the
    one last seen and the pointer is not where it was last seen is won by the
    pointer: [last_mouse_pos] and the anchor
    become the pointer position, the one transform requested is the viewport
    centred on the pointer at the unchanged zoom, and [last_nvda_pos], zoom,
    mode and the pointer itself are left alone. *)
Theorem pointer_tick_renders_new_anchor (s : sys) (nvda_pos : Py.point) :
  eval _getNVDAPosition s = Ret nvda_pos ->
  nvda_pos = last_nvda_pos (self s) ->
  cursor (env s) <> last_mouse_pos (self s) ->
  mode (self s) = center ->
  on_pixel_grid s ->
  c_int (fst (cursor (env s))) -> c_int (snd (cursor (env s))) ->
  let s' := exec _chooseFocus s in
  let mouse_x := fst (cursor (env s)) in
  let mouse_y := snd (cursor (env s)) in
  last_mouse_pos (self s') = cursor (env s) /\
  last_screen_left (self s') = Py.float mouse_x /\
  last_screen_top (self s') = Py.float mouse_y /\
  (exists left top visible_width visible_height l0 l1,
      eval (_getMagnifierWindow mouse_x mouse_y) s
        = Ret (left, top, visible_width, visible_height) /\
      trace (env s')
        = trace (env s) ++ l0
          ++ transform_events (env s) (zoom (self s)) left top ++ l1 /\
      forallb (fun e => negb (is_transform e)) l0 = true /\
      forallb (fun e => negb (is_transform e)) l1 = true) /\
  last_nvda_pos (self s') = last_nvda_pos (self s) /\
  zoom (self s') = zoom (self s) /\
  mode (self s') = mode (self s) /\
  cursor (env s') = cursor (env s).
Proof.
  intros Hread Hn Hm Hmode [Hz _] _ _ s' mx my.
  pose proof (zoom_level_nonzero _ Hz) as Hnz.
  destruct (pointer_tick_value s nvda_pos Hread Hn Hm Hnz)
    as (A & Hc & _ & (left & top & vw & vh & l0 & l1 & W & T & F0 & F1)
        & B1 & B2 & B3 & B4).
  fold s' in A, Hc, W, T, B1, B2, B3, B4.
  destruct (Hc Hmode) as [Ex Ey].
  split; [exact A |]. split; [exact Ex |]. split; [exact Ey |].
  split; [| repeat split; assumption].
  exists left, top, vw, vh, l0, l1.
  split; [| repeat split; assumption].
  rewrite Ex, Ey in W. fold mx my in W.
  unfold eval in W |- *.
  assert (Hnz' : Qeq_bool (zoom (self s')) 0 = false)
    by (rewrite B2; exact Hnz).
  rewrite (window_value s' _ _ Hnz') in W.
  rewrite (window_value s _ _ Hnz).
  destruct (chooseFocus_settings s) as (_ & _ & _ & _ & _ & Ew & Eh & _).
  fold (exec _chooseFocus s) in Ew, Eh. fold s' in Ew, Eh.
  rewrite Ew, Eh, B2 in W. exact W.
Qed.

Lemma pointer_tick_renders_new_anchor_witness :
  (eval _getNVDAPosition tracking_session = Ret (0, 0) /\
   (0, 0) = last_nvda_pos (self tracking_session) /\
   cursor (env tracking_session) <> last_mouse_pos (self tracking_session) /\
   mode (self tracking_session) = center /\
   on_pixel_grid tracking_session /\
   c_int (fst (cursor (env tracking_session))) /\
   c_int (snd (cursor (env tracking_session)))) /\
  last_mouse_pos (self (exec _chooseFocus tracking_session)) = (1000, 600) /\
  last_screen_left (self (exec _chooseFocus tracking_session)) = 1000 /\
  last_screen_top (self (exec _chooseFocus tracking_session)) = 600.
Proof.
  assert (H1 : eval _getNVDAPosition tracking_session = Ret (0, 0))
    by (vm_compute; reflexivity).
  assert (H2 : (0, 0) = last_nvda_pos (self tracking_session))
    by (vm_compute; reflexivity).
  assert (H3 : cursor (env tracking_session)
               <> last_mouse_pos (self tracking_session))
    by (vm_compute; discriminate).
  assert (H4 : mode (self tracking_session) = center)
    by (vm_compute; reflexivity).
  assert (H5 : on_pixel_grid tracking_session).
  { split; [exists 1; split; [lia | vm_compute; reflexivity] |].
    split; c_int_holds. }
  assert (H6 : c_int (fst (cursor (env tracking_session))))
    by c_int_holds.
  assert (H7 : c_int (snd (cursor (env tracking_session))))
    by c_int_holds.
  split; [auto 8 |].
  destruct (pointer_tick_renders_new_anchor tracking_session (0, 0)
              H1 H2 H3 H4 H5 H6 H7) as (A & Bx & By & _).
  split; [rewrite A; vm_compute; reflexivity |].
  split; [rewrite Bx | rewrite By]; vm_compute; reflexivity.
Defined.

(** ** More on the border dead-zone *)

Lemma int_proper (a b : Q) : (a == b)%Q -> Py.int a = Py.int b.
Proof.
  intro H.
  pose proof (int_mono a b ltac:(lra)). pose proof (int_mono b a ltac:(lra)).
  lia.
Qed.

Lemma floor_unique (q : Q) (z : Z) :
  (Py.float z <= q)%Q -> (q < Py.float z + 1)%Q -> Qfloor q = z.
Proof.
  intros Hlo Hhi.
  pose proof (Qfloor_le q) as F1. pose proof (Qlt_floor q) as F2.
  rewrite float_add in F2. change (Py.float 1) with 1%Q in F2.
  fold (Py.float (Qfloor q)) in F1, F2.
  assert (A : (Py.float z < Py.float (Qfloor q) + 1)%Q) by lra.
  assert (B : (Py.float (Qfloor q) < Py.float z + 1)%Q) by lra.
  change 1%Q with (Py.float 1) in A, B. rewrite <- float_add in A, B.
  unfold Py.float in A, B. rewrite <- Zlt_Qlt in A, B. lia.
Qed.

(** Truncation commutes with adding an integer as long as both numbers are
    non-negative. *)
Lemma int_shift (q : Q) (n : Z) :
  (0 <= q)%Q -> (0 <= q + Py.float n)%Q ->
  Py.int (q + Py.float n) = Py.int q + n.
Proof.
  intros H0 H1. rewrite (int_floor _ H1), (int_floor _ H0).
  apply floor_unique.
  - rewrite float_add. pose proof (Qfloor_le q). 
    fold (Py.float (Qfloor q)) in *. lra.
  - rewrite float_add. pose proof (Qlt_floor q) as F.
    rewrite float_add in F. change (Py.float 1) with 1%Q in F.
    fold (Py.float (Qfloor q)) in *. lra.
Qed.

(** What a returned window tells about the state it was computed in. *)
Lemma window_inv (s : sys) (x y : Q) (left top : Z) (vw vh : Q) :
  _getMagnifierWindow x y s = (Ret (left, top, vw, vh), s) ->
  Qeq_bool (zoom (self s)) 0 = false /\
  vw = (screen_width (env s) / zoom (self s))%Q /\
  vh = (screen_height (env s) / zoom (self s))%Q /\
  left = Z.max 0 (Z.min (Py.int (x - vw / 2))
                        (Py.int (screen_width (env s) - vw))) /\
  top = Z.max 0 (Z.min (Py.int (y - vh / 2))
                       (Py.int (screen_height (env s) - vh))).
Proof.
  intro Hwin. destruct (Qeq_bool (zoom (self s)) 0) eqn:E.
  - unfold _getMagnifierWindow, bind, get_env, get_self, raise in Hwin.
    rewrite E in Hwin. discriminate.
  - rewrite (window_value s x y E) in Hwin. inversion Hwin; subst.
    repeat split; reflexivity.
Qed.

(** On one axis: the pointer in the near margin of an unclamped viewport. *)
Lemma near_margin_shift (a v : Q) (n m : Z) :
  let q := (a - v / 2)%Q in
  let lo := Z.max 0 (Z.min (Py.int q) (Py.int (n - v))) in
  lo = Py.int q -> (0 <= q)%Q ->
  MARGIN_BORDER <= m -> m < lo + MARGIN_BORDER ->
  let d := border_delta (Py.float (lo + MARGIN_BORDER))
                        (lo + v - MARGIN_BORDER) m in
  d = (Py.float m - Py.float (lo + MARGIN_BORDER))%Q /\
  Py.neb d 0 = true /\
  Z.max 0 (Z.min (Py.int (a + d - v / 2)) (Py.int (n - v)))
    = m - MARGIN_BORDER.
Proof.
  intros q lo Hlo Hq Hm1 Hm2 d.
  assert (Hd : d = (Py.float m - Py.float (lo + MARGIN_BORDER))%Q).
  { unfold d, border_delta.
    assert (E : Py.ltb m (Py.float (lo + MARGIN_BORDER)) = true).
    { apply ltb_spec. unfold Py.float. rewrite <- Zlt_Qlt. exact Hm2. }
    rewrite E. reflexivity. }
  assert (Hdq : (d == Py.float (m - (lo + MARGIN_BORDER)))%Q)
    by (rewrite Hd, float_sub; reflexivity).
  assert (Hneg : (Py.float (m - (lo + MARGIN_BORDER)) < 0)%Q).
  { change 0%Q with (Py.float 0). unfold Py.float. rewrite <- Zlt_Qlt. lia. }
  split; [exact Hd |]. split; [apply neb_true; lra |].
  assert (Hfl : (Py.float lo <= q)%Q) by (rewrite Hlo; apply int_below, Hq).
  assert (Hpos : (0 <= Py.float (m - MARGIN_BORDER))%Q)
    by (apply float_nonneg; lia).
  assert (Hsum : (0 <= q + Py.float (m - (lo + MARGIN_BORDER)))%Q).
  { rewrite float_sub, float_add. rewrite float_sub in Hpos. lra. }
  assert (Hint : Py.int (a + d - v / 2) = m - MARGIN_BORDER).
  { rewrite (int_proper _ (q + Py.float (m - (lo + MARGIN_BORDER))))
      by (unfold q; rewrite Hdq; ring).
    rewrite (int_shift _ _ Hq Hsum). lia. }
  rewrite Hint. fold q. lia.
Qed.

(** On one axis: a pointer exactly on the near margin line of a viewport at
    least two margins wide does not shift the anchor. *)
Lemma on_margin_no_shift (lo m : Z) (v : Q) :
  lo + MARGIN_BORDER = m -> (2 * MARGIN_BORDER <= v)%Q ->
  border_delta (Py.float (lo + MARGIN_BORDER)) (lo + v - MARGIN_BORDER) m = 0%Q.
Proof.
  intros Hm Hv. unfold border_delta, Py.gtb. rewrite Hm.
  assert (E1 : Py.ltb m (Py.float m) = false) by (apply ltb_false; lra).
  assert (E2 : Py.ltb (lo + v - MARGIN_BORDER) m = false).
  { apply ltb_false. rewrite <- Hm, float_add. unfold MARGIN_BORDER in *.
    change (Py.float 50) with 50%Q in *. lra. }
  rewrite E1, E2. reflexivity.
Qed.

(** In exact arithmetic: the pointer in the left or top margin of an
    unclamped viewport is put on the margin line. *)
Lemma border_follow_exact
    (s : sys) (left top : Z) (visible_width visible_height : Q) :
  let anchor_x := last_screen_left (self s) in
  let anchor_y := last_screen_top (self s) in
  let mouse_x := fst (cursor (env s)) in
  let mouse_y := snd (cursor (env s)) in
  _getMagnifierWindow anchor_x anchor_y s
    = (Ret (left, top, visible_width, visible_height), s) ->
  exists (new_x new_y : Q) (s' : sys) (left' top' : Z)
         (next_x next_y : Q) (s'' : sys),
    _isMouseNearBorder s = (Ret (new_x, new_y), s') /\
    _getMagnifierWindow new_x new_y s'
      = (Ret (left', top', visible_width, visible_height), s') /\
    _isMouseNearBorder s' = (Ret (next_x, next_y), s'') /\
    (left = Py.int (anchor_x - visible_width / 2) ->
     (0 <= anchor_x - visible_width / 2)%Q ->
     MARGIN_BORDER <= mouse_x -> mouse_x < left + MARGIN_BORDER ->
       left' + MARGIN_BORDER = mouse_x /\
       (new_x == anchor_x + (Py.float mouse_x
                             - Py.float (left + MARGIN_BORDER)))%Q /\
       ((2 * MARGIN_BORDER <= visible_width)%Q -> (next_x == new_x)%Q)) /\
    (top = Py.int (anchor_y - visible_height / 2) ->
     (0 <= anchor_y - visible_height / 2)%Q ->
     MARGIN_BORDER <= mouse_y -> mouse_y < top + MARGIN_BORDER ->
       top' + MARGIN_BORDER = mouse_y /\
       (new_y == anchor_y + (Py.float mouse_y
                             - Py.float (top + MARGIN_BORDER)))%Q /\
       ((2 * MARGIN_BORDER <= visible_height)%Q -> (next_y == new_y)%Q)).
Proof.
  intros ax ay mx my Hwin.
  destruct (window_inv s _ _ _ _ _ _ Hwin) as (Hnz & Evw & Evh & Eleft & Etop).
  pose proof (isMouseNearBorder_value s left top _ _ Hwin) as E1.
  fold mx my ax ay in E1.
  match type of E1 with
  | _ = (Ret (?a, ?b), ?st) =>
      set (nx := a) in *; set (ny := b) in *; set (s' := st) in *
  end.
  assert (Hnz' : Qeq_bool (zoom (self s')) 0 = false) by exact Hnz.
  pose proof (window_value s' nx ny Hnz') as W.
  change (screen_width (env s')) with (screen_width (env s)) in W.
  change (screen_height (env s')) with (screen_height (env s)) in W.
  change (zoom (self s')) with (zoom (self s)) in W.
  rewrite <- Evw, <- Evh in W.
  match type of W with
  | _ = (Ret (?l, ?t, _, _), _) => set (left' := l) in *; set (top' := t) in *
  end.
  pose proof (isMouseNearBorder_value s' left' top' _ _ W) as E2.
  pose proof (new_anchor_is_shift s' left' top' visible_width visible_height)
    as (Sx & Sy & _).
  change (last_screen_left (self s')) with nx in E2, Sx.
  change (last_screen_top (self s')) with ny in E2, Sy.
  change (cursor (env s')) with (cursor (env s)) in E2, Sx, Sy.
  fold mx my in E2, Sx, Sy.
  exists nx, ny, s', left', top'. do 3 eexists.
  split; [exact E1 |]. split; [exact W |]. split; [exact E2 |].
  split.
  - intros Hun Hq Hm1 Hm2.
    rewrite Eleft in Hun, Hm2.
    destruct (near_margin_shift ax visible_width (screen_width (env s)) mx
                Hun Hq Hm1 Hm2) as (Hd & Hne & Hl).
    rewrite <- Eleft in Hd, Hne, Hl.
    assert (Hnx : nx = (ax + border_delta (Py.float (left + MARGIN_BORDER))
                              (left + visible_width - MARGIN_BORDER) mx)%Q)
      by (unfold nx; rewrite Hne; reflexivity).
    assert (Hl' : left' + MARGIN_BORDER = mx)
      by (unfold left'; rewrite Hnx, Hl; lia).
    split; [exact Hl' |].
    split; [rewrite Hnx, Hd; reflexivity |]. intro Hwide.
    rewrite (on_margin_no_shift left' mx visible_width Hl' Hwide) in Sx |- *.
    eapply Qeq_trans; [exact Sx | ring].
  - intros Hun Hq Hm1 Hm2.
    rewrite Etop in Hun, Hm2.
    destruct (near_margin_shift ay visible_height (screen_height (env s)) my
                Hun Hq Hm1 Hm2) as (Hd & Hne & Hl).
    rewrite <- Etop in Hd, Hne, Hl.
    assert (Hny : ny = (ay + border_delta (Py.float (top + MARGIN_BORDER))
                              (top + visible_height - MARGIN_BORDER) my)%Q)
      by (unfold ny; rewrite Hne, orb_true_r; reflexivity).
    assert (Ht' : top' + MARGIN_BORDER = my)
      by (unfold top'; rewrite Hny, Hl; lia).
    split; [exact Ht' |].
    split; [rewrite Hny, Hd; reflexivity |]. intro Hwide.
    rewrite (on_margin_no_shift top' my visible_height Ht' Hwide) in Sy |- *.
    eapply Qeq_trans; [exact Sy | ring].
Qed.

(** X15.  Border mode does what its docstring says in the interior of the
    screen.  On a zoom level, with C-int screen metrics and the anchor on a
    whole pixel (where every centre-mode tick and every move at the left or
    top margin leaves it):
    when the viewport of the anchor is not clamped and the pointer enters its
    left margin (staying at least a margin away from the screen edge),
    [_isMouseNearBorder] moves the anchor so that the pointer is exactly on
    the margin line of the new viewport (new left + margin = pointer.x);
    calling it again with the pointer unmoved leaves the anchor's x where it
    is, the viewport being at least two margins wide.  Likewise for the top
    margin. *)
Theorem border_follow_puts_pointer_on_margin
    (s : sys) (left top : Z) (visible_width visible_height : Q) :
  let anchor_x := last_screen_left (self s) in
  let anchor_y := last_screen_top (self s) in
  let mouse_x := fst (cursor (env s)) in
  let mouse_y := snd (cursor (env s)) in
  on_pixel_grid s ->
  _getMagnifierWindow anchor_x anchor_y s
    = (Ret (left, top, visible_width, visible_height), s) ->
  exists (new_x new_y : Q) (s' : sys) (left' top' : Z)
         (next_x next_y : Q) (s'' : sys),
    _isMouseNearBorder s = (Ret (new_x, new_y), s') /\
    _getMagnifierWindow new_x new_y s'
      = (Ret (left', top', visible_width, visible_height), s') /\
    _isMouseNearBorder s' = (Ret (next_x, next_y), s'') /\
    (forall a : Z, (anchor_x == Py.float a)%Q ->
     left = Py.int (anchor_x - visible_width / 2) ->
     (0 <= anchor_x - visible_width / 2)%Q ->
     MARGIN_BORDER <= mouse_x -> mouse_x < left + MARGIN_BORDER ->
       left' + MARGIN_BORDER = mouse_x /\
       (new_x == Py.float (a + (mouse_x - (left + MARGIN_BORDER))))%Q /\
       ((2 * MARGIN_BORDER <= visible_width)%Q -> (next_x == new_x)%Q)) /\
    (forall b : Z, (anchor_y == Py.float b)%Q ->
     top = Py.int (anchor_y - visible_height / 2) ->
     (0 <= anchor_y - visible_height / 2)%Q ->
     MARGIN_BORDER <= mouse_y -> mouse_y < top + MARGIN_BORDER ->
       top' + MARGIN_BORDER = mouse_y /\
       (new_y == Py.float (b + (mouse_y - (top + MARGIN_BORDER))))%Q /\
       ((2 * MARGIN_BORDER <= visible_height)%Q -> (next_y == new_y)%Q)).
Proof.
  intros ax ay mx my _ Hwin.
  destruct (border_follow_exact s left top _ _ Hwin)
    as (nx & ny & s' & l' & t' & nx2 & ny2 & s'' & E1 & W & E2 & Hx & Hy).
  fold ax ay mx my in Hx, Hy.
  exists nx, ny, s', l', t', nx2, ny2, s''.
  split; [exact E1 |]. split; [exact W |]. split; [exact E2 |].
  split.
  - intros a Ha H1 H2 H3 H4. destruct (Hx H1 H2 H3 H4) as (K1 & K2 & K3).
    split; [exact K1 |]. split; [| exact K3].
    rewrite K2, Ha, (float_add a), (float_sub mx). reflexivity.
  - intros b Hb H1 H2 H3 H4. destruct (Hy H1 H2 H3 H4) as (K1 & K2 & K3).
    split; [exact K1 |]. split; [| exact K3].
    rewrite K2, Hb, (float_add b), (float_sub my). reflexivity.
Qed.

Lemma border_follow_puts_pointer_on_margin_witness :
  (on_pixel_grid margin_demo /\
   _getMagnifierWindow (last_screen_left (self margin_demo))
                       (last_screen_top (self margin_demo)) margin_demo
     = (Ret (480, 270, (1920 / 2)%Q, (1080 / 2)%Q), margin_demo) /\
   (last_screen_left (self margin_demo) == Py.float 960)%Q /\
   480 = Py.int (last_screen_left (self margin_demo) - 1920 / 2 / 2) /\
   (0 <= last_screen_left (self margin_demo) - 1920 / 2 / 2)%Q /\
   MARGIN_BORDER <= fst (cursor (env margin_demo)) /\
   fst (cursor (env margin_demo)) < 480 + MARGIN_BORDER) /\
  exists (new_x new_y : Q) (s' : sys) (left' top' : Z),
    _isMouseNearBorder margin_demo = (Ret (new_x, new_y), s') /\
    _getMagnifierWindow new_x new_y s'
      = (Ret (left', top', (1920 / 2)%Q, (1080 / 2)%Q), s') /\
    left' + MARGIN_BORDER = 500 /\
    (new_x == Py.float 930)%Q.
Proof.
  assert (H0 : on_pixel_grid margin_demo).
  { split; [exists 1; split; [lia | vm_compute; reflexivity] |].
    split; c_int_holds. }
  assert (H1 : _getMagnifierWindow (last_screen_left (self margin_demo))
                 (last_screen_top (self margin_demo)) margin_demo
               = (Ret (480, 270, (1920 / 2)%Q, (1080 / 2)%Q), margin_demo))
    by (vm_compute; reflexivity).
  assert (Ha : (last_screen_left (self margin_demo) == Py.float 960)%Q)
    by (vm_compute; reflexivity).
  assert (H2 : 480 = Py.int (last_screen_left (self margin_demo) - 1920 / 2 / 2))
    by (vm_compute; reflexivity).
  assert (H3 : (0 <= last_screen_left (self margin_demo) - 1920 / 2 / 2)%Q)
    by (vm_compute; discriminate).
  assert (H4 : MARGIN_BORDER <= fst (cursor (env margin_demo)))
    by (vm_compute; discriminate).
  assert (H5 : fst (cursor (env margin_demo)) < 480 + MARGIN_BORDER)
    by (vm_compute; reflexivity).
  split; [auto 8 |].
  destruct (border_follow_puts_pointer_on_margin margin_demo _ _ _ _ H0 H1)
    as (nx & ny & s' & l' & t' & nx2 & ny2 & s'' & E1 & W & _ & Hx & _).
  exists nx, ny, s', l', t'.
  split; [exact E1 |]. split; [exact W |].
  destruct (Hx 960 Ha H2 H3 H4 H5) as (K1 & K2 & _).
  split; [exact K1 |].
  rewrite K2. vm_compute. reflexivity.
Defined.

(** On one axis: the pointer in the margin of a viewport pinned at 0. *)
Lemma pinned_margin_shift (a v : Q) (n m : Z) :
  (a <= v / 2)%Q -> m < MARGIN_BORDER ->
  let lo := Z.max 0 (Z.min (Py.int (a - v / 2)) (Py.int (n - v))) in
  let d := border_delta (Py.float (lo + MARGIN_BORDER))
                        (lo + v - MARGIN_BORDER) m in
  lo = 0 /\
  Py.neb d 0 = true /\
  (a + d == a - (Py.float MARGIN_BORDER - Py.float m))%Q /\
  (a + d < a)%Q /\
  Z.max 0 (Z.min (Py.int (a + d - v / 2)) (Py.int (n - v))) = 0.
Proof.
  intros Ha Hm lo d.
  assert (Hlo : lo = 0).
  { pose proof (int_nonpos (a - v / 2) ltac:(lra)). unfold lo. lia. }
  assert (Hlt : (Py.float m < Py.float (lo + MARGIN_BORDER))%Q).
  { unfold Py.float. rewrite <- Zlt_Qlt. lia. }
  assert (Hd : d = (Py.float m - Py.float (lo + MARGIN_BORDER))%Q).
  { unfold d, border_delta. apply ltb_spec in Hlt. rewrite Hlt. reflexivity. }
  assert (Hm' : (Py.float (lo + MARGIN_BORDER) == Py.float MARGIN_BORDER)%Q)
    by (rewrite Hlo; reflexivity).
  split; [exact Hlo |].
  split; [apply neb_true; rewrite Hd; lra |].
  split; [rewrite Hd; lra |]. split; [rewrite Hd; lra |].
  pose proof (int_nonpos (a + d - v / 2) ltac:(rewrite Hd; lra)). lia.
Qed.

(** X16.  The anchor is not kept on the screen.  In border mode, while the
    anchor is within half a visible width of the left screen edge (so that
    the viewport is pinned at left = 0) and the pointer is in the first
    [MARGIN_BORDER] pixels, [_isMouseNearBorder] moves the anchor further
    left by margin - pointer.x; the viewport stays at left = 0 and the same
    holds again in the state it leaves, so the anchor goes on moving away on
    every such call.  Likewise at the top edge. *)
Theorem border_anchor_runs_away_at_the_edge
    (s : sys) (left top : Z) (visible_width visible_height : Q) :
  let anchor_x := last_screen_left (self s) in
  let anchor_y := last_screen_top (self s) in
  let mouse_x := fst (cursor (env s)) in
  let mouse_y := snd (cursor (env s)) in
  _getMagnifierWindow anchor_x anchor_y s
    = (Ret (left, top, visible_width, visible_height), s) ->
  exists (new_x new_y : Q) (s' : sys) (left' top' : Z),
    _isMouseNearBorder s = (Ret (new_x, new_y), s') /\
    last_screen_left (self s') = new_x /\
    last_screen_top (self s') = new_y /\
    _getMagnifierWindow new_x new_y s'
      = (Ret (left', top', visible_width, visible_height), s') /\
    ((anchor_x <= visible_width / 2)%Q -> mouse_x < MARGIN_BORDER ->
       left = 0 /\ left' = 0 /\
       (new_x == anchor_x - (Py.float MARGIN_BORDER - Py.float mouse_x))%Q /\
       (new_x < anchor_x)%Q /\ (new_x <= visible_width / 2)%Q) /\
    ((anchor_y <= visible_height / 2)%Q -> mouse_y < MARGIN_BORDER ->
       top = 0 /\ top' = 0 /\
       (new_y == anchor_y - (Py.float MARGIN_BORDER - Py.float mouse_y))%Q /\
       (new_y < anchor_y)%Q /\ (new_y <= visible_height / 2)%Q).
Proof.
  intros ax ay mx my Hwin.
  destruct (window_inv s _ _ _ _ _ _ Hwin) as (Hnz & Evw & Evh & Eleft & Etop).
  pose proof (isMouseNearBorder_value s left top _ _ Hwin) as E1.
  fold mx my ax ay in E1.
  match type of E1 with
  | _ = (Ret (?a, ?b), ?st) =>
      set (nx := a) in *; set (ny := b) in *; set (s' := st) in *
  end.
  assert (Hnz' : Qeq_bool (zoom (self s')) 0 = false) by exact Hnz.
  pose proof (window_value s' nx ny Hnz') as W.
  change (screen_width (env s')) with (screen_width (env s)) in W.
  change (screen_height (env s')) with (screen_height (env s)) in W.
  change (zoom (self s')) with (zoom (self s)) in W.
  rewrite <- Evw, <- Evh in W.
  match type of W with
  | _ = (Ret (?l, ?t, _, _), _) => set (left' := l) in *; set (top' := t) in *
  end.
  exists nx, ny, s', left', top'.
  split; [exact E1 |]. split; [reflexivity |]. split; [reflexivity |].
  split; [exact W |].
  split.
  - intros Ha Hm.
    destruct (pinned_margin_shift ax visible_width (screen_width (env s)) mx
                Ha Hm) as (Hl & Hne & Hs & Hlt & Hl').
    rewrite <- Eleft in Hl, Hne, Hs, Hlt, Hl'.
    assert (Hnx : nx = (ax + border_delta (Py.float (left + MARGIN_BORDER))
                              (left + visible_width - MARGIN_BORDER) mx)%Q)
      by (unfold nx; rewrite Hne; reflexivity).
    split; [exact Hl |].
    split; [unfold left'; rewrite Hnx; exact Hl' |].
    rewrite Hnx. split; [exact Hs |]. split; [exact Hlt | lra].
  - intros Ha Hm.
    destruct (pinned_margin_shift ay visible_height (screen_height (env s)) my
                Ha Hm) as (Hl & Hne & Hs & Hlt & Hl').
    rewrite <- Etop in Hl, Hne, Hs, Hlt, Hl'.
    assert (Hny : ny = (ay + border_delta (Py.float (top + MARGIN_BORDER))
                              (top + visible_height - MARGIN_BORDER) my)%Q)
      by (unfold ny; rewrite Hne, orb_true_r; reflexivity).
    split; [exact Hl |].
    split; [unfold top'; rewrite Hny; exact Hl' |].
    rewrite Hny. split; [exact Hs |]. split; [exact Hlt | lra].
Qed.

Lemma border_anchor_runs_away_at_the_edge_witness :
  (_getMagnifierWindow (last_screen_left (self edge_demo))
                       (last_screen_top (self edge_demo)) edge_demo
     = (Ret (0, 270, (1920 / 2)%Q, (1080 / 2)%Q), edge_demo) /\
   (last_screen_left (self edge_demo) <= 1920 / 2 / 2)%Q /\
   fst (cursor (env edge_demo)) < MARGIN_BORDER) /\
  exists (new_x new_y : Q) (s' : sys),
    _isMouseNearBorder edge_demo = (Ret (new_x, new_y), s') /\
    (new_x == 100 - (50 - 20))%Q.
Proof.
  assert (H1 : _getMagnifierWindow (last_screen_left (self edge_demo))
                 (last_screen_top (self edge_demo)) edge_demo
               = (Ret (0, 270, (1920 / 2)%Q, (1080 / 2)%Q), edge_demo))
    by (vm_compute; reflexivity).
  assert (H2 : (last_screen_left (self edge_demo) <= 1920 / 2 / 2)%Q)
    by (vm_compute; discriminate).
  assert (H3 : fst (cursor (env edge_demo)) < MARGIN_BORDER)
    by (vm_compute; reflexivity).
  split; [auto |].
  destruct (border_anchor_runs_away_at_the_edge edge_demo _ _ _ _ H1)
    as (nx & ny & s' & l' & t' & E1 & _ & _ & _ & Hx & _).
  exists nx, ny, s'. split; [exact E1 |].
  destruct (Hx H2 H3) as (_ & _ & Hs & _).
  rewrite Hs. vm_compute. reflexivity.
Defined.

(** ** The older plugin against the newer one *)

Ltac sim_start :=
  intros [[tm on z lm ln lx ly] wc nt] [ps ws] (Hs & Hd & Hr & Hn & Hf);
  destruct wc, ws; unfold devices in Hd; simpl in Hs, Hd, Hr, Hn, Hf;
  inversion Hd; subst; clear Hd.

(** Run both sides, splitting on whatever a branch depends on. *)
Ltac sim_run :=
  cbv [CenteredPlugin._chooseFocus CenteredPlugin._isNVDAMoving
       CenteredPlugin._isMouseMoving CenteredPlugin._centerMagnifier
       CenteredPlugin._continueMagnifier CenteredPlugin.script_ToggleMagnifier
       CenteredPlugin._zoom Centered._getMagnifierWindow
       CenteredPlugin.cbind CenteredPlugin.get CenteredPlugin.upd
       CenteredPlugin.log_note CenteredPlugin.lift CenteredPlugin.cret
       CenteredPlugin.as_latest
       _chooseFocus _focusOnNvda _focusOnMouse _centerMagnifier
       _getMagnifierWindow _continueMagnifier _resetMagnifier
       _getNVDAPosition _getMousePosition setCursorPos script_toggleMagnifier
       _zoom ui_message log_info Stop CallLater
       bind ret raise get_self get_env upd_self upd_env];
  repeat (cbn;
          match goal with
          | |- context [match ?x with _ => _ end] => is_var x; destruct x
          | |- context [match negb ?x with _ => _ end] => is_var x; destruct x
          | |- context [match ?x with _ => _ end] =>
              lazymatch type of x with bool => destruct x eqn:? end
          end);
  cbn.

Ltac sim_done Hf :=
  split; [reflexivity |];
  repeat split; cbn; rewrite ?filter_app, ?Hf; cbn;
  rewrite ?app_nil_r, <- ?app_assoc; reflexivity.

Lemma continueMagnifier_simulates :
  simulates CenteredPlugin._continueMagnifier _continueMagnifier.
Proof.
  sim_start. sim_run; sim_done Hf.
Qed.

Lemma chooseFocus_simulates :
  simulates CenteredPlugin._chooseFocus _chooseFocus.
Proof.
  sim_start. sim_run; sim_done Hf.
Qed.

Lemma toggle_simulates :
  simulates CenteredPlugin.script_ToggleMagnifier script_toggleMagnifier.
Proof.
  sim_start. sim_run; sim_done Hf.
Qed.

Lemma zoom_simulates (direction : Z) :
  simulates (CenteredPlugin._zoom direction) (_zoom direction).
Proof.
  sim_start. sim_run; sim_done Hf.
Qed.

Lemma fire_simulates (t : timer_id) :
  simulates (CenteredPlugin.fire t) (fire t).
Proof.
  sim_start. unfold CenteredPlugin.fire, fire. sim_run; sim_done Hf.
Qed.

Lemma step_simulates (a : action) :
  a <> ToggleMouseMode -> simulates (CenteredPlugin.step a) (step a).
Proof.
  intro Ha. destruct a; simpl; try contradiction.
  - apply toggle_simulates.
  - apply zoom_simulates.
  - apply zoom_simulates.
  - apply fire_simulates.
  - sim_start. sim_run; sim_done Hf.
  - sim_start. sim_run; sim_done Hf.
Qed.

Lemma run_simulates (l : list action) :
  Forall (fun a => a <> ToggleMouseMode) l ->
  forall c s, same_session c s -> same_session (CenteredPlugin.run l c) (run l s).
Proof.
  induction 1 as [| a l Ha Hl IH]; intros c s Hsim; simpl; [exact Hsim |].
  apply IH. apply (step_simulates a Ha c s Hsim).
Qed.

(** X17.  The older plugin is the newer one with the mode left at centre.
    Started in the same world and driven by the same gestures, timer ticks
    and outside events (the mode gesture aside, which the older plugin does
    not have), the two hold the same fields, the same armed timers, and have
    made the same renderer calls and pointer warps in the same order; and
    each step returns or raises in the one exactly as in the other. *)
Theorem older_plugin_is_newer_in_centre_mode (w : world) (l : list action) :
  Forall (fun a => a <> ToggleMouseMode) l ->
  let c := CenteredPlugin.run l
             (CenteredPlugin.mkState CenteredPlugin.__init__ w []) in
  let s := run l (mkSys __init__ w) in
  same_session c s /\
  (forall a, a <> ToggleMouseMode ->
     CenteredPlugin.ceval (CenteredPlugin.step a) c = eval (step a) s).
Proof.
  intros Hl c s.
  assert (Hsim : same_session c s).
  { apply run_simulates; [exact Hl |]. repeat split. }
  split; [exact Hsim |].
  intros a Ha. apply (step_simulates a Ha c s Hsim).
Qed.

Lemma older_plugin_is_newer_in_centre_mode_witness :
  Forall (fun a => a <> ToggleMouseMode)
         [Toggle; PointerMoves (1000, 600); TimerFires 0%nat; ZoomIn] /\
  same_session
    (CenteredPlugin.run
       [Toggle; PointerMoves (1000, 600); TimerFires 0%nat; ZoomIn]
       (CenteredPlugin.mkState CenteredPlugin.__init__ (env full_hd) []))
    (run [Toggle; PointerMoves (1000, 600); TimerFires 0%nat; ZoomIn]
         (mkSys __init__ (env full_hd))).
Proof.
  assert (H : Forall (fun a => a <> ToggleMouseMode)
                [Toggle; PointerMoves (1000, 600); TimerFires 0%nat; ZoomIn])
    by (repeat constructor; discriminate).
  split; [exact H |].
  exact (proj1 (older_plugin_is_newer_in_centre_mode (env full_hd) _ H)).
Defined.

(** X18.  So the older plugin, too, keeps its zoom within bounds and only
    ever asks the renderer for valid transforms, whatever is done to it
    (its screen being at least one pixel each way). *)
Theorem older_plugin_renders_validly (w : world) (l : list action) :
  1 <= screen_width w -> 1 <= screen_height w -> trace w = [] ->
  Forall (fun a => a <> ToggleMouseMode) l ->
  let c := CenteredPlugin.run l
             (CenteredPlugin.mkState CenteredPlugin.__init__ w []) in
  (ZOOM_MIN <= CenteredPlugin.zoom (CenteredPlugin.cself c))%Q /\
  (CenteredPlugin.zoom (CenteredPlugin.cself c) <= ZOOM_MAX)%Q /\
  Forall (valid_transform (screen_width w) (screen_height w))
         (trace (CenteredPlugin.cenv c)).
Proof.
  intros Hw Hh Ht Hl c.
  destruct (run_simulates l Hl
              (CenteredPlugin.mkState CenteredPlugin.__init__ w [])
              (mkSys __init__ w) ltac:(repeat split))
    as (Hs & _ & _ & _ & Hf).
  fold c in Hs, Hf.
  pose proof (run_keeps_range l (mkSys __init__ w)
                ltac:(split; vm_compute; discriminate)) as [Zlo Zhi].
  rewrite Hs in Zlo, Zhi. simpl in Zlo, Zhi.
  split; [exact Zlo |]. split; [exact Zhi |].
  assert (V : Forall (valid_transform (screen_width w) (screen_height w))
                     (filter visible (trace (env (run l (mkSys __init__ w)))))).
  { apply Forall_forall. intros e He. apply filter_In in He.
    destruct He as [He _]. revert e He. apply Forall_forall.
    destruct (run_valid l _ (start_renders_validly w Hw Hh Ht))
      as (_ & _ & _ & Hall).
    destruct (run_screen l (mkSys __init__ w)) as [Dw Dh]. simpl in Dw, Dh.
    rewrite Dw, Dh in Hall. exact Hall. }
  rewrite Hf in V.
  apply Forall_forall. intros e He.
  destruct (visible e) eqn:Ev.
  - rewrite Forall_forall in V. apply V. apply filter_In. auto.
  - destruct e; try exact I. discriminate Ev.
Qed.

Lemma older_plugin_renders_validly_witness :
  (1 <= screen_width (env full_hd) /\ 1 <= screen_height (env full_hd) /\
   trace (env full_hd) = [] /\
   Forall (fun a => a <> ToggleMouseMode)
          [Toggle; PointerMoves (1900, 1000); TimerFires 0%nat; ZoomIn]) /\
  Forall (valid_transform 1920 1080)
         (trace (CenteredPlugin.cenv
                   (CenteredPlugin.run
                      [Toggle; PointerMoves (1900, 1000); TimerFires 0%nat;
                       ZoomIn]
                      (CenteredPlugin.mkState CenteredPlugin.__init__
                                              (env full_hd) [])))).
Proof.
  assert (H1 : 1 <= screen_width (env full_hd)) by (vm_compute; discriminate).
  assert (H2 : 1 <= screen_height (env full_hd)) by (vm_compute; discriminate).
  assert (H3 : trace (env full_hd) = []) by reflexivity.
  assert (H4 : Forall (fun a => a <> ToggleMouseMode)
                 [Toggle; PointerMoves (1900, 1000); TimerFires 0%nat; ZoomIn])
    by (repeat constructor; discriminate).
  split; [auto |].
  exact (proj2 (proj2 (older_plugin_renders_validly (env full_hd) _
                         H1 H2 H3 H4))).
Defined.

(** X19.  A timer tick never changes the settings: whatever branch it takes,
    and even if it raises, the activity flag, the zoom level and the mode
    are what they were, and so is everything the screen reader, the screen
    metrics and the magnification API report. *)
Theorem tick_keeps_settings (s : sys) (t : timer_id) :
  settings_kept s (exec _chooseFocus s) /\ settings_kept s (exec (fire t) s).
Proof.
  pose proof chooseFocus_settings as K.
  split; [apply K |].
  revert s. change (preserves settings_kept (fire t)).
  unfold fire. frame settings_leaf.
Qed.
